(** * Calva nREPL connector: a shallow embedding of [src/src/lsp.ts]

    The second module of the source file (the connector, from the line
    [import * as _ from 'lodash'] on) is embedded here: project root
    resolution, the nREPL connection orchestrator, the ClojureScript REPL
    type registry and the evaluation connect protocol.

    The code is asynchronous but runs on one logical thread; every function
    is embedded as a computation in a state-and-exception monad over a
    [World] that holds the shared state store, the module level variables
    and a trace of the calls made to the editor and to the nREPL client.
    What the collaborators answer (the user, the file system, the nREPL
    server) is a parameter of the embedding, the record [Env]. *)

From Stdlib Require Import ZArith QArith Qabs Qpower List Ascii String Bool Lia.
From stdpp Require Import base gmap strings list.

Local Open Scope string_scope.
Local Open Scope Z_scope.

(** ** JavaScript values *)

Module JS.

(** A JavaScript number read by [parseFloat]. The source only ever builds
    numbers from decimal text, so a finite number is kept as the exact decimal
    it was read from: [Dec neg m e] is [(-1)^neg * m * 10^e]. The IEEE double
    the engine holds is the nearest binary64 to that decimal; the comparisons
    below say what rounding does at the two bounds the source compares
    against. *)
Inductive JSNumber : Type :=
| NaN
| Inf (neg : bool)
| Dec (neg : bool) (m : N) (e : Z).

Definition Q_of_dec (neg : bool) (m : N) (e : Z) : Q :=
  ((if neg then -1 else 1) * inject_Z (Z.of_N m) * (10 ^ e))%Q.

(** Half of the least positive double, [2^-1075]: a real [x] rounds to a
    double above zero exactly when [x] is above it (the tie goes to the even
    neighbour, zero). *)
Definition half_min_double : Q := 1 # (2 ^ 1075)%positive.

(** The midpoint between [65536] and the double just below it,
    [65536 - 2^-38]: a real [x] rounds to a double below [65536] exactly when
    [x] is below it (the tie goes to the even neighbour, [65536]). *)
Definition below_65536 : Q := (65536 - (1 # (2 ^ 38)%positive))%Q.

Definition Qltb (a b : Q) : bool := negb (Qle_bool b a).

(** [n > 0] *)
Definition gt_zero (n : JSNumber) : bool :=
  match n with
  | NaN => false
  | Inf neg => negb neg
  | Dec neg m e => Qltb half_min_double (Q_of_dec neg m e)
  end.

(** [n < 65536] *)
Definition lt_65536 (n : JSNumber) : bool :=
  match n with
  | NaN => false
  | Inf neg => neg
  | Dec neg m e => Qltb (Q_of_dec neg m e) below_65536
  end.

(** ToBoolean of a number: false for NaN and for both zeros. *)
Definition number_truthy (n : JSNumber) : bool :=
  match n with
  | NaN => false
  | Inf _ => true
  | Dec neg m e => Qltb half_min_double (Qabs (Q_of_dec neg m e))
  end.

(** *** Strings *)

Definition is_digit (c : ascii) : bool :=
  ((48 <=? nat_of_ascii c)%nat && (nat_of_ascii c <=? 57)%nat)%bool.

Definition digit_value (c : ascii) : N := N.of_nat (nat_of_ascii c - 48).

(** WhiteSpace and LineTerminator code points below 128. *)
Definition is_space (c : ascii) : bool :=
  let n := nat_of_ascii c in
  ((n =? 9) || (n =? 10) || (n =? 11) || (n =? 12) || (n =? 13) || (n =? 32))%nat%bool.

Fixpoint trim_start (s : string) : string :=
  match s with
  | String c s' => if is_space c then trim_start s' else s
  | EmptyString => s
  end.

(** [span_digits acc n s]: reads the longest run of decimal digits at the head
    of [s]; returns its value appended to the digits already in [acc], the
    number of digits read added to [n], and the rest of [s]. *)
Fixpoint span_digits (acc : N) (n : nat) (s : string) : N * nat * string :=
  match s with
  | String c s' =>
      if is_digit c then span_digits (10 * acc + digit_value c)%N (S n) s'
      else (acc, n, s)
  | EmptyString => (acc, n, s)
  end.

(** ExponentPart: [e] or [E], an optional sign, at least one digit. Without
    a digit the exponent is not part of the longest literal and counts 0. *)
Definition exponent_part (s : string) : Z :=
  match s with
  | String c s' =>
      if (Ascii.eqb c "e" || Ascii.eqb c "E")%bool then
        let '(neg, s'') :=
          match s' with
          | String "+" r => (false, r)
          | String "-" r => (true, r)
          | _ => (false, s')
          end in
        let '(v, n, _) := span_digits 0 0 s'' in
        match n with
        | O => 0
        | S _ => if neg then - Z.of_N v else Z.of_N v
        end
      else 0
  | EmptyString => 0
  end.

(** StrUnsignedDecimalLiteral, the longest prefix of [s] that is one. *)
Definition unsigned_literal (neg : bool) (s : string) : JSNumber :=
  if String.prefix "Infinity" s then Inf neg
  else
    let '(i, ni, r) := span_digits 0 0 s in
    match r with
    | String "." r' =>
        let '(m, nf, r'') := span_digits i 0 r' in
        match ni, nf with
        | O, O => NaN
        | _, _ => Dec neg m (exponent_part r'' - Z.of_nat nf)
        end
    | _ =>
        match ni with
        | O => NaN
        | S _ => Dec neg i (exponent_part r)
        end
    end.

(** The global [parseFloat] applied to a string. *)
Definition parseFloat_string (s : string) : JSNumber :=
  match trim_start s with
  | String "+" r => unsigned_literal false r
  | String "-" r => unsigned_literal true r
  | t => unsigned_literal false t
  end.

(** [s.split(':')] *)
Fixpoint split_colon_aux (cur : string) (s : string) : list string :=
  match s with
  | EmptyString => [cur]
  | String c s' =>
      if Ascii.eqb c ":" then cur :: split_colon_aux "" s'
      else split_colon_aux (cur ++ String c "") s'
  end.

Definition split_colon (s : string) : list string := split_colon_aux "" s.

(** [x.search(pat)] for a pattern without regular expression operators: the
    index of the first occurrence of [pat] in [x], or [-1]. *)
Fixpoint search_from (i : Z) (pat x : string) : Z :=
  if String.prefix pat x then i
  else match x with
       | EmptyString => -1
       | String _ x' => search_from (i + 1) pat x'
       end.

Definition search (x pat : string) : Z := search_from 0 pat x.

(** The escape byte, U+001B. *)
Definition ESC : ascii := ascii_of_nat 27.

Fixpoint has_escape (s : string) : bool :=
  match s with
  | EmptyString => false
  | String c s' => (Ascii.eqb c ESC || has_escape s')%bool
  end.

End JS.

Import JS.


(** ** Values, the world and the collaborators *)

(** An absolute, normalised file system path, as its segments from the root:
    [["repo"; "sub"]] is [/repo/sub], [[]] is the root. *)
Definition Path : Type := list string.

(** [path.resolve(d, name)] for a plain file name. *)
Definition path_resolve (d : Path) (name : string) : Path := (d ++ [name])%list.

(** [path.resolve(d, "..")] and [path.dirname(p)]: the parent directory; the
    root is its own parent. *)
Definition path_parent (d : Path) : Path := removelast d.

Definition path_to_string (p : Path) : string :=
  match p with
  | [] => "/"
  | _ => String.concat "" (map (fun seg => "/" ++ seg) p)
  end.

Inductive Value : Type :=
| VUndef
| VNull
| VBool (b : bool)
| VNum (n : JSNumber)
| VStr (s : string)
| VPath (p : Path)            (* a string that is a file system path *)
| VSession (id : nat)         (* an NReplSession object, by identity *)
| VFolder (root : Path).      (* a vscode.WorkspaceFolder *)

(** ToBoolean. *)
Definition truthy (v : Value) : bool :=
  match v with
  | VUndef | VNull => false
  | VBool b => b
  | VNum n => number_truthy n
  | VStr s => negb (String.eqb s "")
  | VPath _ | VSession _ | VFolder _ => true
  end.

(** [a == b] on what the session slots hold: objects are compared by
    identity, [null] and [undefined] are equal to each other and to nothing
    else, strings and booleans by content. (Coercions between different
    primitive types and numbers never reach a session slot.) *)
Definition loose_eq (a b : Value) : bool :=
  match a, b with
  | (VUndef | VNull), (VUndef | VNull) => true
  | VBool x, VBool y => Bool.eqb x y
  | VStr x, VStr y => String.eqb x y
  | VPath x, VPath y => bool_decide (x = y)
  | VSession i, VSession j => Nat.eqb i j
  | VFolder x, VFolder y => bool_decide (x = y)
  | _, _ => false
  end.

(** String conversion inside a template literal or [+]. *)
Definition to_text (v : Value) : string :=
  match v with
  | VUndef => "undefined"
  | VNull => "null"
  | VBool true => "true"
  | VBool false => "false"
  | VStr s => s
  | VPath p => path_to_string p
  | VNum _ => "[number]"
  | VSession _ | VFolder _ => "[object Object]"
  end.

(** What a JavaScript [throw] carries. *)
Inductive Exn : Type :=
| Thrown (v : string)          (* [throw "Aborted"] *)
| TypeError (msg : string)     (* a property read on undefined or null *)
| Failure (msg : string).      (* an Error raised by a collaborator *)

Definition exn_text (e : Exn) : string :=
  match e with
  | Thrown v => v
  | TypeError msg => "TypeError: " ++ msg
  | Failure msg => "Error: " ++ msg
  end.

Inductive Res (A : Type) : Type :=
| Ok (a : A)
| Throw (e : Exn).
Arguments Ok {A} a.
Arguments Throw {A} e.

(** The NReplClient object: its default session and the ad hoc [silent]
    property the connector stashes on it. *)
Record Client : Type := mkClient { client_session : nat; client_silent : bool }.

(** One chunk of output of an evaluation. *)
Inductive Chunk : Type :=
| Stdout (x : string)
| Stderr (x : string).

(** What an evaluation on a session produces: its output chunks in arrival
    order, then its value; [None] when the value promise is rejected. *)
Record EvalOutcome : Type := mkEval { eval_chunks : list Chunk; eval_value : option string }.

(** Calls made to the collaborators, in order. *)
Inductive Event : Type :=
| Analytics (category action : string) (label : Value)
| ChanAppendLine (line : string)           (* state.outputChannel().appendLine *)
| ChanShow                                 (* state.outputChannel().show(true) *)
| LogAppend (text : string)                (* state.connectionLogChannel().append *)
| ConsoleError (msg : string)
| ShowErrorMessage (msg : string)
| StatusUpdate                             (* status.update() *)
| ClientCreate (host : string) (port : JSNumber)
| ClientClose (c : Client)
| OpenReplWindow (kind : string)
| ReconnectReplWindow (kind : string)
| OpenBrowser (url : string)               (* open(url) *)
| DisconnectCallback
| ProcessorRan (tag : nat) (x : string).   (* a probe, see [probe] below *)

Record World : Type := mkWorld {
  store : gmap string Value;            (* state.cursor / state.deref() *)
  workspaceState : gmap string Value;   (* state.extensionContext.workspaceState *)
  nClient : option Client;              (* export let nClient *)
  cljSession : Value;                   (* export let cljSession *)
  cljsSession : Value;                  (* export let cljsSession *)
  clones : nat;                         (* session.clone() calls so far *)
  trace : list Event
}.

Record customCLJSREPLType : Type := mkCustom {
  custom_name : string;
  startCode : string;
  tellUserToStartRegExp : option string;
  printThisLineRegExp : option string;
  connectedRegExp : string
}.

(** The collaborators' answers. *)
Record Env : Type := mkEnv {
  stripAnsi : string -> string;                     (* util.stripAnsi *)
  nreplCreate : string -> JSNumber -> Res nat;      (* NReplClient.create: the client's session *)
  sessionClone : nat -> nat -> Res Value;           (* session.clone(), by parent and call number *)
  sessionEval : nat -> string -> EvalOutcome;       (* session.eval(code, handlers) *)
  openReplWindow : string -> Res unit;
  reconnectReplWindow : string -> Res unit;
  showInputBox : string -> option string;           (* by the prefilled value *)
  quickPickSingle : list string -> string -> option string; (* by values and saveAs *)
  quickPickMulti : list string -> string -> option (list string);
  readdirSync : Value -> Res (list string);
  existsSync : Path -> bool;
  shadowBuildKeys : Value -> Res (list string);     (* keys of parseEdn(shadow-cljs.edn).builds *)
  openBrowserWhenFigwheelStarted : bool;            (* state.config() *)
  customCljsRepl : option customCLJSREPLType;       (* state.config() *)
  regexSearch : string -> string -> Z;              (* x.search(pattern), by pattern and x *)
  regexMatch : string -> string -> option string;   (* x.match(pattern)[0], by pattern and x *)
  activeDocument : option Path;                     (* util.getDocument({}).uri.fsPath *)
  workspaceFolderOf : Path -> option Path           (* vscode.workspace.getWorkspaceFolder *)
}.

(** ** The state and exception monad *)

Definition M (A : Type) : Type := World -> Res A * World.

Definition ret {A} (a : A) : M A := fun w => (Ok a, w).

Definition bind {A B} (m : M A) (k : A -> M B) : M B :=
  fun w => match m w with
           | (Ok a, w') => k a w'
           | (Throw e, w') => (Throw e, w')
           end.

Definition throw {A} (e : Exn) : M A := fun w => (Throw e, w).

(** [try { m } catch (e) { h(e) }] *)
Definition try_catch {A} (m : M A) (h : Exn -> M A) : M A :=
  fun w => match m w with
           | (Ok a, w') => (Ok a, w')
           | (Throw e, w') => h e w'
           end.

Definition lift {A} (r : Res A) : M A := fun w => (r, w).

Declare Scope js_scope.
Delimit Scope js_scope with js.
Notation "'let*' x ':=' c1 'in' c2" := (bind c1 (fun x => c2))
  (at level 10, x pattern, c1 at level 100, c2 at level 200) : js_scope.
Notation "c1 ';;;' c2" := (bind c1 (fun _ => c2))
  (at level 100, c2 at level 200, right associativity) : js_scope.
Local Open Scope js_scope.

Definition emit (ev : Event) : M unit :=
  fun w => (Ok tt, mkWorld (store w) (workspaceState w) (nClient w) (cljSession w)
                           (cljsSession w) (clones w) (trace w ++ [ev])%list).

(** [state.cursor.set(k, v)] *)
Definition cursor_set (k : string) (v : Value) : M unit :=
  fun w => (Ok tt, mkWorld (<[k := v]> (store w)) (workspaceState w) (nClient w)
                           (cljSession w) (cljsSession w) (clones w) (trace w)).

(** [state.deref().get(k)] *)
Definition cursor_get (k : string) : M Value :=
  fun w => (Ok (default VUndef (store w !! k)), w).

Definition workspaceState_update (k : string) (v : Value) : M unit :=
  fun w => (Ok tt, mkWorld (store w) (<[k := v]> (workspaceState w)) (nClient w)
                           (cljSession w) (cljsSession w) (clones w) (trace w)).

Definition workspaceState_get (k : string) : M Value :=
  fun w => (Ok (default VUndef (workspaceState w !! k)), w).

Definition set_nClient (c : option Client) : M unit :=
  fun w => (Ok tt, mkWorld (store w) (workspaceState w) c (cljSession w)
                           (cljsSession w) (clones w) (trace w)).

Definition set_cljSession (v : Value) : M unit :=
  fun w => (Ok tt, mkWorld (store w) (workspaceState w) (nClient w) v
                           (cljsSession w) (clones w) (trace w)).

Definition set_cljsSession (v : Value) : M unit :=
  fun w => (Ok tt, mkWorld (store w) (workspaceState w) (nClient w) (cljSession w)
                           v (clones w) (trace w)).

Definition get_nClient : M (option Client) := fun w => (Ok (nClient w), w).

Definition logEvent (category action : string) (label : Value) : M unit :=
  emit (Analytics category action label).
Definition chan_appendLine (line : string) : M unit := emit (ChanAppendLine line).
Definition status_update : M unit := emit StatusUpdate.
Definition console_error (msg : string) : M unit := emit (ConsoleError msg).

(** [for (const x of xs) f(x)] *)
Fixpoint for_each {A} (f : A -> M unit) (xs : list A) : M unit :=
  match xs with
  | [] => ret tt
  | x :: xs' => f x ;;; for_each f xs'
  end.

(** The double quote and the line feed, which a string literal cannot hold. *)
Definition dq : string := String (ascii_of_nat 34) EmptyString.
Definition lf : string := String (ascii_of_nat 10) EmptyString.

(** More string helpers of the registry. *)

(** [x.replace(/SUF$/, "")] for a literal, non-empty [suf]. *)
Fixpoint strip_suffix (suf s : string) : string :=
  if String.eqb s suf then ""
  else match s with
       | EmptyString => s
       | String c s' => String c (strip_suffix suf s')
       end.

(** The text after the first occurrence of [pat] in [x]. *)
Fixpoint after_first (pat x : string) : option string :=
  if String.prefix pat x then Some (substring (String.length pat) (String.length x) x)
  else match x with
       | EmptyString => None
       | String _ x' => after_first pat x'
       end.

(** What the capture group (dot star) takes: everything up to the first
    line terminator. *)
Fixpoint rest_of_line (s : string) : string :=
  match s with
  | EmptyString => ""
  | String c s' =>
      if ((nat_of_ascii c =? 10) || (nat_of_ascii c =? 13))%nat%bool then ""
      else String c (rest_of_line s')
  end.

(** [xs.map(x => `"${x}"`).join(" ")] *)
Definition quoted_join (xs : list string) : string :=
  String.concat " " (map (fun x => dq ++ x ++ dq) xs).

(** ** The connector *)

Definition checkConnectedFn : Type := Value -> list string -> list string -> Res Value.
Definition processOutputFn : Type := string -> World -> World.
Definition connectFn : Type := Value -> string -> option checkConnectedFn -> M bool.

Record ReplType : Type := mkReplType {
  name : string;
  start : option connectFn;
  started : option checkConnectedFn;
  connect : option connectFn;
  connected : checkConnectedFn
}.

(** Runs a computation for its effect on the world alone. *)
Definition effect (m : M unit) : World -> World := fun w => snd (m w).

(** An output processor that only records that it ran, and on what. *)
Definition probe (tag : nat) : processOutputFn :=
  fun x => effect (emit (ProcessorRan tag x)).

Definition PROJECT_DIR_KEY : string := "connect.projectDir".
Definition PROJECT_WS_FOLDER_KEY : string := "connect.projecWsFolder".

Definition getProjectRoot : M Value := cursor_get PROJECT_DIR_KEY.

(** Modelled from the spec: [util.getSession] is defined in [./utilities],
    which is not among the sources. The shared state holds the three named
    slots [clj], [cljs] and [cljc], each unset or referencing a session;
    [getSession kind] reads the slot [kind]. *)
Definition getSession (kind : string) : M Value := cursor_get kind.

Section Connector.

Variable E : Env.

Definition projectFileNames : list string := ["project.clj"; "shadow-cljs.edn"; "deps.edn"].

(** The inner [for] loop of [initProjectDir]: [rootPath] after it. *)
Fixpoint scan_project_files (d : Path) (names : list string) (rootPath : Path) : Path :=
  match names with
  | [] => rootPath
  | f :: names' =>
      if existsSync E (path_resolve d f) then d
      else scan_project_files d names' rootPath
  end.

(** The [while (d != prev)] loop of [initProjectDir]; [prev] is [None] for
    [null]. [None] is returned when the fuel runs out. *)
Fixpoint walk_up (fuel : nat) (rootPath d : Path) (prev : option Path) : option Path :=
  match fuel with
  | O => None
  | S fuel' =>
      if bool_decide (Some d = prev) then Some rootPath
      else
        let rootPath' := scan_project_files d projectFileNames rootPath in
        if bool_decide (d = rootPath') then Some rootPath'
        else walk_up fuel' rootPath' (path_parent d) (Some d)
  end.

Definition no_document_message : string :=
  "There is no document opened in the workspace. Aborting. Please open a file in your Clojure project and try again.".

Definition initProjectDir : M unit :=
  let workspaceFolder :=
    match activeDocument E with
    | Some doc => workspaceFolderOf E doc
    | None => None
    end in
  match activeDocument E, workspaceFolder with
  | Some doc, Some folder =>
      cursor_set PROJECT_WS_FOLDER_KEY (VFolder folder);;;
      let d := path_parent doc in
      match walk_up (S (S (length d))) folder d None with
      | Some rootPath => cursor_set PROJECT_DIR_KEY (VPath rootPath)
      | None => throw (Failure "walk_up: out of fuel")
      end
  | _, _ =>
      emit (ShowErrorMessage no_document_message);;;
      logEvent "REPL" "JackinOrConnectInterrupted" (VStr "NoCurrentDocument");;;
      throw (Thrown "There is no document opened in the workspace. Aborting.")
  end.

(** The handler [connectToHost] registers with [nClient.addOnCloseHandler].
    The client calls it when its socket closes, whoever closed it. *)
Definition onCloseHandler (c : Client) : M unit :=
  cursor_set "connected" (VBool false);;;
  cursor_set "connecting" (VBool false);;;
  (if negb (client_silent c) then chan_appendLine "nREPL Connection was closed" else ret tt);;;
  status_update.

Definition session_clone (session : Value) : M Value :=
  match session with
  | VSession id =>
      fun w => (sessionClone E id (clones w),
                mkWorld (store w) (workspaceState w) (nClient w) (cljSession w)
                        (cljsSession w) (S (clones w)) (trace w))
  | _ => throw (TypeError "session.clone is not a function")
  end.

Definition do_openReplWindow (kind : string) : M unit :=
  emit (OpenReplWindow kind);;; lift (openReplWindow E kind).

Definition do_reconnectReplWindow (kind : string) : M unit :=
  emit (ReconnectReplWindow kind);;; lift (reconnectReplWindow E kind).

Definition setUpCljsRepl (cljsSession : Value) (shadowBuild : Value) : M unit :=
  cursor_set "cljs" cljsSession;;;
  chan_appendLine "Connected session: cljs";;;
  do_openReplWindow "cljs";;;
  do_reconnectReplWindow "cljs";;;
  status_update.

Definition shadowBuilds : M (list string) :=
  let* root := getProjectRoot in
  let* keys := lift (shadowBuildKeys E root) in
  ret (map (fun key => (":" ++ key)%string) keys ++ ["node-repl"; "browser-repl"])%list.

(** [None] is [null]. *)
Definition shadowCljsReplStart (buildOrRepl : option string) : option string :=
  match buildOrRepl with
  | None | Some "" => None
  | Some b =>
      if String.prefix ":" b then Some ("(shadow.cljs.devtools.api/nrepl-select " ++ b ++ ")")
      else Some ("(shadow.cljs.devtools.api/" ++ b ++ ")")
  end.

Definition no_figwheel_projects : string :=
  "There are no figwheel project files (.cljs.edn) in the project directory.".

Definition getFigwheelMainProjects : M (list string) :=
  let* root := getProjectRoot in
  let* res := lift (readdirSync E root) in
  let projects :=
    map (strip_suffix ".cljs.edn") (List.filter (fun x => 0 <=? search x ".cljs.edn") res) in
  match projects with
  | [] =>
      emit (ShowErrorMessage no_figwheel_projects);;;
      chan_appendLine no_figwheel_projects;;;
      chan_appendLine "Connection to Figwheel Main aborted.";;;
      throw (Thrown "Aborted")
  | _ => ret projects
  end.

(** The [stdout] handler of [evalConnectCode]; [acc] is [(out, err)]. *)
Definition on_stdout (outputProcessors : option (list processOutputFn)) (x : string)
    (acc : list string * list string) : M (list string * list string) :=
  match outputProcessors with
  | Some ps => for_each (fun p : processOutputFn => fun w => (Ok tt, p x w)) ps
  | None => ret tt
  end;;;
  emit (LogAppend (stripAnsi E x));;;
  ret (fst acc ++ [stripAnsi E x], snd acc)%list.

(** The [stderr] handler of [evalConnectCode]. *)
Definition on_stderr (x : string) (acc : list string * list string)
    : M (list string * list string) :=
  emit (LogAppend (stripAnsi E x));;;
  ret (fst acc, snd acc ++ [stripAnsi E x])%list.

Fixpoint deliver (outputProcessors : option (list processOutputFn)) (cs : list Chunk)
    (acc : list string * list string) : M (list string * list string) :=
  match cs with
  | [] => ret acc
  | Stdout x :: cs' =>
      let* acc' := on_stdout outputProcessors x acc in deliver outputProcessors cs' acc'
  | Stderr x :: cs' =>
      let* acc' := on_stderr x acc in deliver outputProcessors cs' acc'
  end.

(** A call of a function value that may be [undefined]. *)
Definition call_check (f : option checkConnectedFn) (v : Value) (out err : list string)
    : M Value :=
  match f with
  | Some check => lift (check v out err)
  | None => throw (TypeError "checkSuccess is not a function")
  end.

Definition evalConnectCode (newCljsSession : Value) (code : string) (name : string)
    (checkSuccess : option checkConnectedFn)
    (outputProcessors : option (list processOutputFn)) : M bool :=
  match newCljsSession with
  | VSession id =>
      let result := sessionEval E id code in
      let* (out, err) := deliver outputProcessors (eval_chunks result) ([], []) in
      let* valueResult :=
        match eval_value result with
        | Some v => ret (VStr v)
        | None => console_error "Error evaluating connect form: ";;; ret VUndef
        end in
      let* ok := call_check checkSuccess valueResult out err in
      if truthy ok then
        logEvent "REPL" "ConnectedCLJS" (VStr name);;;
        set_cljsSession newCljsSession;;;
        cursor_set "cljs" newCljsSession;;;
        ret true
      else ret false
  | _ => throw (TypeError "newCljsSession.eval is not a function")
  end.

(** *** The registry of ClojureScript REPL types *)

Definition figwheelMain_start : connectFn := fun session name checkFn =>
  let* projects := getFigwheelMainProjects in
  let* root := getProjectRoot in
  let builds :=
    if (length projects <=? 1)%nat then Some projects
    else quickPickMulti E projects (to_text root ++ "/figwheel-main-projects") in
  match builds with
  | Some builds =>
      workspaceState_update "cljsReplTypeHasBuilds" (VBool true);;;
      cursor_set "cljsBuild" (match builds with b :: _ => VStr b | [] => VUndef end);;;
      let initCode :=
        "(do (require 'figwheel.main.api) (figwheel.main.api/start " ++ quoted_join builds ++ "))" in
      evalConnectCode session initCode name checkFn None
  | None =>
      chan_appendLine "Connection to Figwheel Main aborted.";;;
      throw (Thrown "Aborted")
  end.

(** [out.find(x => x.search(pat) >= 0)]: the first line that matches, or
    [undefined]. *)
Definition find_line (search_pat : string -> Z) (lines : list string) : Value :=
  match List.find (fun x => 0 <=? search_pat x) lines with
  | Some x => VStr x
  | None => VUndef
  end.

(** [v != undefined] *)
Definition not_undefined (v : Value) : bool := negb (loose_eq v VUndef).

Definition figwheelMain_started : checkConnectedFn := fun result out err =>
  if not_undefined (find_line (fun x => search x "Prompt will show") out) then Ok (VBool true)
  else (* [err != undefined] holds of an array; [&&] then yields its right operand *)
    Ok (find_line (fun x => search x "already running") err).

Definition figwheelMain_connect : connectFn := fun session name checkFn =>
  let* projects := getFigwheelMainProjects in
  let* root := getProjectRoot in
  match quickPickSingle E projects (to_text root ++ "/figwheel-main-build") with
  | Some build =>
      if String.eqb build "" then
        chan_appendLine "Connection aborted.";;; throw (Thrown "Aborted")
      else
        workspaceState_update "cljsReplTypeHasBuilds" (VBool true);;;
        cursor_set "cljsBuild" (VStr build);;;
        let initCode :=
          "(do (use 'figwheel.main.api) (figwheel.main.api/cljs-repl " ++ dq ++ build ++ dq ++ "))" in
        evalConnectCode session initCode name checkFn None
  | None =>
      chan_appendLine "Connection aborted.";;; throw (Thrown "Aborted")
  end.

Definition figwheelMain_connected : checkConnectedFn := fun _result out _err =>
  Ok (VBool (not_undefined (find_line (fun x => search x "To quit, type: :cljs/quit") out))).

Definition figwheel_processor : processOutputFn := fun output =>
  match after_first "Figwheel: Starting server at " output with
  | Some rest =>
      let url := rest_of_line rest in
      effect (
        chan_appendLine ("Figwheel: Starting server at " ++ url);;;
        (if openBrowserWhenFigwheelStarted E then
           chan_appendLine "Opening Figwheel app in the browser (this automatic behaviour can be disabled using Settings) ...";;;
           emit (OpenBrowser url)
         else
           chan_appendLine "Not automaticaly opening Figwheel app in the browser (this can be disabled using Settings).");;;
        chan_appendLine "The CLJS REPL session will be connected when the Figwheel app has been started in the browser.")
  | None => fun w => w
  end.

Definition figwheel_connect : connectFn := fun session name checkFn =>
  workspaceState_update "cljsReplTypeHasBuilds" (VBool false);;;
  cursor_set "cljsBuild" VNull;;;
  let initCode := "(do (use 'figwheel-sidecar.repl-api) (if (not (figwheel-sidecar.repl-api/figwheel-running?)) (figwheel-sidecar.repl-api/start-figwheel!)) (figwheel-sidecar.repl-api/cljs-repl))" in
  evalConnectCode session initCode name checkFn (Some [figwheel_processor]).

Definition figwheel_connected : checkConnectedFn := fun _result out _err =>
  Ok (VBool (not_undefined (find_line (fun x => search x "Prompt will show") out))).

Definition shadow_connect : connectFn := fun session name checkFn =>
  let* values := shadowBuilds in
  let* root := getProjectRoot in
  match quickPickSingle E values (to_text root ++ "/shadow-cljs-build") with
  | Some build =>
      if String.eqb build "" then
        chan_appendLine "Connection aborted.";;; throw (Thrown "Aborted")
      else
        workspaceState_update "cljsReplTypeHasBuilds" (VBool true);;;
        cursor_set "cljsBuild" (VStr build);;;
        match shadowCljsReplStart (Some build) with
        | Some initCode => evalConnectCode session initCode name checkFn None
        | None => throw (TypeError "code is null")
        end
  | None =>
      chan_appendLine "Connection aborted.";;; throw (Thrown "Aborted")
  end.

(** [result.search(/:selected/) >= 0]: a property read on [result], which
    throws when [result] is [undefined]. *)
Definition shadow_connected : checkConnectedFn := fun result _out _err =>
  match result with
  | VStr r => Ok (VBool (0 <=? search r ":selected"))
  | VUndef => Throw (TypeError "Cannot read property 'search' of undefined")
  | VNull => Throw (TypeError "Cannot read property 'search' of null")
  | _ => Throw (TypeError "result.search is not a function")
  end.

Definition figwheelMain : ReplType :=
  mkReplType "Figwheel Main" (Some figwheelMain_start) (Some figwheelMain_started)
             (Some figwheelMain_connect) figwheelMain_connected.

Definition figwheel : ReplType :=
  mkReplType "Figwheel" None None (Some figwheel_connect) figwheel_connected.

Definition shadow_cljs : ReplType :=
  mkReplType "shadow-cljs" None None (Some shadow_connect) shadow_connected.

Definition cljsReplTypes : list ReplType := [figwheelMain; figwheel; shadow_cljs].

(** ToBoolean of an optional string field: unset and empty are false. *)
Definition field_set (f : option string) : bool :=
  match f with
  | Some s => negb (String.eqb s "")
  | None => false
  end.

Definition custom_tellUser (custom : customCLJSREPLType) : processOutputFn := fun output =>
  match tellUserToStartRegExp custom with
  | Some re =>
      if field_set (Some re) then
        match regexMatch E re output with
        | Some _ =>
            effect (
              chan_appendLine "CLJS REPL ready to connect. Please, start your ClojureScript app.";;;
              chan_appendLine "  The CLJS REPL will connect when your app is running.")
        | None => fun w => w
        end
      else fun w => w
  | None => fun w => w
  end.

Definition custom_printLine (custom : customCLJSREPLType) : processOutputFn := fun output =>
  match printThisLineRegExp custom with
  | Some re =>
      if field_set (Some re) then
        match regexMatch E (".*(" ++ re ++ ").*") output with
        | Some matched0 => effect (chan_appendLine (stripAnsi E matched0))
        | None => fun w => w
        end
      else fun w => w
  | None => fun w => w
  end.

Definition createCustomCLJSReplType (custom : customCLJSREPLType) : ReplType :=
  mkReplType (custom_name custom) None None
    (Some (fun session name checkFn =>
       workspaceState_update "cljsReplTypeHasBuilds" (VBool false);;;
       cursor_set "cljsBuild" VNull;;;
       let initCode := startCode custom in
       let outputProcessors :=
         ((if field_set (tellUserToStartRegExp custom) then [custom_tellUser custom] else []) ++
          (if field_set (printThisLineRegExp custom) then [custom_printLine custom] else []))%list in
       evalConnectCode session initCode name checkFn (Some outputProcessors)))
    (fun _result out err =>
       Ok (VBool (not_undefined (find_line (regexSearch E (connectedRegExp custom)) out)))).

(** [None] is [undefined]. *)
Definition getCustomCLJSRepl : option ReplType :=
  match customCljsRepl E with
  | Some replConfig => Some (createCustomCLJSReplType replConfig)
  | None => None
  end.

Definition getCLJSReplTypes : list ReplType :=
  match getCustomCLJSRepl with
  | Some customType => (cljsReplTypes ++ [customType])%list
  | None => cljsReplTypes
  end.

(** *** Bringing up the ClojureScript session *)

(** A call of [repl.connect], which the interface leaves optional. *)
Definition call_connect (repl : ReplType) (session : Value) : M bool :=
  match connect repl with
  | Some connectFn => connectFn session (name repl) (Some (connected repl))
  | None => throw (TypeError "repl.connect is not a function")
  end.

(** The connect step of [makeCljsSessionClone], from the line
    [chan.appendLine("Connecting CLJS repl: " + ...)] to the end. *)
Definition connect_step (repl : ReplType) (newCljsSession : Value) : M (Value * Value) :=
  chan_appendLine ("Connecting CLJS repl: " ++ name repl ++ "...");;;
  chan_appendLine "  Compiling and stuff. This can take a minute or two.";;;
  chan_appendLine "  See Calva Connection Log for detailed progress updates.";;;
  let* ok := call_connect repl newCljsSession in
  if ok then
    logEvent "REPL" "ConnectedCLJS" (VStr (name repl));;;
    set_cljsSession newCljsSession;;;
    cursor_set "cljs" newCljsSession;;;
    ret (newCljsSession, VNull)
  else
    let* build := cursor_get "cljsBuild" in
    logEvent "REPL" "FailedConnectingCLJS" (VStr (name repl));;;
    let failed :=
      "Failed starting cljs repl" ++
      (if negb (loose_eq build VNull) then " for build: " ++ to_text build else "") in
    chan_appendLine
      (failed ++ ". Is the build running and connected?" ++ lf ++
       "   See the Output channel " ++ dq ++ "Calva Connection Log" ++ dq ++
       " for any hints on what went wrong.");;;
    cursor_set "cljsBuild" VNull;;;
    ret (VNull, VNull).

Definition makeCljsSessionClone (session : Value) (replType : string)
    (replTypes : list ReplType) : M (Value * Value) :=
  chan_appendLine "Creating cljs repl session...";;;
  let* newCljsSession := session_clone session in
  if truthy newCljsSession then
    emit ChanShow;;;
    workspaceState_update "cljsReplType" (VStr replType);;;
    logEvent "REPL" "ConnectingCLJS" (VStr replType);;;
    match List.find (fun x => String.eqb (name x) replType) replTypes with
    | None => throw (TypeError "Cannot read property 'start' of undefined")
    | Some repl =>
        match start repl with
        | Some startFn =>
            chan_appendLine ("Starting repl for: " ++ name repl ++ "...");;;
            let* ok := startFn newCljsSession (name repl) (started repl) in
            if ok then
              logEvent "REPL" "StartedCLJS" (VStr (name repl));;;
              chan_appendLine "Started cljs builds";;;
              let* newCljsSession := session_clone session in
              connect_step repl newCljsSession
            else
              logEvent "REPL" "FailedStartingCLJS" (VStr (name repl));;;
              chan_appendLine "Failed starting cljs repl";;;
              cursor_set "cljsBuild" VNull;;;
              ret (VNull, VNull)
        | None => connect_step repl newCljsSession
        end
    end
  else ret (VNull, VNull).

(** *** The orchestrator *)

(** The Clojure part of the [try] block of [connectToHost], up to the
    [status.update()] that follows binding [clj] and [cljc]; yields
    [cljSession]. *)
Definition clj_bring_up (hostname : string) (port : JSNumber) : M Value :=
  chan_appendLine "Hooking up nREPL sessions...";;;
  emit (ClientCreate hostname port);;;
  let* sid := lift (nreplCreate E hostname port) in
  set_nClient (Some (mkClient sid false));;;
  (* nClient.addOnCloseHandler: the handler is [onCloseHandler] *)
  set_cljSession (VSession sid);;;
  chan_appendLine "Connected session: clj";;;
  do_openReplWindow "clj";;;
  try_catch (do_reconnectReplWindow "clj")
    (fun reason => console_error ("Failed reconnecting REPL window: " ++ exn_text reason));;;
  cursor_set "connected" (VBool true);;;
  logEvent "REPL" "ConnectedCLJ" VUndef;;;
  cursor_set "connecting" (VBool false);;;
  cursor_set "clj" (VSession sid);;;
  cursor_set "cljc" (VSession sid);;;
  status_update;;;
  ret (VSession sid).

(** The ClojureScript part of the [try] block of [connectToHost], from
    [let cljsSession = null, shadowBuild = null] on. *)
Definition cljs_bring_up (cljSession : Value) (cljsTypeName : string)
    (replTypes : list ReplType) : M unit :=
  let* (cljsSession, shadowBuild) :=
    try_catch
      (if negb (String.eqb cljsTypeName "") then
         makeCljsSessionClone cljSession cljsTypeName replTypes
       else ret (VNull, VNull))
      (fun e =>
         chan_appendLine ("Error while connecting cljs REPL: " ++ exn_text e);;;
         ret (VNull, VNull)) in
  (if truthy cljsSession then setUpCljsRepl cljsSession shadowBuild else ret tt);;;
  chan_appendLine
    ("cljc files will use the clj REPL." ++
     (if truthy cljsSession then " (You can toggle this at will.)" else ""));;;
  status_update.

(** The statements of [connectToHost] before its [try] block. *)
Definition connect_prelude : M unit :=
  logEvent "REPL" "Connecting" VUndef;;;
  let* client := get_nClient in
  match client with
  | Some c =>
      let c' := mkClient (client_session c) true in
      set_nClient (Some c');;;
      emit (ClientClose c')
  | None => ret tt
  end;;;
  set_cljSession VNull;;;
  set_cljsSession VNull;;;
  cursor_set "connecting" (VBool true);;;
  status_update.

(** [port] is a number at the call embedded here, so [+port] is [port]. *)
Definition connectToHost (hostname : string) (port : JSNumber) (cljsTypeName : string)
    (replTypes : list ReplType) : M bool :=
  connect_prelude;;;
  try_catch
    (let* cljSession := clj_bring_up hostname port in
     cljs_bring_up cljSession cljsTypeName replTypes;;;
     ret true)
    (fun e =>
       cursor_set "connected" (VBool false);;;
       cursor_set "connecting" (VBool false);;;
       chan_appendLine "Failed connecting.";;;
       logEvent "REPL" "FailedConnectingCLJ" VUndef;;;
       ret false).

(** [port] is the text of the port file, [None] for [null]. *)
Definition promptForNreplUrlAndConnect (port : option string) (cljsTypeName : string)
    (replTypes : list ReplType) : M bool :=
  let url := showInputBox E ("localhost:" ++ (if field_set port then default "" port else "")) in
  match url with
  | Some url =>
      let parts := split_colon url in
      let hostname := nth 0 parts "" in
      let parsedPort :=
        match parts !! 1%nat with
        | Some port => parseFloat_string port
        | None => NaN              (* parseFloat(undefined) *)
        end in
      if (number_truthy parsedPort && gt_zero parsedPort && lt_65536 parsedPort)%bool then
        cursor_set "hostname" (VStr hostname);;;
        cursor_set "port" (VNum parsedPort);;;
        connectToHost hostname parsedPort cljsTypeName replTypes;;;
        ret tt
      else
        chan_appendLine ("Bad url: " ++ url);;;
        cursor_set "connecting" (VBool false);;;
        status_update
  | None =>
      cursor_set "connecting" (VBool false);;;
      status_update
  end;;;
  ret true.

(** The [disconnect] of the default export; [callback] defaults to a
    function that does nothing. *)
Definition disconnect (callback : M unit) : M unit :=
  for_each (fun sessionType => cursor_set sessionType VNull) ["clj"; "cljs"];;;
  cursor_set "connected" (VBool false);;;
  cursor_set "cljc" VNull;;;
  status_update;;;
  let* client := get_nClient in
  match client with
  | Some c => emit (ClientClose c)
  | None => throw (TypeError "Cannot read property 'close' of undefined")
  end;;;
  callback.

Definition toggleCLJCSession : M unit :=
  let* connected := cursor_get "connected" in
  if truthy connected then
    let* cljc := getSession "cljc" in
    let* cljs := getSession "cljs" in
    (if loose_eq cljc cljs then
       let* clj := getSession "clj" in cursor_set "cljc" clj
     else
       let* cljc := getSession "cljc" in
       let* clj := getSession "clj" in
       if loose_eq cljc clj then
         let* cljs := getSession "cljs" in cursor_set "cljc" cljs
       else ret tt);;;
    status_update
  else ret tt.

End Connector.

(** ** Concrete collaborators, for the examples *)

Module Scenario.

Inductive StripState : Type := InText | AfterEsc | InCsi.

(** Parameter bytes of a control sequence: digits, [;] and [?]. *)
Definition is_param (c : ascii) : bool :=
  (is_digit c || Ascii.eqb c ";" || Ascii.eqb c "?")%bool.

Fixpoint strip_go (st : StripState) (s : string) : string :=
  match s with
  | EmptyString => ""
  | String c s' =>
      match st with
      | InText =>
          if Ascii.eqb c ESC then strip_go AfterEsc s' else String c (strip_go InText s')
      | AfterEsc =>
          if Ascii.eqb c "[" then strip_go InCsi s'
          else if Ascii.eqb c ESC then strip_go AfterEsc s'
          else String c (strip_go InText s')
      | InCsi =>
          if is_param c then strip_go InCsi s' else strip_go InText s'
      end
  end.

(** Modelled from the spec: [util.stripAnsi] is defined in [./utilities],
    which is not among the sources. The spec asks that the stripped text
    contains no escape bytes; this model drops every escape byte, and with it
    the control sequence it introduces (a bracket, parameter bytes and one
    final byte). *)
Definition stripAnsi_model (s : string) : string := strip_go InText s.

Definition w0 : World := mkWorld ∅ ∅ None VUndef VUndef 0 [].

(** A server that accepts every connection, numbers the clones of a session
    from 10 on, answers every evaluation as [evalf] says; a user who answers
    the input box with [input] and picks the first entry of every list; a
    file system with the directory listing [listing] and the files [files];
    the document [doc] open in the workspace folder [folder]. *)
Definition env (evalf : nat -> string -> EvalOutcome) (input : option string)
    (listing : list string) (files : list Path) (doc folder : option Path) : Env :=
  {| stripAnsi := stripAnsi_model;
     nreplCreate := fun _ _ => Ok 1%nat;
     sessionClone := fun _ n => Ok (VSession (10 + n));
     sessionEval := evalf;
     openReplWindow := fun _ => Ok tt;
     reconnectReplWindow := fun _ => Ok tt;
     showInputBox := fun _ => input;
     quickPickSingle := fun values _ => head values;
     quickPickMulti := fun values _ => Some (take 1 values);
     readdirSync := fun _ => Ok listing;
     existsSync := fun p => bool_decide (p ∈ files);
     shadowBuildKeys := fun _ => Ok ["app"];
     openBrowserWhenFigwheelStarted := true;
     customCljsRepl := None;
     regexSearch := fun pat x => search x pat;
     regexMatch := fun pat x => if 0 <=? search x pat then Some pat else None;
     activeDocument := doc;
     workspaceFolderOf := fun _ => folder |}.

Definition silent_eval : nat -> string -> EvalOutcome := fun _ _ => mkEval [] (Some "nil").

(** A line of Figwheel output as a colouring terminal prints it: the text is
    followed by the reset sequence ESC [ 0 m. *)
Definition colored_line : string :=
  "Figwheel: Starting server at http://localhost:3449" ++ String ESC "[0m".

(** An evaluation whose value promise is rejected after one stderr chunk. *)
Definition failing_eval : nat -> string -> EvalOutcome :=
  fun _ _ => mkEval [Stderr "Execution error"] None.

(** The world after a manual connect to [localhost:7888] without
    ClojureScript support. *)
Definition connected_world : World :=
  snd (connectToHost (env silent_eval None [] [] None None) "localhost" (Dec false 7888 0) ""
         [] w0).

(** The same world with a ClojureScript session bound to [cljs]. *)
Definition cljs_world : World :=
  effect (cursor_set "cljs" (VSession 11)) connected_world.

(** The document [/repo/sub/core.clj] is open in the workspace folder [/repo],
    which holds [deps.edn]. *)
Definition repo_env : Env :=
  env silent_eval None [] [["repo"; "deps.edn"]] (Some ["repo"; "sub"; "core.clj"])
      (Some ["repo"]).

(** The same without any project file. *)
Definition bare_env : Env :=
  env silent_eval None [] [] (Some ["repo"; "sub"; "core.clj"]) (Some ["repo"]).

(** A project with one Figwheel Main build, [dev], whose start prints the
    ready marker. *)
Definition figwheel_main_env : Env :=
  env (fun _ _ => mkEval [Stdout "[Figwheel] Prompt will show when REPL connects"] (Some "nil"))
      (Some "localhost:7888") ["dev.cljs.edn"] [] None None.

(** The same project, the start printing nothing the predicate looks for. *)
Definition figwheel_main_stuck_env : Env :=
  env (fun _ _ => mkEval [Stdout "Compiling..."] (Some "nil"))
      (Some "localhost:7888") ["dev.cljs.edn"] [] None None.

(** A project without any Figwheel Main build file: the start routine
    throws "Aborted". *)
Definition no_builds_env : Env :=
  env silent_eval (Some "localhost:7888") ["README.md"] [] None None.

(** The world in which the Clojure session of a connect from [w0] is up. *)
Definition clj_ready (E : Env) : World :=
  snd (clj_bring_up E "localhost" (Dec false 7888 0) (snd (connect_prelude w0))).

End Scenario.


(** ** The language client commands

    From the first module of the file: the commands of clojure-lsp the
    extension registers with the editor, and the names it registers them
    under. *)

Definition is_lower (c : ascii) : bool :=
  ((97 <=? nat_of_ascii c)%nat && (nat_of_ascii c <=? 122)%nat)%bool.

(** [c.toUpperCase()] for a letter of [a-z]. *)
Definition upper (c : ascii) : ascii := ascii_of_nat (nat_of_ascii c - 32).

(** [command.replace(/-[a-z]/g, (m) => m.substring(1).toUpperCase())] *)
Fixpoint camelize (s : string) : string :=
  match s with
  | EmptyString => ""
  | String d rest =>
      match rest with
      | String c s' =>
          if (Ascii.eqb d "-" && is_lower c)%bool then String (upper c) (camelize s')
          else String d (camelize rest)
      | EmptyString => String d ""
      end
  end.

(** [extraParamFn] is kept as the placeholder of the input box it opens. *)
Record ClojureLspCommand : Type := mkCommand {
  command : string;
  extraParamFn : option string;
  category : option string
}.

Definition clojureLspCommands : list ClojureLspCommand :=
  [ mkCommand "clean-ns" None None;
    mkCommand "add-missing-libspec" None None;
    mkCommand "cycle-privacy" None None;
    mkCommand "expand-let" None None;
    mkCommand "thread-first" None None;
    mkCommand "thread-first-all" None None;
    mkCommand "thread-last" None None;
    mkCommand "thread-last-all" None None;
    mkCommand "inline-symbol" None None;
    mkCommand "unwind-all" None None;
    mkCommand "unwind-thread" None None;
    mkCommand "introduce-let" (Some "Bind to") None;
    mkCommand "move-to-let" (Some "Bind to") None;
    mkCommand "extract-function" (Some "Function name") None;
    mkCommand "server-info" None (Some "calva.diagnostics") ].

(** The name [registerLspCommand] registers a command under. *)
Definition vscodeCommand (c : ClojureLspCommand) : string :=
  (if field_set (category c) then default "" (category c) else "calva.refactor") ++
  "." ++ camelize (command c).

(** An argument of a [workspace/executeCommand] request. *)
Inductive Arg : Type :=
| ArgText (s : string)
| ArgNumber (n : nat).

(** The handler [registerLspCommand] registers, run on a document of language
    [languageId] ([None] when there is no document) with the cursor at
    [line], [column]; [answer] is what the input box of [extraParamFn]
    resolves to when it is opened, [None] for [undefined]. The result is the
    request sent to the server, if one is sent: the command and its
    arguments. *)
Definition lspCommandHandler (c : ClojureLspCommand) (languageId : option string)
    (docUri : string) (line column : nat) (answer : option string)
    : option (string * list Arg) :=
  match languageId with
  | Some lang =>
      if String.eqb lang "clojure" then
        let params := [ArgText docUri; ArgNumber line; ArgNumber column] in
        let extraParam :=
          match extraParamFn c with
          | Some _ => answer
          | None => None
          end in
        match extraParamFn c with
        | None => Some (command c, params)
        | Some _ =>
            if field_set extraParam
            then Some (command c, (params ++ [ArgText (default "" extraParam)])%list)
            else None
        end
      else None
  | None => None
  end.

(** [validateInput] of the input box of [makePromptForInput]: the message
    shown for an input, [None] when the input is accepted. ([trim] is taken
    on the white space below code point 128.) *)
Fixpoint trim_end (s : string) : string :=
  match s with
  | EmptyString => ""
  | String c s' =>
      match trim_end s' with
      | EmptyString => if is_space c then "" else String c ""
      | t => String c t
      end
  end.

Definition validateInput (input : string) : option string :=
  if String.eqb (trim_end (trim_start input)) "" then Some "Empty input" else None.

(** Fault injection for the examples: the collaborators of [Scenario.env]
    with their failures set by hand. *)
Module Faults.

Definition env (create : Res nat) (clone : Res Value) (openWindow : string -> Res unit)
    (evalf : nat -> string -> EvalOutcome) : Env :=
  {| stripAnsi := Scenario.stripAnsi_model;
     nreplCreate := fun _ _ => create;
     sessionClone := fun _ _ => clone;
     sessionEval := evalf;
     openReplWindow := openWindow;
     reconnectReplWindow := fun _ => Ok tt;
     showInputBox := fun _ => None;
     quickPickSingle := fun values _ => head values;
     quickPickMulti := fun values _ => Some (take 1 values);
     readdirSync := fun _ => Ok [];
     existsSync := fun _ => false;
     shadowBuildKeys := fun _ => Ok ["app"];
     openBrowserWhenFigwheelStarted := true;
     customCljsRepl := None;
     regexSearch := fun pat x => search x pat;
     regexMatch := fun pat x => if 0 <=? search x pat then Some pat else None;
     activeDocument := None;
     workspaceFolderOf := fun _ => None |}.

(** The server refuses the connection. *)
Definition unreachable : Env :=
  env (Throw (Failure "ECONNREFUSED")) (Ok (VSession 10)) (fun _ => Ok tt) Scenario.silent_eval.

(** The server answers a clone request with null. *)
Definition no_clone : Env :=
  env (Ok 1%nat) (Ok VNull) (fun _ => Ok tt) Scenario.silent_eval.

(** The REPL window for cljs cannot be opened; Figwheel prints its ready
    marker. *)
Definition no_cljs_window : Env :=
  env (Ok 1%nat) (Ok (VSession 10))
      (fun kind => if String.eqb kind "cljs" then Throw (Failure "no window") else Ok tt)
      (fun _ _ => mkEval [Stdout "Prompt will show"] (Some "nil")).

End Faults.

(** ** The entry point [connect] *)

(** ToNumber of a string, which [+port] applies to the text of the port
    file: white space is trimmed at both ends, the empty text is 0, and the
    rest must be one numeric literal as a whole (decimal, or an unsigned
    integer in base 16, 8 or 2), else the result is NaN. *)
Definition digit_in (radix : N) (c : ascii) : option N :=
  let n := nat_of_ascii c in
  let v :=
    if ((48 <=? n) && (n <=? 57))%nat%bool then Some (N.of_nat (n - 48))
    else if ((97 <=? n) && (n <=? 122))%nat%bool then Some (N.of_nat (n - 87))
    else if ((65 <=? n) && (n <=? 90))%nat%bool then Some (N.of_nat (n - 55))
    else None in
  match v with
  | Some d => if (d <? radix)%N then Some d else None
  | None => None
  end.

(** The value of [s] read in base [radix], all of [s] being digits. *)
Fixpoint radix_digits (radix acc : N) (s : string) : option N :=
  match s with
  | EmptyString => Some acc
  | String c s' =>
      match digit_in radix c with
      | Some d => radix_digits radix (radix * acc + d)%N s'
      | None => None
      end
  end.

Definition radix_literal (radix : N) (s : string) : JSNumber :=
  match s with
  | EmptyString => NaN
  | _ => match radix_digits radix 0 s with
         | Some v => Dec false v 0
         | None => NaN
         end
  end.

(** ExponentPart, or nothing, up to the end of the text. *)
Definition exponent_exact (s : string) : option Z :=
  match s with
  | EmptyString => Some 0
  | String c s' =>
      if (Ascii.eqb c "e" || Ascii.eqb c "E")%bool then
        let '(neg, s'') :=
          match s' with
          | String sign r =>
              if Ascii.eqb sign "+" then (false, r)
              else if Ascii.eqb sign "-" then (true, r)
              else (false, s')
          | EmptyString => (false, s')
          end in
        let '(v, n, rest) := span_digits 0 0 s'' in
        match n, rest with
        | S _, EmptyString => Some (if neg then - Z.of_N v else Z.of_N v)
        | _, _ => None
        end
      else None
  end.

(** StrUnsignedDecimalLiteral, all of [s]. *)
Definition unsigned_exact (neg : bool) (s : string) : JSNumber :=
  if String.eqb s "Infinity" then Inf neg
  else
    let '(i, ni, r) := span_digits 0 0 s in
    match r with
    | String c r' =>
        if Ascii.eqb c "." then
          let '(m, nf, r'') := span_digits i 0 r' in
          match ni, nf with
          | O, O => NaN
          | _, _ =>
              match exponent_exact r'' with
              | Some e => Dec neg m (e - Z.of_nat nf)
              | None => NaN
              end
          end
        else
          match ni, exponent_exact r with
          | S _, Some e => Dec neg i e
          | _, _ => NaN
          end
    | EmptyString =>
        match ni with
        | O => NaN
        | S _ => Dec neg i 0
        end
    end.

Definition string_to_number (s : string) : JSNumber :=
  match trim_end (trim_start s) with
  | EmptyString => Dec false 0 0
  | String c r =>
      match r with
      | String x digits =>
          if (Ascii.eqb c "0" && (Ascii.eqb x "x" || Ascii.eqb x "X"))%bool
          then radix_literal 16 digits
          else if (Ascii.eqb c "0" && (Ascii.eqb x "o" || Ascii.eqb x "O"))%bool
          then radix_literal 8 digits
          else if (Ascii.eqb c "0" && (Ascii.eqb x "b" || Ascii.eqb x "B"))%bool
          then radix_literal 2 digits
          else if Ascii.eqb c "+" then unsigned_exact false r
          else if Ascii.eqb c "-" then unsigned_exact true r
          else unsigned_exact false (String c r)
      | EmptyString => unsigned_exact false (String c r)
      end
  end.

(** A file the connector looks for: under the project root, or, when no
    project root is known, relative to the working directory. *)
Inductive FilePath : Type :=
| AbsPath (p : Path)
| RelPath (segments : list string).

(** The file system beyond [existsSync] on absolute paths. *)
Record Files : Type := mkFiles {
  relativeExists : list string -> bool;      (* fs.existsSync on a relative path *)
  readFileSync : FilePath -> Res string      (* fs.readFileSync(path, 'utf8') *)
}.

Definition CLJS_PROJECT_TYPE_NONE : string := "Don't load any cljs support, thanks".

Module Entry.

Section Connect.

Variable E : Env.
Variable F : Files.

(** [path.resolve(getProjectRoot(), subPath)], [subPath] given by its
    segments; without a project root [path.resolve] throws, which is caught
    (and written with [console.log], a call the trace does not record), and
    [subPath] itself is returned. *)
Definition nreplPortFile (subPath : list string) : M FilePath :=
  let* root := getProjectRoot in
  match root with
  | VPath p => ret (AbsPath (p ++ subPath)%list)
  | VStr s => ret (RelPath (s :: subPath))
  | _ => ret (RelPath subPath)
  end.

Definition fileExists (f : FilePath) : bool :=
  match f with
  | AbsPath p => existsSync E p
  | RelPath segments => relativeExists F segments
  end.

(** [connect(isAutoConnect)], with [isJackIn] at its default, false. The
    result is [undefined] or [true]. The event "ConnectInitiated" of the
    first statement is built but never sent, so it leaves no trace.
    [connectToHost] is handed the text of the port file and reads it with
    [+port]: the number it connects to is [string_to_number port]. *)
Definition connect (isAutoConnect : bool) : M Value :=
  let types := getCLJSReplTypes E in
  let* resolved := try_catch (initProjectDir E;;; ret true) (fun _ => ret false) in
  if negb resolved then ret VUndef
  else
    let typeNames := CLJS_PROJECT_TYPE_NONE :: map name types in
    let* root := getProjectRoot in
    let picked := quickPickSingle E typeNames (to_text root ++ "/connect-cljs-type") in
    if negb (field_set picked) then
      logEvent "REPL" "ConnectInterrupted" (VStr "NoCljsProjectPicked");;;
      ret VUndef
    else
      let cljsTypeName := default "" picked in
      logEvent "REPL" "ConnnectInitiated" (VStr cljsTypeName);;;
      let cljsTypeName :=
        if String.eqb cljsTypeName CLJS_PROJECT_TYPE_NONE then "" else cljsTypeName in
      let* portFile :=
        if String.eqb cljsTypeName "shadow-cljs"
        then nreplPortFile [".shadow-cljs"; "nrepl.port"]
        else nreplPortFile [".nrepl-port"] in
      workspaceState_update "selectedCljsTypeName" (VStr cljsTypeName);;;
      (if fileExists portFile then
         let* port := lift (readFileSync F portFile) in
         if negb (String.eqb port "") then
           if isAutoConnect then
             cursor_set "hostname" (VStr "localhost");;;
             cursor_set "port" (VStr port);;;
             connectToHost E "localhost" (string_to_number port) cljsTypeName types;;;
             ret tt
           else
             promptForNreplUrlAndConnect E (Some port) cljsTypeName types;;;
             ret tt
         else
           chan_appendLine
             "No nrepl port file found. (Calva does not start the nrepl for you, yet.)";;;
           promptForNreplUrlAndConnect E (Some port) cljsTypeName types;;;
           ret tt
       else
         promptForNreplUrlAndConnect E None cljsTypeName types;;;
         ret tt);;;
      ret (VBool true).

End Connect.

End Entry.

Module PortFiles.

(** A project at [/repo] with the file [.nrepl-port] holding [port]; the
    document [/repo/src/core.clj] is open; the user picks the first entry of
    the type picker, the "none" entry. *)
Definition env : Env :=
  Scenario.env Scenario.silent_eval None [] [["repo"; ".nrepl-port"]]
    (Some ["repo"; "src"; "core.clj"]) (Some ["repo"]).

Definition files (port : string) : Files :=
  mkFiles (fun _ => false) (fun _ => Ok port).

(** The same project without a port file. *)
Definition bare : Env :=
  Scenario.env Scenario.silent_eval None [] [["repo"; "deps.edn"]]
    (Some ["repo"; "src"; "core.clj"]) (Some ["repo"]).

(** [e] with a user who dismisses every single-choice picker. *)
Definition dismissing (e : Env) : Env :=
  {| stripAnsi := stripAnsi e;
     nreplCreate := nreplCreate e;
     sessionClone := sessionClone e;
     sessionEval := sessionEval e;
     openReplWindow := openReplWindow e;
     reconnectReplWindow := reconnectReplWindow e;
     showInputBox := showInputBox e;
     quickPickSingle := fun _ _ => None;
     quickPickMulti := quickPickMulti e;
     readdirSync := readdirSync e;
     existsSync := existsSync e;
     shadowBuildKeys := shadowBuildKeys e;
     openBrowserWhenFigwheelStarted := openBrowserWhenFigwheelStarted e;
     customCljsRepl := customCljsRepl e;
     regexSearch := regexSearch e;
     regexMatch := regexMatch e;
     activeDocument := activeDocument e;
     workspaceFolderOf := workspaceFolderOf e |}.

End PortFiles.

(** ** More concrete collaborators *)

Module Projects.

(** The document [/repo/a/b/core.clj] is open in the workspace folder
    [/repo]; [/repo/a] holds [project.clj] and [/repo] holds [deps.edn]. *)
Definition nested : Env :=
  Scenario.env Scenario.silent_eval None []
    [["repo"; "a"; "project.clj"]; ["repo"; "deps.edn"]]
    (Some ["repo"; "a"; "b"; "core.clj"]) (Some ["repo"]).

(** The same document, with [shadow-cljs.edn] next to it. *)
Definition beside_document : Env :=
  Scenario.env Scenario.silent_eval None []
    [["repo"; "a"; "b"; "shadow-cljs.edn"]; ["repo"; "deps.edn"]]
    (Some ["repo"; "a"; "b"; "core.clj"]) (Some ["repo"]).

End Projects.

(** ** Recreating the ClojureScript REPL *)

Section Recreate.

Variable E : Env.

(** [makeCljsSessionClone] for a [replType] that is no string. The setting
    [selectedCljsTypeName] is written by [connect] only, always with a
    string; in a workspace that never connected it reads [undefined]. No
    registered name is equal ([==]) to [undefined] or [null], so [find]
    yields [undefined] and reading [repl.start] throws; the other values that
    are no strings, which nothing stores there, are taken the same way. *)
Definition makeCljsSessionClone_unnamed (session : Value) (replType : Value)
    : M (Value * Value) :=
  chan_appendLine "Creating cljs repl session...";;;
  let* newCljsSession := session_clone E session in
  if truthy newCljsSession then
    emit ChanShow;;;
    workspaceState_update "cljsReplType" replType;;;
    logEvent "REPL" "ConnectingCLJS" replType;;;
    throw (TypeError "Cannot read property 'start' of undefined")
  else ret (VNull, VNull).

(** The [recreateCljsRepl] of the default export. *)
Definition recreateCljsRepl : M unit :=
  let* cljSession := getSession "clj" in
  let* cljsTypeName := workspaceState_get "selectedCljsTypeName" in
  let* (session, shadowBuild) :=
    match cljsTypeName with
    | VStr replType => makeCljsSessionClone E cljSession replType (getCLJSReplTypes E)
    | other => makeCljsSessionClone_unnamed cljSession other
    end in
  (if truthy session then setUpCljsRepl E session shadowBuild else ret tt);;;
  status_update.

End Recreate.

Module Sessions.

(** A project at [/repo] with the port file [.nrepl-port]; the document
    [/repo/src/core.clj] is open; the user picks "Figwheel" as the REPL type;
    the server accepts every connection, numbers the clones of a session
    from 10 on and prints the ready marker of Figwheel on every
    evaluation. *)
Definition env : Env :=
  {| stripAnsi := Scenario.stripAnsi_model;
     nreplCreate := fun _ _ => Ok 1%nat;
     sessionClone := fun _ n => Ok (VSession (10 + n));
     sessionEval := fun _ _ => mkEval [Stdout "Prompt will show"] (Some "nil");
     openReplWindow := fun _ => Ok tt;
     reconnectReplWindow := fun _ => Ok tt;
     showInputBox := fun _ => None;
     quickPickSingle := fun _ _ => Some "Figwheel";
     quickPickMulti := fun values _ => Some (take 1 values);
     readdirSync := fun _ => Ok [];
     existsSync := fun p => bool_decide (p ∈ [["repo"; ".nrepl-port"]]);
     shadowBuildKeys := fun _ => Ok ["app"];
     openBrowserWhenFigwheelStarted := true;
     customCljsRepl := None;
     regexSearch := fun pat x => search x pat;
     regexMatch := fun pat x => if 0 <=? search x pat then Some pat else None;
     activeDocument := Some ["repo"; "src"; "core.clj"];
     workspaceFolderOf := fun _ => Some ["repo"] |}.

(** The world after an autoconnect in that project. *)
Definition connected : World :=
  snd (Entry.connect env (PortFiles.files "57321") true Scenario.w0).

End Sessions.
(** ** Notions used in the statements *)

(** [pat] occurs in [x]. *)
Definition contains (x pat : string) : Prop := exists pre post, x = pre ++ pat ++ post.

(** The texts of the stdout chunks, and of the stderr chunks, in order. *)
Definition stdout_texts (cs : list Chunk) : list string :=
  flat_map (fun c => match c with Stdout x => [x] | Stderr _ => [] end) cs.

Definition stderr_texts (cs : list Chunk) : list string :=
  flat_map (fun c => match c with Stdout _ => [] | Stderr x => [x] end) cs.

(** The runs the probes recorded in a trace. *)
Definition probe_runs (tr : list Event) : list (nat * string) :=
  flat_map (fun ev => match ev with ProcessorRan tag x => [(tag, x)] | _ => [] end) tr.

(** The value [evalConnectCode] hands to the success predicate. *)
Definition value_result (r : EvalOutcome) : Value :=
  match eval_value r with
  | Some v => VStr v
  | None => VUndef
  end.

(** What a session role slot reads as. *)
Definition slot (w : World) (k : string) : Value := default VUndef (store w !! k).

(** A session role slot holds a session, or is unset. *)
Definition is_session_slot (v : Value) : bool :=
  match v with
  | VUndef | VNull | VSession _ => true
  | _ => false
  end.

(** [cljc] aliases [clj] or [cljs]. *)
Definition cljc_aliases (w : World) : bool :=
  (loose_eq (slot w "cljc") (slot w "clj") || loose_eq (slot w "cljc") (slot w "cljs"))%bool.

(** The world after [evalConnectCode] found the success predicate satisfied
    on [session] in the world [w]. *)
Definition adopt_cljs (session : Value) (name : string) (w : World) : World :=
  mkWorld (<["cljs" := session]> (store w)) (workspaceState w) (nClient w) (cljSession w)
          session (clones w)
          (trace w ++ [Analytics "REPL" "ConnectedCLJS" (VStr name)]).

(** The world after the output chunks [cs] have been delivered to the
    handlers of [evalConnectCode]. *)
Definition delivered (E : Env) (ps : option (list processOutputFn)) (cs : list Chunk)
    (w : World) : World :=
  snd (deliver E ps cs ([], []) w).

(** The world once the value promise of the evaluation has settled. *)
Definition settled (r : EvalOutcome) (w : World) : World :=
  match eval_value r with
  | Some _ => w
  | None => effect (console_error "Error evaluating connect form: ") w
  end.

(** The test [parsedPort && parsedPort > 0 && parsedPort < 65536]. *)
Definition port_in_range (p : JSNumber) : bool :=
  (number_truthy p && gt_zero p && lt_65536 p)%bool.

(** The host and the parsed port of the text the user entered. *)
Definition url_host (url : string) : string := nth 0 (split_colon url) "".

Definition url_port (url : string) : JSNumber :=
  match split_colon url !! 1%nat with
  | Some port => parseFloat_string port
  | None => NaN
  end.

(** The text the input box is opened with. *)
Definition prefill (port : option string) : string :=
  "localhost:" ++ (if field_set port then default "" port else "").

(** The world after the attempt was refused for a bad url. *)
Definition refused (url : string) (w : World) : World :=
  mkWorld (<["connecting" := VBool false]> (store w)) (workspaceState w) (nClient w)
          (cljSession w) (cljsSession w) (clones w)
          (trace w ++ [ChanAppendLine ("Bad url: " ++ url); StatusUpdate]).

(** The world in which [connectToHost] is called for an accepted url. *)
Definition accepted (url : string) (w : World) : World :=
  mkWorld (<["port" := VNum (url_port url)]> (<["hostname" := VStr (url_host url)]> (store w)))
          (workspaceState w) (nClient w) (cljSession w) (cljsSession w) (clones w) (trace w).

(** A text of decimal digits only. *)
Fixpoint all_digits (s : string) : bool :=
  match s with
  | EmptyString => true
  | String c s' => (is_digit c && all_digits s')%bool
  end.

(** The number such a text denotes. *)
Definition decimal_value (s : string) : N := fst (fst (span_digits 0 0 s)).

(** The directory [d] holds one of the project files. *)
Definition has_project_file (E : Env) (d : Path) : bool :=
  existsb (fun f => existsSync E (path_resolve d f)) projectFileNames.

(** The project root as the spec words it: walking upward from the
    document's directory to the workspace folder root [ws], the first
    directory that holds a project file; [ws] itself when none does.
    [below] lists the segments of the document's directory below [ws],
    innermost first. *)
Fixpoint first_project_dir (E : Env) (ws : Path) (below : list string) : Path :=
  match below with
  | [] => ws
  | seg :: up =>
      if has_project_file E (ws ++ rev (seg :: up))%list then (ws ++ rev (seg :: up))%list
      else first_project_dir E ws up
  end.

(** The world after [initProjectDir] stored the folder [ws] and the root [r]. *)
Definition project_stored (ws r : Path) (w : World) : World :=
  mkWorld (<[PROJECT_DIR_KEY := VPath r]> (<[PROJECT_WS_FOLDER_KEY := VFolder ws]> (store w)))
          (workspaceState w) (nClient w) (cljSession w) (cljsSession w) (clones w) (trace w).

(** The world in which [makeCljsSessionClone], entered in [w] for the REPL
    type named [replType], calls the start routine of [repl]: the first clone
    has been made and announced. *)
Definition before_start (replType : string) (repl : ReplType) (w : World) : World :=
  mkWorld (store w) (<["cljsReplType" := VStr replType]> (workspaceState w)) (nClient w)
          (cljSession w) (cljsSession w) (S (clones w))
          ((((trace w ++ [ChanAppendLine "Creating cljs repl session..."]) ++ [ChanShow]) ++
            [Analytics "REPL" "ConnectingCLJS" (VStr replType)]) ++
           [ChanAppendLine ("Starting repl for: " ++ name repl ++ "...")]).


(** The world in which the connect step runs when the start routine
    returned true in [w]: the second clone has been made. *)
Definition before_connect (repl : ReplType) (w : World) : World :=
  mkWorld (store w) (workspaceState w) (nClient w) (cljSession w) (cljsSession w)
          (S (clones w))
          ((trace w ++ [Analytics "REPL" "StartedCLJS" (VStr (name repl))]) ++
           [ChanAppendLine "Started cljs builds"]).

(** ** Further notions *)

(** The text holds a colon. *)
Fixpoint has_colon (s : string) : bool :=
  match s with
  | EmptyString => false
  | String c s' => (Ascii.eqb c ":" || has_colon s')%bool
  end.

(** The world after the prompt was dismissed. *)
Definition dismissed (w : World) : World :=
  mkWorld (<["connecting" := VBool false]> (store w)) (workspaceState w) (nClient w)
          (cljSession w) (cljsSession w) (clones w) (trace w ++ [StatusUpdate]).

(** The world after the state changes of [disconnect], before the client is
    closed. *)
Definition cleared (w : World) : World :=
  mkWorld (<["cljc" := VNull]>
             (<["connected" := VBool false]>
                (<["cljs" := VNull]> (<["clj" := VNull]> (store w)))))
          (workspaceState w) (nClient w) (cljSession w) (cljsSession w) (clones w)
          (trace w ++ [StatusUpdate]).

(** The world after [getFigwheelMainProjects] found no build file. *)
Definition no_projects_reported (w : World) : World :=
  mkWorld (store w) (workspaceState w) (nClient w) (cljSession w) (cljsSession w) (clones w)
          (((trace w ++ [ShowErrorMessage no_figwheel_projects]) ++
            [ChanAppendLine no_figwheel_projects]) ++
           [ChanAppendLine "Connection to Figwheel Main aborted."]).

(** The text of a chunk. *)
Definition chunk_text (c : Chunk) : string :=
  match c with
  | Stdout x => x
  | Stderr x => x
  end.

(** What a trace appended to the connection log. *)
Definition log_appends (tr : list Event) : list string :=
  flat_map (fun ev => match ev with LogAppend x => [x] | _ => [] end) tr.

(** The world in which [makeCljsSessionClone] calls the connect routine of
    [repl], the connect step having been entered in [w]. *)
Definition connect_announced (repl : ReplType) (w : World) : World :=
  mkWorld (store w) (workspaceState w) (nClient w) (cljSession w) (cljsSession w) (clones w)
          (((trace w ++ [ChanAppendLine ("Connecting CLJS repl: " ++ name repl ++ "...")]) ++
            [ChanAppendLine "  Compiling and stuff. This can take a minute or two."]) ++
           [ChanAppendLine "  See Calva Connection Log for detailed progress updates."]).

(** The world [makeCljsSessionClone] is left in when the clone it asked for
    came back null. *)
Definition clone_refused (w : World) : World :=
  mkWorld (store w) (workspaceState w) (nClient w) (cljSession w) (cljsSession w)
          (S (clones w)) (trace w ++ [ChanAppendLine "Creating cljs repl session..."]).

(** The world [makeCljsSessionClone] is left in when the registry has no
    REPL type of the name asked for. *)
Definition type_unknown (replType : string) (w : World) : World :=
  mkWorld (store w) (<["cljsReplType" := VStr replType]> (workspaceState w)) (nClient w)
          (cljSession w) (cljsSession w) (S (clones w))
          (((trace w ++ [ChanAppendLine "Creating cljs repl session..."]) ++ [ChanShow]) ++
           [Analytics "REPL" "ConnectingCLJS" (VStr replType)]).

(** The world [connectToHost] returns false in, its [try] block having
    thrown in [w]. *)
Definition connect_failed (w : World) : World :=
  mkWorld (<["connecting" := VBool false]> (<["connected" := VBool false]> (store w)))
          (workspaceState w) (nClient w) (cljSession w) (cljsSession w) (clones w)
          ((trace w ++ [ChanAppendLine "Failed connecting."]) ++
           [Analytics "REPL" "FailedConnectingCLJ" VUndef]).

(** A client marked silent. *)
Definition silenced (c : Client) : Client := mkClient (client_session c) true.

(** The text holds a hyphen followed by a letter of [a-z]. *)
Fixpoint has_kebab (s : string) : bool :=
  match s with
  | EmptyString => false
  | String d rest =>
      match rest with
      | String c _ => ((Ascii.eqb d "-" && is_lower c) || has_kebab rest)%bool
      | EmptyString => false
      end
  end.

(** A name in kebab case: letters of [a-z], digits, and hyphens each followed
    by a letter. *)
Fixpoint kebab_case (s : string) : bool :=
  match s with
  | EmptyString => true
  | String d rest =>
      ((if Ascii.eqb d "-"
        then match rest with String c _ => is_lower c | EmptyString => false end
        else (is_lower d || is_digit d)%bool) && kebab_case rest)%bool
  end.

(** The text is made of white space only. *)
Fixpoint blank (s : string) : bool :=
  match s with
  | EmptyString => true
  | String c s' => (is_space c && blank s')%bool
  end.

(** The REPL type [connect] goes on with when [picked] was picked. *)
Definition chosen_type (picked : string) : string :=
  if String.eqb picked CLJS_PROJECT_TYPE_NONE then "" else picked.

(** The port file of a REPL type, by its segments under the project root. *)
Definition port_file_of (cljsTypeName : string) : list string :=
  if String.eqb cljsTypeName "shadow-cljs" then [".shadow-cljs"; "nrepl.port"]
  else [".nrepl-port"].

(** The world of [connect] once the project root [root] is stored and the
    REPL type [picked] is picked, where it looks for the port file. *)
Definition type_picked (ws root : Path) (picked : string) (w : World) : World :=
  mkWorld (store (project_stored ws root w))
          (<["selectedCljsTypeName" := VStr (chosen_type picked)]> (workspaceState w))
          (nClient w) (cljSession w) (cljsSession w) (clones w)
          (trace w ++ [Analytics "REPL" "ConnnectInitiated" (VStr picked)]).

(** The world in which [connect] calls [connectToHost] on autoconnect. *)
Definition autoconnect_ready (ws root : Path) (picked port : string) (w : World) : World :=
  mkWorld (<["port" := VStr port]>
             (<["hostname" := VStr "localhost"]> (store (project_stored ws root w))))
          (<["selectedCljsTypeName" := VStr (chosen_type picked)]> (workspaceState w))
          (nClient w) (cljSession w) (cljsSession w) (clones w)
          (trace w ++ [Analytics "REPL" "ConnnectInitiated" (VStr picked)]).


(** ** The project markers, as the specification names them *)

(** The directory [d] holds one of the three project-marker files. *)
Definition holds_marker (E : Env) (d : Path) : bool :=
  (existsSync E (d ++ ["project.clj"])%list || existsSync E (d ++ ["shadow-cljs.edn"])%list ||
   existsSync E (d ++ ["deps.edn"])%list)%bool.

(** The directory [k] levels above [ws/below], where [below] lists the
    segments below [ws], innermost first. *)
Definition levels_up (ws : Path) (below : list string) (k : nat) : Path :=
  (ws ++ rev (drop k below))%list.

(** ** The port of a url, as the specification words it *)

(** The exact value of the decimal [m * 10^e]. *)
Definition port_value (m : N) (e : Z) : Q := (inject_Z (Z.of_N m) * 10 ^ e)%Q.

(** The number read lies strictly between 0 and 65536 once the engine has
    rounded it to a double: it is a positive decimal above [2^-1075] (at and
    below which a decimal rounds to zero) and below [65536 - 2^-38] (at and
    above which it rounds to 65536 or more). *)
Definition rounds_into_port_range (n : JSNumber) : Prop :=
  match n with
  | Dec false m e =>
      ((1 # (2 ^ 1075)%positive) < port_value m e)%Q /\
      (port_value m e < 65536 - (1 # (2 ^ 38)%positive))%Q
  | _ => False
  end.

(** The decimal read is a whole number. *)
Definition is_whole (n : JSNumber) : bool :=
  match n with
  | Dec _ m e => if (0 <=? e)%Z then true else (m mod 10 ^ Z.to_N (- e) =? 0)%N
  | _ => false
  end.

(** ** What a computation leaves alone *)

(** [m] never changes what the shared state holds under [k]. *)
Definition keeps {A : Type} (k : string) (m : M A) : Prop :=
  forall w, store (snd (m w)) !! k = store w !! k.

(** The same of an output processor. *)
Definition processor_keeps (k : string) (p : processOutputFn) : Prop :=
  forall x w, store (p x w) !! k = store w !! k.

(** The keys a Clojure connection stands on. *)
Definition connection_keys : list string := ["connected"; "clj"; "cljc"].

(** The routines of a strategy leave the connection alone. *)
Definition strategy_keeps_connection (repl : ReplType) : Prop :=
  forall k, k ∈ connection_keys ->
    (forall f session name check, start repl = Some f -> keeps k (f session name check)) /\
    (forall f session name check, connect repl = Some f -> keeps k (f session name check)).

(** ** The role [cljc] *)

(** The value is a session. *)
Definition holds_session (v : Value) : bool :=
  match v with
  | VSession _ => true
  | _ => false
  end.

(** [cljc] is bound to a session, and that session is the one [clj] or
    [cljs] is bound to. *)
Definition cljc_aliases_session (w : World) : bool :=
  match slot w "cljc" with
  | VSession i =>
      (loose_eq (VSession i) (slot w "clj") || loose_eq (VSession i) (slot w "cljs"))%bool
  | _ => false
  end.
(** * Properties *)

(** ** Strings *)

Lemma prefix_app (p s : string) : String.prefix p (p ++ s) = true.
Proof.
  induction p as [|c p IH]; simpl.
  - now destruct s.
  - destruct (ascii_dec c c); [exact IH | congruence].
Qed.

Lemma search_from_eq (i : Z) (pat x : string) :
  search_from i pat x =
  if String.prefix pat x then i
  else match x with
       | EmptyString => -1
       | String _ x' => search_from (i + 1) pat x'
       end.
Proof. destruct x; reflexivity. Qed.

Lemma search_from_found (pat post : string) (pre : string) (i : Z) :
  0 <= i -> 0 <= search_from i pat (pre ++ pat ++ post).
Proof.
  revert i. induction pre as [|c pre IH]; intros i Hi.
  - change ("" ++ pat ++ post) with (pat ++ post).
    rewrite search_from_eq, prefix_app. exact Hi.
  - change (String c pre ++ pat ++ post) with (String c (pre ++ pat ++ post)).
    rewrite search_from_eq.
    destruct (String.prefix pat (String c (pre ++ pat ++ post))); [exact Hi|].
    apply IH. lia.
Qed.

Lemma search_contains (x pat : string) : contains x pat -> 0 <= search x pat.
Proof. intros (pre & post & ->). apply search_from_found. lia. Qed.

Lemma search_nonempty (x pat : string) : pat <> "" -> 0 <= search x pat -> x <> "".
Proof.
  intros Hpat Hs ->. unfold search in Hs. simpl in Hs.
  destruct pat; [congruence | simpl in Hs; lia].
Qed.

Lemma find_line_found (pat : string) (lines : list string) (x : string) :
  pat <> "" -> In x lines -> contains x pat ->
  exists y, find_line (fun l => search l pat) lines = VStr y /\ y <> "".
Proof.
  intros Hpat Hin Hc. unfold find_line.
  destruct (List.find (fun l => 0 <=? search l pat) lines) as [y|] eqn:Hf.
  - exists y. split; [reflexivity|].
    apply find_some in Hf as [_ Hy]. apply Z.leb_le in Hy.
    eapply search_nonempty; eassumption.
  - eapply find_none in Hf; [|exact Hin]. simpl in Hf.
    apply search_contains in Hc. apply Z.leb_gt in Hf. lia.
Qed.

Lemma truthy_VStr (y : string) : y <> "" -> truthy (VStr y) = true.
Proof.
  intros Hy. simpl. destruct (String.eqb_spec y ""); [contradiction | reflexivity].
Qed.

(** *** The helpers on small inputs *)

Example parseFloat_8080 : parseFloat_string "8080" = Dec false 8080 0.
Proof. reflexivity. Qed.

Example parseFloat_half : parseFloat_string "0.5" = Dec false 5 (-1).
Proof. reflexivity. Qed.

Example parseFloat_exponent : parseFloat_string " 1.25e3xyz" = Dec false 125 1.
Proof. reflexivity. Qed.

Example parseFloat_text : parseFloat_string "abc" = NaN.
Proof. reflexivity. Qed.

Example port_half_in_range : port_in_range (parseFloat_string "0.5") = true.
Proof. vm_compute. reflexivity. Qed.

Example port_zero_refused : port_in_range (parseFloat_string "0") = false.
Proof. vm_compute. reflexivity. Qed.

Example port_65536_refused : port_in_range (parseFloat_string "65536") = false.
Proof. vm_compute. reflexivity. Qed.

Example split_colon_url : split_colon "localhost:7888" = ["localhost"; "7888"].
Proof. reflexivity. Qed.

Example search_already_running : search "Build already running" "already running" = 6.
Proof. reflexivity. Qed.

Example strip_suffix_build : strip_suffix ".cljs.edn" "dev.cljs.edn" = "dev".
Proof. reflexivity. Qed.

Example shadowCljsReplStart_build :
  shadowCljsReplStart (Some ":app") = Some "(shadow.cljs.devtools.api/nrepl-select :app)".
Proof. reflexivity. Qed.

Example stripAnsi_model_colored :
  Scenario.stripAnsi_model Scenario.colored_line =
  "Figwheel: Starting server at http://localhost:3449".
Proof. reflexivity. Qed.

(** The model of [stripAnsi] leaves no escape byte. *)
Lemma strip_go_no_escape (st : Scenario.StripState) (s : string) :
  has_escape (Scenario.strip_go st s) = false.
Proof.
  revert st. induction s as [|c s IH]; intros st; [reflexivity|].
  destruct st; cbn [Scenario.strip_go].
  - destruct (Ascii.eqb c ESC) eqn:Hc; [apply IH|].
    cbn [has_escape]. now rewrite Hc, IH.
  - destruct (Ascii.eqb c "[") eqn:Hb; [apply IH|].
    destruct (Ascii.eqb c ESC) eqn:Hc; [apply IH|].
    cbn [has_escape]. now rewrite Hc, IH.
  - destruct (Scenario.is_param c); apply IH.
Qed.

Lemma stripAnsi_model_no_escape (s : string) : has_escape (Scenario.stripAnsi_model s) = false.
Proof. apply strip_go_no_escape. Qed.

(** ** The evaluation connect protocol *)

Section EvalConnect.

Variable E : Env.

Lemma for_each_processors (ps : list processOutputFn) (x : string) (w : World) :
  for_each (fun p : processOutputFn => fun w => (Ok tt, p x w)) ps w =
  (Ok tt, fold_left (fun w p => p x w) ps w).
Proof.
  revert w. induction ps as [|p ps IH]; intros w; simpl; [reflexivity|].
  unfold bind. apply IH.
Qed.

Lemma deliver_fst (ps : option (list processOutputFn)) (cs : list Chunk)
    (acc : list string * list string) (w : World) :
  fst (deliver E ps cs acc w) =
  Ok (fst acc ++ map (stripAnsi E) (stdout_texts cs),
      snd acc ++ map (stripAnsi E) (stderr_texts cs))%list.
Proof.
  revert acc w. induction cs as [|c cs IH]; intros [out err] w; simpl.
  - now rewrite !app_nil_r.
  - destruct c as [x|x]; unfold bind at 1.
    + unfold on_stdout, bind. destruct ps as [ps|].
      * rewrite for_each_processors. simpl. rewrite IH. simpl.
        now rewrite <- !app_assoc.
      * simpl. rewrite IH. simpl. now rewrite <- !app_assoc.
    + unfold on_stderr, bind. simpl. rewrite IH. simpl.
      now rewrite <- !app_assoc.
Qed.

Lemma deliver_eq (ps : option (list processOutputFn)) (cs : list Chunk) (w : World) :
  deliver E ps cs ([], []) w =
  (Ok (map (stripAnsi E) (stdout_texts cs), map (stripAnsi E) (stderr_texts cs)),
   delivered E ps cs w).
Proof.
  unfold delivered. rewrite (surjective_pairing (deliver E ps cs ([], []) w)) at 1.
  now rewrite deliver_fst.
Qed.

(** [evalConnectCode] on a session, spelled out. *)
Lemma evalConnectCode_eq (id : nat) (code name : string) (check : option checkConnectedFn)
    (ps : option (list processOutputFn)) (w : World) :
  evalConnectCode E (VSession id) code name check ps w =
  let r := sessionEval E id code in
  let w' := settled r (delivered E ps (eval_chunks r) w) in
  match check with
  | None => (Throw (TypeError "checkSuccess is not a function"), w')
  | Some f =>
      match f (value_result r) (map (stripAnsi E) (stdout_texts (eval_chunks r)))
              (map (stripAnsi E) (stderr_texts (eval_chunks r))) with
      | Throw e => (Throw e, w')
      | Ok v => if truthy v then (Ok true, adopt_cljs (VSession id) name w')
                else (Ok false, w')
      end
  end.
Proof.
  unfold evalConnectCode, bind at 1. rewrite deliver_eq.
  unfold settled, value_result, call_check.
  destruct (eval_value (sessionEval E id code)) as [v|]; cbn;
    (destruct check as [f|]; [|reflexivity]);
    unfold bind, lift; cbn;
    match goal with |- context [f ?a ?b ?c] => destruct (f a b c) as [v'|e] end;
    try reflexivity; destruct (truthy v'); reflexivity.
Qed.

End EvalConnect.

(** If the success predicate does not throw, [evalConnectCode] returns
    whether its result is truthy; this covers a rejected value promise, where
    the predicate is given [undefined] and the lines captured so far. *)
Lemma evalConnectCode_returns_predicate (E : Env) (id : nat) (code name : string)
    (check : checkConnectedFn) (ps : option (list processOutputFn)) (w : World) (v : Value) :
  check (value_result (sessionEval E id code))
        (map (stripAnsi E) (stdout_texts (eval_chunks (sessionEval E id code))))
        (map (stripAnsi E) (stderr_texts (eval_chunks (sessionEval E id code)))) = Ok v ->
  fst (evalConnectCode E (VSession id) code name (Some check) ps w) = Ok (truthy v).
Proof.
  intros Hv. rewrite evalConnectCode_eq. cbv zeta. rewrite Hv.
  destruct (truthy v); reflexivity.
Qed.

(** C5 (the code departs from the claim). When the value promise of the
    evaluation is rejected, [evalConnectCode] logs the error and calls the
    success predicate with [undefined]; the shadow-cljs [connected] predicate
    reads [result.search] and throws a TypeError, so [evalConnectCode] does
    not return the predicate's result, it throws. *)
Theorem evalConnectCode_shadow_predicate_throws (E : Env) (id : nat) (code name : string)
    (ps : option (list processOutputFn)) (w : World) :
  eval_value (sessionEval E id code) = None ->
  fst (evalConnectCode E (VSession id) code name (Some shadow_connected) ps w) =
  Throw (TypeError "Cannot read property 'search' of undefined").
Proof.
  intros Hv. rewrite evalConnectCode_eq. cbv zeta.
  unfold value_result. rewrite Hv. reflexivity.
Qed.

Lemma evalConnectCode_shadow_predicate_throws_witness :
  let e := Scenario.env Scenario.failing_eval None [] [] None None in
  eval_value (sessionEval e 10 "(shadow.cljs.devtools.api/nrepl-select :app)") = None /\
  fst (evalConnectCode e (VSession 10) "(shadow.cljs.devtools.api/nrepl-select :app)"
         "shadow-cljs" (Some shadow_connected) None Scenario.w0) =
  Throw (TypeError "Cannot read property 'search' of undefined").
Proof.
  split; [reflexivity|].
  apply (evalConnectCode_shadow_predicate_throws
           (Scenario.env Scenario.failing_eval None [] [] None None)).
  reflexivity.
Defined.

(** C7. Whenever some accumulated stderr line contains the text
    "already running", the [started] predicate of the Figwheel Main strategy
    returns a truthy value ([true], or the matching stderr line), whatever
    stdout holds; [evalConnectCode] run with this predicate then returns
    [true]: stderr saying "already running" counts as success. *)
Theorem figwheelMain_started_already_running (result : Value) (out err : list string)
    (x : string) :
  In x err -> contains x "already running" ->
  (exists v, figwheelMain_started result out err = Ok v /\ truthy v = true) /\
  (forall (E : Env) (id : nat) (code name : string)
          (ps : option (list processOutputFn)) (w : World),
      err = map (stripAnsi E) (stderr_texts (eval_chunks (sessionEval E id code))) ->
      fst (evalConnectCode E (VSession id) code name (Some figwheelMain_started) ps w) =
      Ok true).
Proof.
  intros Hin Hc.
  assert (Hs : forall r o, exists v, figwheelMain_started r o err = Ok v /\ truthy v = true).
  { intros r o. unfold figwheelMain_started.
    destruct (not_undefined (find_line (fun l => search l "Prompt will show") o)).
    - exists (VBool true). split; reflexivity.
    - destruct (find_line_found "already running" err x) as (y & Hy & Hne);
        [discriminate | exact Hin | exact Hc |].
      exists (VStr y). rewrite Hy. split; [reflexivity | now apply truthy_VStr]. }
  split; [apply Hs|].
  intros E id code name ps w Herr.
  destruct (Hs (value_result (sessionEval E id code))
               (map (stripAnsi E) (stdout_texts (eval_chunks (sessionEval E id code)))))
    as (v & Hv & Ht).
  rewrite (evalConnectCode_returns_predicate E id code name figwheelMain_started ps w v).
  - now rewrite Ht.
  - now rewrite <- Herr.
Qed.

Lemma figwheelMain_started_already_running_witness :
  exists v, figwheelMain_started (VStr "nil") [] ["Build already running"] = Ok v /\
            truthy v = true.
Proof.
  apply (figwheelMain_started_already_running (VStr "nil") [] ["Build already running"]
           "Build already running").
  - left. reflexivity.
  - exists "Build ", "". reflexivity.
Defined.

(** The lines [evalConnectCode] accumulates in [out] and [err], the ones it
    hands to the success predicate, are stripped: with a [stripAnsi] that
    leaves no escape byte, none of them holds one. *)
Lemma evalConnectCode_lines_stripped (E : Env) (cs : list Chunk) :
  (forall s, has_escape (stripAnsi E s) = false) ->
  Forall (fun l => has_escape l = false) (map (stripAnsi E) (stdout_texts cs)) /\
  Forall (fun l => has_escape l = false) (map (stripAnsi E) (stderr_texts cs)).
Proof.
  intros Hstrip. split; apply Forall_forall; intros l Hl;
    apply list_elem_of_In, in_map_iff in Hl as (x & <- & _); apply Hstrip.
Qed.

(** *** Output processors *)

Lemma probe_runs_app (a b : list Event) : probe_runs (a ++ b) = (probe_runs a ++ probe_runs b)%list.
Proof. apply flat_map_app. Qed.

Lemma probe_runs_probes (x : string) (tags : list nat) :
  probe_runs (map (fun i => ProcessorRan i x) tags) = map (fun i => (i, x)) tags.
Proof. induction tags as [|i tags IH]; simpl; [reflexivity | now rewrite IH]. Qed.

Lemma run_probes_trace (x : string) (tags : list nat) (w : World) :
  trace (fold_left (fun w (p : processOutputFn) => p x w) (map probe tags) w) =
  (trace w ++ map (fun i => ProcessorRan i x) tags)%list.
Proof.
  revert w. induction tags as [|i tags IH]; intros w; simpl.
  - now rewrite app_nil_r.
  - rewrite IH. simpl. now rewrite <- app_assoc.
Qed.

Lemma deliver_probe_runs (E : Env) (tags : list nat) (cs : list Chunk)
    (acc : list string * list string) (w : World) :
  probe_runs (trace (snd (deliver E (Some (map probe tags)) cs acc w))) =
  (probe_runs (trace w) ++
   flat_map (fun x => map (fun i => (i, x)) tags) (stdout_texts cs))%list.
Proof.
  revert acc w. induction cs as [|c cs IH]; intros acc w; simpl.
  - now rewrite app_nil_r.
  - destruct c as [x|x]; unfold bind at 1.
    + unfold on_stdout, bind. rewrite for_each_processors. simpl.
      rewrite IH. simpl. rewrite run_probes_trace, !probe_runs_app, probe_runs_probes.
      simpl. now rewrite app_nil_r, <- app_assoc.
    + unfold on_stderr, bind. simpl. rewrite IH. simpl.
      rewrite probe_runs_app. simpl. now rewrite app_nil_r.
Qed.

Lemma probe_runs_settled (r : EvalOutcome) (w : World) :
  probe_runs (trace (settled r w)) = probe_runs (trace w).
Proof.
  unfold settled. destruct (eval_value r); [reflexivity|].
  simpl. rewrite probe_runs_app. simpl. now rewrite app_nil_r.
Qed.

(** The runs of recording processors during an [evalConnectCode] evaluation:
    each processor on each stdout chunk, with the text it was handed. *)
Lemma evalConnectCode_probe_runs (E : Env) (id : nat) (code name : string)
    (check : option checkConnectedFn) (tags : list nat) (w : World) :
  probe_runs (trace (snd (evalConnectCode E (VSession id) code name check
                            (Some (map probe tags)) w))) =
  (probe_runs (trace w) ++
   flat_map (fun x => map (fun i => (i, x)) tags)
            (stdout_texts (eval_chunks (sessionEval E id code))))%list.
Proof.
  rewrite evalConnectCode_eq. cbv zeta.
  assert (Hw : probe_runs (trace (settled (sessionEval E id code)
                 (delivered E (Some (map probe tags))
                    (eval_chunks (sessionEval E id code)) w))) =
               (probe_runs (trace w) ++
                flat_map (fun x => map (fun i => (i, x)) tags)
                  (stdout_texts (eval_chunks (sessionEval E id code))))%list).
  { rewrite probe_runs_settled. apply deliver_probe_runs. }
  destruct check as [f|]; [|exact Hw].
  match goal with |- context [f ?a ?b ?c] => destruct (f a b c) as [v|e] end; [|exact Hw].
  destruct (truthy v); [|exact Hw].
  cbn [snd adopt_cljs trace]. rewrite probe_runs_app, Hw. simpl. now rewrite app_nil_r.
Qed.

(** C6 (amended). During an [evalConnectCode] evaluation every registered
    output processor is run, in registration order, once for every stdout
    chunk; no processor is run for a stderr chunk. Stated with processors that
    record their runs: the processors that ran are, for each stdout chunk in
    arrival order, all the registered ones, and no others. *)
Theorem evalConnectCode_processors_see_stdout_only (E : Env) (id : nat) (code name : string)
    (check : option checkConnectedFn) (tags : list nat) (w : World) :
  map fst (probe_runs (trace (snd (evalConnectCode E (VSession id) code name check
                                     (Some (map probe tags)) w)))) =
  (map fst (probe_runs (trace w)) ++
   flat_map (fun _ => tags) (stdout_texts (eval_chunks (sessionEval E id code))))%list.
Proof.
  rewrite evalConnectCode_probe_runs, map_app. f_equal.
  induction (stdout_texts (eval_chunks (sessionEval E id code))) as [|x xs IH];
    [reflexivity|].
  cbn [flat_map]. rewrite map_app, IH, map_map. cbn [fst]. now rewrite map_id.
Qed.

(** C6, as stated, fails: a processor is registered, a stderr chunk arrives,
    and the processor is not run on it. *)
Lemma evalConnectCode_stderr_not_processed :
  let e := Scenario.env Scenario.failing_eval None [] [] None None in
  eval_chunks (sessionEval e 10 "(start)") = [Stderr "Execution error"] /\
  probe_runs (trace (snd (evalConnectCode e (VSession 10) "(start)" "Figwheel"
                            (Some figwheel_connected) (Some [probe 0]) Scenario.w0))) = [].
Proof. split; reflexivity. Qed.

(** C1 (the code departs from the claim). The stdout handler strips the
    escape sequences from what it appends to [out] and to the connection log,
    but hands the chunk to the output processors as it arrived. With the
    Figwheel strategy and a coloured "Starting server" line, the lines given
    to the predicate and the log are clean, while the processor matches on the
    raw chunk and opens a URL that still carries the escape byte. *)
Theorem evalConnectCode_processor_receives_escape_bytes :
  let e := Scenario.env (fun _ _ => mkEval [Stdout Scenario.colored_line] (Some "nil"))
             None [] [] None None in
  let w := snd (figwheel_connect e (VSession 10) "Figwheel" (Some figwheel_connected)
                  Scenario.w0) in
  has_escape Scenario.colored_line = true /\
  has_escape (stripAnsi e Scenario.colored_line) = false /\
  In (LogAppend "Figwheel: Starting server at http://localhost:3449") (trace w) /\
  exists url, In (OpenBrowser url) (trace w) /\ has_escape url = true.
Proof.
  cbv zeta. split; [reflexivity|]. split; [reflexivity|]. split.
  - vm_compute. tauto.
  - exists ("http://localhost:3449" ++ String ESC "[0m"). split.
    + vm_compute. tauto.
    + reflexivity.
Qed.

(** ** Session roles *)

Lemma loose_eq_sym (a b : Value) : loose_eq a b = loose_eq b a.
Proof.
  destruct a, b; simpl; try reflexivity.
  - now destruct b0, b.
  - apply String.eqb_sym.
  - apply bool_decide_ext. split; congruence.
  - apply Nat.eqb_sym.
  - apply bool_decide_ext. split; congruence.
Qed.

Lemma loose_eq_trans (a b c : Value) :
  loose_eq a b = true -> loose_eq b c = true -> loose_eq a c = true.
Proof.
  destruct a, b; simpl; try discriminate; destruct c; simpl; try discriminate;
    try reflexivity.
  - now destruct b0, b, b1.
  - intros H1 H2. apply String.eqb_eq in H1, H2. subst. apply String.eqb_refl.
  - intros H1 H2. apply bool_decide_eq_true in H1, H2. subst. now apply bool_decide_eq_true.
  - intros H1 H2. apply Nat.eqb_eq in H1, H2. subst. apply Nat.eqb_refl.
  - intros H1 H2. apply bool_decide_eq_true in H1, H2. subst. now apply bool_decide_eq_true.
Qed.

Lemma loose_eq_refl_slot (a : Value) : is_session_slot a = true -> loose_eq a a = true.
Proof. destruct a; simpl; try discriminate; intros _; [reflexivity.. | apply Nat.eqb_refl]. Qed.



(** ** Disconnecting *)

(** C3 (amended). An explicit [disconnect] clears the slots [clj], [cljs]
    and [cljc] and the connected flag (whether or not a client exists to
    close). The close handler registered by [connectToHost], which runs when
    the connection closes, resets the flags [connected] and [connecting] and
    nothing else: the session slots keep what they held. *)
Theorem disconnect_clears_slots_handler_resets_flags (w : World) (c : Client) :
  (let w' := snd (disconnect (ret tt) w) in
   store w' !! "clj" = Some VNull /\
   store w' !! "cljs" = Some VNull /\
   store w' !! "cljc" = Some VNull /\
   store w' !! "connected" = Some (VBool false)) /\
  (let w' := snd (onCloseHandler c w) in
   store w' =
   <["connecting" := VBool false]> (<["connected" := VBool false]> (store w)) /\
   store w' !! "connected" = Some (VBool false) /\
   store w' !! "connecting" = Some (VBool false) /\
   store w' !! "clj" = store w !! "clj" /\
   store w' !! "cljs" = store w !! "cljs" /\
   store w' !! "cljc" = store w !! "cljc").
Proof.
  split.
  - unfold disconnect, bind, cursor_set, status_update, emit, ret, get_nClient, throw.
    simpl. destruct (nClient w); simpl; repeat split; by simplify_map_eq.
  - unfold onCloseHandler, bind, cursor_set, status_update, chan_appendLine, emit, ret.
    destruct (client_silent c); simpl; repeat split; by simplify_map_eq.
Qed.

(** C3, as stated, fails: after an unexpected close of a connection with
    both sessions bound, the close handler leaves [clj], [cljs] and [cljc]
    bound; only the flags are reset. *)
Lemma close_handler_keeps_session_slots :
  let w := Scenario.cljs_world in
  let w' := snd (onCloseHandler (mkClient 1 false) w) in
  store w !! "connected" = Some (VBool true) /\
  store w' !! "connected" = Some (VBool false) /\
  store w' !! "clj" = Some (VSession 1) /\
  store w' !! "cljs" = Some (VSession 11) /\
  store w' !! "cljc" = Some (VSession 1).
Proof. cbv zeta. repeat split; vm_compute; reflexivity. Qed.

(** ** Prompting for the address *)

Section Prompt.

Variable E : Env.

Lemma connect_prelude_ok (w : World) : fst (connect_prelude w) = Ok tt.
Proof.
  unfold connect_prelude, bind, logEvent, emit, get_nClient, set_nClient, set_cljSession,
    set_cljsSession, cursor_set, status_update, ret.
  simpl. destruct (nClient w); reflexivity.
Qed.

(** [connectToHost] catches whatever its [try] block throws. *)
Lemma connectToHost_returns (hostname : string) (port : JSNumber) (cljsTypeName : string)
    (replTypes : list ReplType) (w : World) :
  exists b, fst (connectToHost E hostname port cljsTypeName replTypes w) = Ok b.
Proof.
  unfold connectToHost, bind at 1.
  destruct (connect_prelude w) as [r w1] eqn:Hp.
  pose proof (connect_prelude_ok w) as Hok. rewrite Hp in Hok. simpl in Hok. subst r.
  unfold try_catch.
  destruct (bind (clj_bring_up E hostname port) _ w1) as [[b|e] w2].
  - exists b. reflexivity.
  - exists false. reflexivity.
Qed.


End Prompt.



(** *** Ports written in decimal digits *)

Lemma span_digits_all (s : string) (acc : N) (n : nat) :
  all_digits s = true ->
  span_digits acc n s = (fst (fst (span_digits acc n s)), (n + String.length s)%nat, "").
Proof.
  revert acc n. induction s as [|c s IH]; intros acc n Hall; simpl in *.
  - now rewrite Nat.add_0_r.
  - apply andb_true_iff in Hall as [Hc Hs]. rewrite Hc.
    rewrite (IH _ _ Hs) at 1. simpl. f_equal. f_equal. lia.
Qed.

Lemma parseFloat_digits (s : string) :
  s <> "" -> all_digits s = true ->
  parseFloat_string s = Dec false (decimal_value s) 0.
Proof.
  destruct s as [|c s]; [congruence|]. intros _ Hall.
  pose proof (span_digits_all (String c s) 0 0 Hall) as Hspan.
  simpl in Hall. apply andb_true_iff in Hall as [Hc Hs].
  unfold decimal_value.
  assert (Hsp : is_space c = false).
  { destruct c as [b0 b1 b2 b3 b4 b5 b6 b7];
      destruct b0, b1, b2, b3, b4, b5, b6, b7; try discriminate Hc; reflexivity. }
  assert (Hsign : parseFloat_string (String c s) = unsigned_literal false (String c s)).
  { unfold parseFloat_string. cbn [trim_start]. rewrite Hsp.
    destruct c as [b0 b1 b2 b3 b4 b5 b6 b7];
      destruct b0, b1, b2, b3, b4, b5, b6, b7; try discriminate Hc; reflexivity. }
  rewrite Hsign. unfold unsigned_literal.
  assert (Hinf : String.prefix "Infinity" (String c s) = false).
  { destruct c as [b0 b1 b2 b3 b4 b5 b6 b7];
      destruct b0, b1, b2, b3, b4, b5, b6, b7; try discriminate Hc; reflexivity. }
  rewrite Hinf, Hspan. reflexivity.
Qed.

Lemma port_in_range_integer (v : N) :
  port_in_range (Dec false v 0) = ((0 <? v)%N && (v <? 65536)%N)%bool.
Proof.
  assert (Hbig : (1 < Z.pos (2 ^ 1075))%Z) by (vm_compute; reflexivity).
  assert (Hq : (Q_of_dec false v 0 == inject_Z (Z.of_N v))%Q).
  { unfold Q_of_dec. simpl. ring. }
  assert (Habs : (Qabs (Q_of_dec false v 0) == inject_Z (Z.of_N v))%Q).
  { rewrite Hq. apply Qabs_pos. change 0%Q with (inject_Z 0). rewrite <- Zle_Qle. lia. }
  assert (Hpos : Qltb half_min_double (inject_Z (Z.of_N v)) = (0 <? v)%N).
  { unfold Qltb, Qle_bool, half_min_double. cbn [Qnum Qden inject_Z].
    destruct (N.ltb_spec 0 v) as [Hv|Hv].
    - apply negb_true_iff, Z.leb_gt. nia.
    - apply negb_false_iff, Z.leb_le. assert (v = 0%N) by lia. subst. simpl. lia. }
  assert (Hlt : Qltb (inject_Z (Z.of_N v)) below_65536 = (v <? 65536)%N).
  { unfold Qltb, Qle_bool, below_65536. cbn.
    destruct (N.ltb_spec v 65536) as [Hv|Hv].
    - apply negb_true_iff, Z.leb_gt. lia.
    - apply negb_false_iff, Z.leb_le. lia. }
  assert (Hcompat : forall a b c, (a == b)%Q -> Qltb c a = Qltb c b).
  { intros a b c Hab. unfold Qltb. f_equal.
    destruct (Qle_bool a c) eqn:H1, (Qle_bool b c) eqn:H2; try reflexivity.
    - apply Qle_bool_iff in H1. rewrite Hab in H1. apply Qle_bool_iff in H1. congruence.
    - apply Qle_bool_iff in H2. rewrite <- Hab in H2. apply Qle_bool_iff in H2. congruence. }
  assert (Hcompat' : forall a b c, (a == b)%Q -> Qltb a c = Qltb b c).
  { intros a b c Hab. unfold Qltb. f_equal.
    destruct (Qle_bool c a) eqn:H1, (Qle_bool c b) eqn:H2; try reflexivity.
    - apply Qle_bool_iff in H1. rewrite Hab in H1. apply Qle_bool_iff in H1. congruence.
    - apply Qle_bool_iff in H2. rewrite <- Hab in H2. apply Qle_bool_iff in H2. congruence. }
  unfold port_in_range, number_truthy, gt_zero, lt_65536.
  rewrite (Hcompat _ _ _ Habs), (Hcompat _ _ _ Hq), (Hcompat' _ _ _ Hq), Hpos, Hlt.
  now destruct (0 <? v)%N.
Qed.

(** For a port written in decimal digits only, the test of
    [promptForNreplUrlAndConnect] is that its value lies strictly between 0
    and 65536. *)
Lemma port_in_range_decimal (s : string) :
  s <> "" -> all_digits s = true ->
  port_in_range (parseFloat_string s) =
  ((0 <? decimal_value s)%N && (decimal_value s <? 65536)%N)%bool.
Proof.
  intros Hne Hall. rewrite (parseFloat_digits s Hne Hall). apply port_in_range_integer.
Qed.

Example port_in_range_decimal_7888 : port_in_range (parseFloat_string "7888") = true.
Proof. now rewrite port_in_range_decimal. Qed.

(** ** Project root resolution *)

Section ProjectDir.

Variable E : Env.

Lemma scan_project_files_eq (d : Path) (names : list string) (rootPath : Path) :
  scan_project_files E d names rootPath =
  if existsb (fun f => existsSync E (path_resolve d f)) names then d else rootPath.
Proof.
  induction names as [|f names IH]; simpl; [reflexivity|].
  destruct (existsSync E (path_resolve d f)); [reflexivity | exact IH].
Qed.

Lemma path_parent_snoc (d : Path) (seg : string) : path_parent (d ++ [seg])%list = d.
Proof. unfold path_parent. apply removelast_last. Qed.

(** The loop of [initProjectDir] finds the directory the spec describes, and
    does so within the fuel given. *)
Lemma walk_up_finds (ws : Path) (below : list string) (fuel : nat) (prev : option Path) :
  prev <> Some (ws ++ rev below)%list ->
  (length below < fuel)%nat ->
  walk_up E fuel ws (ws ++ rev below)%list prev = Some (first_project_dir E ws below).
Proof.
  revert fuel prev. induction below as [|seg up IH]; intros fuel prev Hprev Hfuel.
  - destruct fuel as [|fuel]; [simpl in Hfuel; lia|].
    cbn [walk_up first_project_dir rev] in *. rewrite app_nil_r in *.
    rewrite (bool_decide_eq_false_2 (Some ws = prev))
      by (intros Heq; apply Hprev; symmetry; exact Heq).
    rewrite scan_project_files_eq.
    destruct (existsb _ projectFileNames); now rewrite bool_decide_eq_true_2.
  - destruct fuel as [|fuel]; [simpl in Hfuel; lia|].
    cbn [walk_up first_project_dir].
    rewrite (bool_decide_eq_false_2 (Some _ = prev))
      by (intros Heq; apply Hprev; symmetry; exact Heq).
    rewrite scan_project_files_eq. fold (has_project_file E (ws ++ rev (seg :: up))%list).
    destruct (has_project_file E (ws ++ rev (seg :: up))%list).
    + now rewrite bool_decide_eq_true_2.
    + rewrite bool_decide_eq_false_2.
      * cbn [rev]. rewrite app_assoc, path_parent_snoc. apply IH.
        -- intros Heq. injection Heq as Heq. apply (f_equal length) in Heq.
           rewrite !length_app in Heq. simpl in Heq. lia.
        -- simpl in Hfuel. lia.
      * intros Heq. apply (f_equal length) in Heq.
        rewrite length_app in Heq. cbn [rev] in Heq. rewrite length_app in Heq.
        simpl in Heq. lia.
Qed.


End ProjectDir.


(** ** Bringing up the ClojureScript session *)

Section Bootstrap.

Variable E : Env.

Lemma evalConnectCode_true (id : nat) (code name : string) (check : option checkConnectedFn)
    (ps : option (list processOutputFn)) (w w' : World) :
  evalConnectCode E (VSession id) code name check ps w = (Ok true, w') ->
  store w' !! "cljs" = Some (VSession id) /\ cljsSession w' = VSession id.
Proof.
  rewrite evalConnectCode_eq. cbv zeta.
  destruct check as [f|]; [|discriminate].
  match goal with |- context [f ?a ?b ?c] => destruct (f a b c) as [v|e] end; [|discriminate].
  destruct (truthy v); [|discriminate].
  intros [= <-]. split; [apply lookup_insert_eq | reflexivity].
Qed.

(** The start routine of Figwheel Main returns true only through
    [evalConnectCode], which by then has adopted the session it was given. *)
Lemma figwheelMain_start_true (session : Value) (name : string)
    (check : option checkConnectedFn) (w w' : World) :
  figwheelMain_start E session name check w = (Ok true, w') ->
  store w' !! "cljs" = Some session /\ cljsSession w' = session.
Proof.
  unfold figwheelMain_start, bind at 1.
  destruct (getFigwheelMainProjects E w) as [[projects|e] w1]; [|discriminate].
  unfold bind at 1, getProjectRoot, cursor_get.
  destruct (if (length projects <=? 1)%nat then Some projects else _) as [builds|].
  - unfold bind, workspaceState_update, cursor_set. cbn [fst snd].
    destruct session; try (unfold evalConnectCode, throw; discriminate).
    apply evalConnectCode_true.
  - unfold bind, chan_appendLine, emit, throw. discriminate.
Qed.


Lemma makeCljsSessionClone_start_succeeded (sid : nat) (replType : string)
    (replTypes : list ReplType) (repl : ReplType) (startFn : connectFn) (s1 s2 : Value)
    (w w2 : World) :
  List.find (fun x => String.eqb (name x) replType) replTypes = Some repl ->
  start repl = Some startFn ->
  sessionClone E sid (clones w) = Ok s1 ->
  truthy s1 = true ->
  startFn s1 (name repl) (started repl) (before_start replType repl w) = (Ok true, w2) ->
  sessionClone E sid (clones w2) = Ok s2 ->
  makeCljsSessionClone E (VSession sid) replType replTypes w =
  connect_step repl s2 (before_connect repl w2).
Proof.
  intros Hfind Hstart Hclone Htruthy Hrun Hclone2.
  unfold makeCljsSessionClone, bind at 1. unfold chan_appendLine at 1, emit.
  unfold bind at 1. unfold session_clone.
  cbn [fst snd store workspaceState nClient cljSession cljsSession clones trace].
  rewrite Hclone, Htruthy.
  unfold bind at 1, emit. unfold bind at 1, workspaceState_update.
  unfold bind at 1, logEvent, emit.
  cbn [fst snd store workspaceState nClient cljSession cljsSession clones trace].
  rewrite Hfind, Hstart.
  unfold bind at 1, chan_appendLine at 1, emit. unfold bind at 1.
  cbn [fst snd store workspaceState nClient cljSession cljsSession clones trace].
  unfold before_start in Hrun. rewrite Hrun.
  unfold bind at 1. unfold bind at 1, chan_appendLine at 1, emit. unfold bind at 1.
  cbn [fst snd store workspaceState nClient cljSession cljsSession clones trace].
  rewrite Hclone2. reflexivity.
Qed.

End Bootstrap.

(** C10. Whenever the success predicate handed to [evalConnectCode] returns
    a truthy value, [evalConnectCode] returns true having set the slot [cljs]
    (and the module variable [cljsSession]) to the session it evaluated on.
    This includes the call made by the start routine of Figwheel Main with
    the [started] predicate: when that start succeeds, [cljs] points at the
    clone made before the start, while [makeCljsSessionClone] drops that clone
    and runs the connect step on a second, fresh clone, the slot still
    pointing at the first. *)
Theorem evalConnectCode_adopts_session (E : Env) :
  (forall (id : nat) (code name : string) (check : checkConnectedFn)
          (ps : option (list processOutputFn)) (w : World) (v : Value),
      check (value_result (sessionEval E id code))
            (map (stripAnsi E) (stdout_texts (eval_chunks (sessionEval E id code))))
            (map (stripAnsi E) (stderr_texts (eval_chunks (sessionEval E id code)))) = Ok v ->
      truthy v = true ->
      exists w',
        evalConnectCode E (VSession id) code name (Some check) ps w = (Ok true, w') /\
        store w' !! "cljs" = Some (VSession id) /\
        cljsSession w' = VSession id) /\
  (forall (sid id1 : nat) (s2 : Value) (w w2 : World),
      sessionClone E sid (clones w) = Ok (VSession id1) ->
      figwheelMain_start E (VSession id1) "Figwheel Main" (Some figwheelMain_started)
        (before_start "Figwheel Main" (figwheelMain E) w) = (Ok true, w2) ->
      sessionClone E sid (clones w2) = Ok s2 ->
      store w2 !! "cljs" = Some (VSession id1) /\
      makeCljsSessionClone E (VSession sid) "Figwheel Main" (cljsReplTypes E) w =
      connect_step (figwheelMain E) s2 (before_connect (figwheelMain E) w2) /\
      store (before_connect (figwheelMain E) w2) !! "cljs" = Some (VSession id1)).
Proof.
  split.
  - intros id code name check ps w v Hv Ht.
    rewrite evalConnectCode_eq. cbv zeta. rewrite Hv, Ht.
    eexists. split; [reflexivity|]. split; [apply lookup_insert_eq | reflexivity].
  - intros sid id1 s2 w w2 Hc1 Hstart Hc2.
    pose proof (figwheelMain_start_true E _ _ _ _ _ Hstart) as [Hslot _].
    split; [exact Hslot|]. split; [|exact Hslot].
    apply (makeCljsSessionClone_start_succeeded E sid "Figwheel Main" (cljsReplTypes E)
             (figwheelMain E) (figwheelMain_start E) (VSession id1) s2 w w2);
      try reflexivity; assumption.
Qed.

Lemma evalConnectCode_adopts_session_witness :
  let e := Scenario.figwheel_main_env in
  let w := Scenario.clj_ready e in
  let w2 := snd (figwheelMain_start e (VSession 10) "Figwheel Main"
                   (Some figwheelMain_started)
                   (before_start "Figwheel Main" (figwheelMain e) w)) in
  store w !! "cljs" = None /\
  store w2 !! "cljs" = Some (VSession 10) /\
  makeCljsSessionClone e (VSession 1) "Figwheel Main" (cljsReplTypes e) w =
  connect_step (figwheelMain e) (VSession 11) (before_connect (figwheelMain e) w2).
Proof.
  cbv zeta. split; [reflexivity|].
  pose proof (proj2 (evalConnectCode_adopts_session Scenario.figwheel_main_env)
                1%nat 10%nat (VSession 11)
                (Scenario.clj_ready Scenario.figwheel_main_env)
                (snd (figwheelMain_start Scenario.figwheel_main_env (VSession 10)
                        "Figwheel Main" (Some figwheelMain_started)
                        (before_start "Figwheel Main"
                           (figwheelMain Scenario.figwheel_main_env)
                           (Scenario.clj_ready Scenario.figwheel_main_env)))))
    as H.
  destruct H as (H1 & H2 & _).
  - reflexivity.
  - vm_compute. reflexivity.
  - reflexivity.
  - split; assumption.
Defined.

(** *** What the start routine of Figwheel Main leaves alone *)

Section StartFrame.

Variable E : Env.

Lemma deliver_no_processors_store (cs : list Chunk) (acc : list string * list string)
    (w : World) :
  store (snd (deliver E None cs acc w)) = store w.
Proof.
  revert acc w. induction cs as [|c cs IH]; intros acc w; [reflexivity|].
  destruct c as [x|x]; cbn [deliver]; unfold bind at 1, on_stdout, on_stderr, emit, bind, ret;
    cbn [fst snd]; rewrite IH; reflexivity.
Qed.

Lemma evalConnectCode_no_processors_store (session : Value) (code name : string)
    (check : option checkConnectedFn) (w : World) (k : string) :
  k <> "cljs" ->
  store (snd (evalConnectCode E session code name check None w)) !! k = store w !! k.
Proof.
  intros Hk. destruct session; try reflexivity.
  rewrite evalConnectCode_eq. cbv zeta.
  assert (Hst : store (settled (sessionEval E id code)
                         (delivered E None (eval_chunks (sessionEval E id code)) w)) =
                store w).
  { unfold settled, delivered.
    destruct (eval_value (sessionEval E id code)); cbn [effect console_error emit snd store];
      apply deliver_no_processors_store. }
  destruct check as [f|]; [|cbn [snd]; now rewrite Hst].
  match goal with |- context [f ?a ?b ?c] => destruct (f a b c) as [v|e] end;
    [|cbn [snd]; now rewrite Hst].
  destruct (truthy v); [|cbn [snd]; now rewrite Hst].
  cbn [snd adopt_cljs store]. rewrite lookup_insert_ne by congruence. now rewrite Hst.
Qed.

Lemma getFigwheelMainProjects_store (w : World) :
  store (snd (getFigwheelMainProjects E w)) = store w.
Proof.
  unfold getFigwheelMainProjects, bind, getProjectRoot, cursor_get, lift. cbn [fst snd].
  destruct (readdirSync E _) as [res|e]; [|reflexivity].
  destruct (map _ _); reflexivity.
Qed.

(** The start routine of Figwheel Main writes to the slots [cljsBuild] and
    [cljs] at most: it never touches [connected], [clj] or [cljc]. *)
Lemma figwheelMain_start_frame (session : Value) (name : string)
    (check : option checkConnectedFn) (w : World) (k : string) :
  k <> "cljsBuild" -> k <> "cljs" ->
  store (snd (figwheelMain_start E session name check w)) !! k = store w !! k.
Proof.
  intros Hb Hs. unfold figwheelMain_start, bind at 1.
  pose proof (getFigwheelMainProjects_store w) as Hst.
  destruct (getFigwheelMainProjects E w) as [[projects|e] w1]; cbn [snd] in Hst;
    [|cbn [snd]; now rewrite Hst].
  unfold bind at 1, getProjectRoot, cursor_get.
  destruct (if (length projects <=? 1)%nat then Some projects else _) as [builds|].
  - unfold bind, workspaceState_update, cursor_set. cbn [fst snd].
    rewrite evalConnectCode_no_processors_store by exact Hs.
    cbn [store]. rewrite lookup_insert_ne by congruence. now rewrite Hst.
  - unfold bind, chan_appendLine, emit, throw. cbn [fst snd store]. now rewrite Hst.
Qed.

End StartFrame.

(** ** The orchestrator and a failed ClojureScript bring-up *)

Section Orchestrator.

Variable E : Env.

Lemma connect_prelude_eq (w : World) : connect_prelude w = (Ok tt, snd (connect_prelude w)).
Proof.
  rewrite (surjective_pairing (connect_prelude w)) at 1. now rewrite connect_prelude_ok.
Qed.

(** Once the Clojure session is up, [connected] is set and [clj] and [cljc]
    are bound to it. *)
Lemma bind_emit {B : Type} (ev : Event) (k : unit -> M B) (w : World) :
  bind (emit ev) k w =
  k tt (mkWorld (store w) (workspaceState w) (nClient w) (cljSession w) (cljsSession w)
                (clones w) (trace w ++ [ev])).
Proof. reflexivity. Qed.

Lemma bind_cursor_set {B : Type} (key : string) (v : Value) (k : unit -> M B) (w : World) :
  bind (cursor_set key v) k w =
  k tt (mkWorld (<[key := v]> (store w)) (workspaceState w) (nClient w) (cljSession w)
                (cljsSession w) (clones w) (trace w)).
Proof. reflexivity. Qed.

Lemma bind_set_nClient {B : Type} (c : option Client) (k : unit -> M B) (w : World) :
  bind (set_nClient c) k w =
  k tt (mkWorld (store w) (workspaceState w) c (cljSession w) (cljsSession w)
                (clones w) (trace w)).
Proof. reflexivity. Qed.

Lemma bind_set_cljSession {B : Type} (v : Value) (k : unit -> M B) (w : World) :
  bind (set_cljSession v) k w =
  k tt (mkWorld (store w) (workspaceState w) (nClient w) v (cljsSession w)
                (clones w) (trace w)).
Proof. reflexivity. Qed.

Lemma bind_bind {A B C : Type} (m : M A) (f : A -> M B) (g : B -> M C) (w : World) :
  bind (bind m f) g w = bind m (fun a => bind (f a) g) w.
Proof. unfold bind. destruct (m w) as [[a|e] w']; reflexivity. Qed.

Lemma bind_try_catch {A B : Type} (m : M A) (h : Exn -> M A) (k : A -> M B) (w : World) :
  bind (try_catch m h) k w =
  match m w with
  | (Ok a, w') => k a w'
  | (Throw e, w') => bind (h e) k w'
  end.
Proof. unfold bind, try_catch. destruct (m w) as [[a|e] w']; reflexivity. Qed.

Lemma bind_lift {A B : Type} (r : Res A) (k : A -> M B) (w : World) :
  bind (lift r) k w = match r with Ok a => k a w | Throw e => (Throw e, w) end.
Proof. destruct r; reflexivity. Qed.

(** One statement of a computation at a time, so that the world stays a
    record of plain fields. *)
Ltac run_step :=
  first [ rewrite bind_emit | rewrite bind_cursor_set | rewrite bind_set_nClient
        | rewrite bind_set_cljSession | rewrite bind_lift | rewrite bind_bind ];
  cbn [store workspaceState nClient cljSession cljsSession clones trace].

(** Once the Clojure session is up, [connected] is set and [clj] and [cljc]
    are bound to it. *)
Lemma clj_bring_up_store (hostname : string) (port : JSNumber) (w w1 : World) (v : Value) :
  clj_bring_up E hostname port w = (Ok v, w1) ->
  store w1 !! "connected" = Some (VBool true) /\
  store w1 !! "clj" = Some v /\
  store w1 !! "cljc" = Some v.
Proof.
  unfold clj_bring_up, chan_appendLine, logEvent, status_update, do_openReplWindow,
    do_reconnectReplWindow, console_error.
  repeat run_step.
  destruct (nreplCreate E hostname port) as [sid|e]; [|discriminate].
  repeat run_step.
  destruct (openReplWindow E "clj") as [[]|e]; [|discriminate].
  rewrite bind_try_catch, bind_emit.
  cbn [store workspaceState nClient cljSession cljsSession clones trace]. unfold lift.
  destruct (reconnectReplWindow E "clj") as [[]|e]; repeat run_step;
    unfold ret; intros [= <- <-]; cbn [store]; repeat split; by simplify_map_eq.
Qed.




End Orchestrator.


(** * Further properties of the connector *)

(** ** The address prompt *)

Lemma string_app_nil_r (s : string) : s ++ "" = s.
Proof.
  induction s as [|c s IH]; [reflexivity|].
  change (String c s ++ "") with (String c (s ++ "")). now rewrite IH.
Qed.

Lemma string_app_assoc (a b c : string) : (a ++ b) ++ c = a ++ (b ++ c).
Proof.
  induction a as [|x a IH]; [reflexivity|].
  change ((String x a ++ b) ++ c) with (String x ((a ++ b) ++ c)). now rewrite IH.
Qed.

Lemma split_colon_aux_no_colon (cur s : string) :
  has_colon s = false -> split_colon_aux cur s = [cur ++ s].
Proof.
  revert cur. induction s as [|c s IH]; intros cur Hc; simpl in *.
  - now rewrite string_app_nil_r.
  - apply orb_false_iff in Hc as [Hc Hs]. rewrite Hc, (IH _ Hs).
    now rewrite string_app_assoc.
Qed.





(** A url without a colon has no port: it is always refused. *)
Theorem url_without_colon_refused (E : Env) (port : option string) (cljsTypeName : string)
    (replTypes : list ReplType) (w : World) (url : string) :
  showInputBox E (prefill port) = Some url ->
  has_colon url = false ->
  promptForNreplUrlAndConnect E port cljsTypeName replTypes w = (Ok true, refused url w).
Proof.
  intros Hurl Hc. unfold promptForNreplUrlAndConnect. unfold prefill in Hurl. rewrite Hurl.
  unfold split_colon. rewrite (split_colon_aux_no_colon "" url Hc).
  cbn [lookup list_lookup]. cbn.
  unfold bind, chan_appendLine, cursor_set, status_update, emit, ret, refused.
  simpl. now rewrite <- app_assoc.
Qed.

Lemma url_without_colon_refused_witness :
  promptForNreplUrlAndConnect
    (Scenario.env Scenario.silent_eval (Some "7888") [] [] None None)
    None "" [] Scenario.w0 = (Ok true, refused "7888" Scenario.w0).
Proof.
  apply (url_without_colon_refused
           (Scenario.env Scenario.silent_eval (Some "7888") [] [] None None)
           None "" [] Scenario.w0 "7888"); reflexivity.
Defined.

Lemma promptForNreplUrlAndConnect_ok (E : Env) (port : option string)
    (cljsTypeName : string) (replTypes : list ReplType) (w : World) :
  fst (promptForNreplUrlAndConnect E port cljsTypeName replTypes w) = Ok true.
Proof.
  unfold promptForNreplUrlAndConnect. fold (prefill port).
  destruct (showInputBox E (prefill port)) as [url|]; [|reflexivity].
  fold (url_port url). fold (url_host url). fold (port_in_range (url_port url)).
  destruct (port_in_range (url_port url)); [|reflexivity].
  unfold bind at 1. unfold bind at 1, cursor_set at 1. unfold bind at 1, cursor_set at 1.
  unfold bind at 1.
  match goal with |- context [connectToHost E ?h ?p ?t ?r ?x] =>
    destruct (connectToHost_returns E h p t r x) as [b Hb];
    destruct (connectToHost E h p t r x) as [res w'] end.
  simpl in Hb. subst res. reflexivity.
Qed.

(** [promptForNreplUrlAndConnect] returns true whatever happens: a dismissed
    prompt, a refused url and a failed connection are not told apart by its
    result. A dismissed prompt only resets the [connecting] flag. *)
Theorem promptForNreplUrlAndConnect_always_true (E : Env) (port : option string)
    (cljsTypeName : string) (replTypes : list ReplType) (w : World) :
  fst (promptForNreplUrlAndConnect E port cljsTypeName replTypes w) = Ok true /\
  (showInputBox E (prefill port) = None ->
   promptForNreplUrlAndConnect E port cljsTypeName replTypes w = (Ok true, dismissed w)).
Proof.
  split; [apply promptForNreplUrlAndConnect_ok|].
  intros Hnone. unfold promptForNreplUrlAndConnect. fold (prefill port). rewrite Hnone.
  reflexivity.
Qed.

Lemma promptForNreplUrlAndConnect_always_true_witness :
  promptForNreplUrlAndConnect (Scenario.env Scenario.silent_eval None [] [] None None)
    (Some "7888") "" [] Scenario.w0 = (Ok true, dismissed Scenario.w0).
Proof.
  apply (promptForNreplUrlAndConnect_always_true
           (Scenario.env Scenario.silent_eval None [] [] None None)
           (Some "7888") "" [] Scenario.w0).
  reflexivity.
Defined.

(** ** Toggling and disconnecting *)

(** What [toggleCLJCSession] does to the store. *)
Lemma toggleCLJCSession_store (w : World) :
  store (snd (toggleCLJCSession w)) =
  if truthy (slot w "connected") then
    if loose_eq (slot w "cljc") (slot w "cljs") then <["cljc" := slot w "clj"]> (store w)
    else if loose_eq (slot w "cljc") (slot w "clj") then <["cljc" := slot w "cljs"]> (store w)
         else store w
  else store w.
Proof.
  unfold toggleCLJCSession, getSession, bind, cursor_get, cursor_set, status_update, emit, ret, slot.
  cbn [fst snd].
  destruct (truthy (default VUndef (store w !! "connected"))); [|reflexivity].
  destruct (loose_eq (default VUndef (store w !! "cljc")) (default VUndef (store w !! "cljs")));
    [reflexivity|].
  destruct (loose_eq (default VUndef (store w !! "cljc")) (default VUndef (store w !! "clj")));
    reflexivity.
Qed.

Lemma toggleCLJCSession_slot_cljc (w : World) :
  slot (snd (toggleCLJCSession w)) "cljc" =
  if truthy (slot w "connected") then
    if loose_eq (slot w "cljc") (slot w "cljs") then slot w "clj"
    else if loose_eq (slot w "cljc") (slot w "clj") then slot w "cljs"
         else slot w "cljc"
  else slot w "cljc".
Proof.
  unfold slot at 1. rewrite toggleCLJCSession_store.
  destruct (truthy (slot w "connected")); [|reflexivity].
  destruct (loose_eq (slot w "cljc") (slot w "cljs"));
    [now rewrite lookup_insert_eq|].
  destruct (loose_eq (slot w "cljc") (slot w "clj")); [now rewrite lookup_insert_eq|].
  reflexivity.
Qed.

Lemma toggleCLJCSession_slot_other (w : World) (k : string) :
  k <> "cljc" -> slot (snd (toggleCLJCSession w)) k = slot w k.
Proof.
  intros Hk. unfold slot at 1. rewrite toggleCLJCSession_store.
  destruct (truthy (slot w "connected")); [|reflexivity].
  destruct (loose_eq (slot w "cljc") (slot w "cljs"));
    [now rewrite lookup_insert_ne by congruence|].
  destruct (loose_eq (slot w "cljc") (slot w "clj"));
    [now rewrite lookup_insert_ne by congruence | reflexivity].
Qed.

(** With a connection up, [clj] and [cljs] holding different values (two
    sessions, or a session and nothing) and [cljc] aliasing one of them,
    toggling moves [cljc] to the other one and toggling twice brings it
    back. *)
Theorem toggleCLJCSession_twice (w : World) :
  truthy (slot w "connected") = true ->
  is_session_slot (slot w "clj") = true ->
  is_session_slot (slot w "cljs") = true ->
  loose_eq (slot w "clj") (slot w "cljs") = false ->
  cljc_aliases w = true ->
  let w1 := snd (toggleCLJCSession w) in
  let w2 := snd (toggleCLJCSession w1) in
  loose_eq (slot w1 "cljc") (slot w "cljc") = false /\
  cljc_aliases w1 = true /\
  loose_eq (slot w2 "cljc") (slot w "cljc") = true.
Proof.
  intros Hconn Hclj Hcljs Hne Hal. cbv zeta. unfold cljc_aliases in *.
  rewrite (toggleCLJCSession_slot_cljc (snd (toggleCLJCSession w))).
  rewrite (toggleCLJCSession_slot_other w "connected"),
    !(toggleCLJCSession_slot_other w "clj"), !(toggleCLJCSession_slot_other w "cljs")
    by discriminate.
  rewrite toggleCLJCSession_slot_cljc, Hconn.
  assert (Hne' : loose_eq (slot w "cljs") (slot w "clj") = false)
    by now rewrite loose_eq_sym.
  pose proof (loose_eq_refl_slot _ Hclj) as Hrj.
  pose proof (loose_eq_refl_slot _ Hcljs) as Hrs.
  destruct (loose_eq (slot w "cljc") (slot w "cljs")) eqn:Hs.
  - rewrite Hne, Hrj. cbn [orb]. repeat split.
    + destruct (loose_eq (slot w "clj") (slot w "cljc")) eqn:Hx; [|reflexivity].
      rewrite (loose_eq_trans _ _ _ Hx Hs) in Hne. discriminate.
    + now rewrite loose_eq_sym.
  - rewrite orb_false_r in Hal. rewrite Hal, Hrs, Hne', orb_true_r. repeat split.
    + now rewrite loose_eq_sym.
    + now rewrite loose_eq_sym.
Qed.

Lemma toggleCLJCSession_twice_witness :
  let w := Scenario.cljs_world in
  slot (snd (toggleCLJCSession w)) "cljc" = VSession 11 /\
  loose_eq (slot (snd (toggleCLJCSession (snd (toggleCLJCSession w)))) "cljc")
           (slot w "cljc") = true.
Proof.
  cbv zeta. split; [reflexivity|].
  apply (toggleCLJCSession_twice Scenario.cljs_world); reflexivity.
Defined.

(** [disconnect] clears the state before it touches the client: without a
    client ([nClient] still undefined) it throws a TypeError in the cleared
    state and the callback is never called. *)
Theorem disconnect_without_client (callback : M unit) (w : World) :
  nClient w = None ->
  disconnect callback w =
  (Throw (TypeError "Cannot read property 'close' of undefined"), cleared w).
Proof.
  intros Hc. unfold disconnect, bind, cursor_set, status_update, emit, get_nClient, throw, ret.
  unfold cleared. simpl. rewrite Hc. reflexivity.
Qed.

Lemma disconnect_without_client_witness :
  disconnect (emit DisconnectCallback) Scenario.w0 =
  (Throw (TypeError "Cannot read property 'close' of undefined"), cleared Scenario.w0).
Proof. apply (disconnect_without_client (emit DisconnectCallback) Scenario.w0). reflexivity. Defined.

(** With a client, [disconnect] closes it and then calls the callback, in
    the cleared state; a second [disconnect] closes the same client again and
    leaves the shared state as the first one did. *)
Theorem disconnect_twice (w : World) (c : Client) :
  nClient w = Some c ->
  let r1 := disconnect (emit DisconnectCallback) w in
  let r2 := disconnect (emit DisconnectCallback) (snd r1) in
  fst r1 = Ok tt /\
  trace (snd r1) = (trace w ++ [StatusUpdate; ClientClose c; DisconnectCallback])%list /\
  fst r2 = Ok tt /\
  store (snd r2) = store (snd r1).
Proof.
  intros Hc. cbv zeta.
  unfold disconnect, bind, cursor_set, status_update, emit, get_nClient, throw, ret.
  simpl. rewrite Hc. simpl.
  repeat split.
  - now rewrite <- !app_assoc.
  - apply map_eq. intros k. rewrite !lookup_insert.
    repeat case_decide; reflexivity.
Qed.

Lemma disconnect_twice_witness :
  store (snd (disconnect (emit DisconnectCallback)
                (snd (disconnect (emit DisconnectCallback) Scenario.cljs_world)))) =
  store (snd (disconnect (emit DisconnectCallback) Scenario.cljs_world)).
Proof.
  apply (disconnect_twice Scenario.cljs_world (mkClient 1 false)). reflexivity.
Defined.

(** ** Project root resolution, further *)

(** Without an open document, or with a document outside every workspace
    folder, [initProjectDir] shows the error message, logs the event and
    throws; it stores nothing. *)
Theorem initProjectDir_without_document (E : Env) (w : World) :
  match activeDocument E with
  | Some doc => workspaceFolderOf E doc = None
  | None => True
  end ->
  initProjectDir E w =
  (Throw (Thrown "There is no document opened in the workspace. Aborting."),
   mkWorld (store w) (workspaceState w) (nClient w) (cljSession w) (cljsSession w) (clones w)
     ((trace w ++ [ShowErrorMessage no_document_message]) ++
      [Analytics "REPL" "JackinOrConnectInterrupted" (VStr "NoCurrentDocument")])).
Proof.
  intros H. unfold initProjectDir.
  destruct (activeDocument E) as [doc|]; [rewrite H|]; reflexivity.
Qed.

Lemma initProjectDir_without_document_witness :
  fst (initProjectDir (Scenario.env Scenario.silent_eval None [] [] None None) Scenario.w0) =
  Throw (Thrown "There is no document opened in the workspace. Aborting.").
Proof.
  now rewrite (initProjectDir_without_document
                 (Scenario.env Scenario.silent_eval None [] [] None None) Scenario.w0 I).
Defined.

Lemma first_project_dir_first (E : Env) (ws : Path) (below : list string) :
  exists k, (k <= length below)%nat /\
    first_project_dir E ws below = (ws ++ rev (drop k below))%list /\
    (forall j, (j < k)%nat -> has_project_file E (ws ++ rev (drop j below))%list = false) /\
    ((k < length below)%nat -> has_project_file E (ws ++ rev (drop k below))%list = true).
Proof.
  induction below as [|seg up IH].
  - exists 0%nat. split; [cbn; lia|]. split; [cbn; now rewrite app_nil_r|].
    split; [intros j Hj; lia | cbn; intros Hk; lia].
  - cbn [first_project_dir].
    destruct (has_project_file E (ws ++ rev (seg :: up))%list) eqn:Hm.
    + exists 0%nat. rewrite drop_0. split; [cbn; lia|]. split; [reflexivity|].
      split; [intros j Hj; lia | auto].
    + destruct IH as (k & Hk & Hr & Hbelow & Hat).
      exists (S k). cbn [drop length]. split; [lia|]. split; [exact Hr|]. split.
      * intros [|j] Hj; [rewrite drop_0; exact Hm | cbn [drop]; apply Hbelow; lia].
      * intros Hlt. apply Hat. lia.
Qed.

(** The project root [initProjectDir] stores lies between the document's
    directory and the workspace folder root: it is the directory [k] levels
    above the document's, no directory below it on the way holds a project
    file, and it holds one itself unless it is the workspace folder root. *)
Theorem initProjectDir_root_within_bounds (E : Env) (w : World) (doc ws below : Path) :
  activeDocument E = Some doc ->
  workspaceFolderOf E doc = Some ws ->
  path_parent doc = (ws ++ rev below)%list ->
  exists k, (k <= length below)%nat /\
    initProjectDir E w = (Ok tt, project_stored ws (ws ++ rev (drop k below))%list w) /\
    (forall j, (j < k)%nat -> has_project_file E (ws ++ rev (drop j below))%list = false) /\
    ((k < length below)%nat -> has_project_file E (ws ++ rev (drop k below))%list = true).
Proof.
  intros Hdoc Hws Hdir.
  destruct (first_project_dir_first E ws below) as (k & Hk & Hr & Hbelow & Hat).
  exists k. split; [exact Hk|]. split; [|split; assumption].
  unfold initProjectDir. rewrite Hdoc, Hws, Hdir.
  rewrite (walk_up_finds E ws below _ None); [now rewrite Hr | discriminate |].
  rewrite length_app, length_rev. lia.
Qed.

Lemma initProjectDir_root_within_bounds_witness :
  let e := Scenario.env Scenario.silent_eval None [] [["repo"; "deps.edn"]]
             (Some ["repo"; "sub"; "src"; "core.clj"]) (Some ["repo"]) in
  exists k, (k <= 2)%nat /\
    initProjectDir e Scenario.w0 =
    (Ok tt, project_stored ["repo"] (["repo"] ++ rev (drop k ["src"; "sub"]))%list
              Scenario.w0).
Proof.
  destruct (initProjectDir_root_within_bounds
              (Scenario.env Scenario.silent_eval None [] [["repo"; "deps.edn"]]
                 (Some ["repo"; "sub"; "src"; "core.clj"]) (Some ["repo"]))
              Scenario.w0 ["repo"; "sub"; "src"; "core.clj"] ["repo"] ["src"; "sub"]
              eq_refl eq_refl eq_refl) as (k & Hk & Hrun & _).
  exists k. split; [exact Hk | exact Hrun].
Defined.

Lemma scan_project_files_cases (E : Env) (d rootPath : Path) :
  scan_project_files E d projectFileNames rootPath = rootPath \/
  (scan_project_files E d projectFileNames rootPath = d /\ has_project_file E d = true).
Proof.
  rewrite scan_project_files_eq. fold (has_project_file E d).
  destruct (has_project_file E d); auto.
Qed.

Lemma walk_up_returns (E : Env) (fuel : nat) (rootPath d : Path) (prev : option Path) :
  (length d + 1 < fuel)%nat \/ (prev = Some d /\ (0 < fuel)%nat) ->
  exists r, walk_up E fuel rootPath d prev = Some r /\
            (r = rootPath \/ has_project_file E r = true).
Proof.
  revert rootPath d prev. induction fuel as [|fuel IH]; intros rootPath d prev Hfuel.
  - destruct Hfuel as [H|[_ H]]; lia.
  - cbn [walk_up]. destruct (bool_decide (Some d = prev)) eqn:Hprev.
    + exists rootPath. auto.
    + assert (Hlen : (length d + 1 < S fuel)%nat).
      { destruct Hfuel as [H|[H _]]; [exact H|].
        apply bool_decide_eq_false in Hprev. congruence. }
      destruct (scan_project_files_cases E d rootPath) as [Hs|[Hs Hm]]; rewrite Hs.
      * destruct (bool_decide (d = rootPath)); [exists rootPath; auto|].
        apply IH. destruct d as [|seg d'] eqn:Hd.
        -- right. split; [reflexivity | simpl in Hlen; lia].
        -- left. unfold path_parent.
           assert (length (removelast (seg :: d')) = length d')%nat.
           { rewrite <- Hd.
             destruct (exists_last (l := d)) as (l' & a & Hl); [congruence|].
             rewrite Hl, removelast_last. rewrite Hd in Hl.
             apply (f_equal length) in Hl. rewrite length_app in Hl. simpl in Hl. lia. }
           simpl in Hlen. lia.
      * rewrite bool_decide_eq_true_2 by reflexivity. exists d. auto.
Qed.

(** The walk of [initProjectDir] ends for every document and workspace
    folder, also when the document does not lie under the folder: it then
    runs up to the file system root. What is stored is the workspace folder
    root or a directory that holds a project file. *)
Theorem initProjectDir_returns (E : Env) (w : World) (doc ws : Path) :
  activeDocument E = Some doc ->
  workspaceFolderOf E doc = Some ws ->
  exists r, initProjectDir E w = (Ok tt, project_stored ws r w) /\
            (r = ws \/ has_project_file E r = true).
Proof.
  intros Hdoc Hws. unfold initProjectDir. rewrite Hdoc, Hws.
  destruct (walk_up_returns E (S (S (length (path_parent doc)))) ws (path_parent doc) None)
    as (r & Hr & Hcase); [left; lia|].
  exists r. rewrite Hr. split; [reflexivity | exact Hcase].
Qed.

Lemma initProjectDir_returns_witness :
  exists r,
    initProjectDir (Scenario.env Scenario.silent_eval None [] [["home"; "deps.edn"]]
                      (Some ["home"; "me"; "scratch.clj"]) (Some ["repo"])) Scenario.w0 =
    (Ok tt, project_stored ["repo"] r Scenario.w0) /\
    (r = ["repo"] \/
     has_project_file (Scenario.env Scenario.silent_eval None [] [["home"; "deps.edn"]]
                         (Some ["home"; "me"; "scratch.clj"]) (Some ["repo"])) r = true).
Proof.
  apply (initProjectDir_returns
           (Scenario.env Scenario.silent_eval None [] [["home"; "deps.edn"]]
              (Some ["home"; "me"; "scratch.clj"]) (Some ["repo"]))
           Scenario.w0 ["home"; "me"; "scratch.clj"] ["repo"]); reflexivity.
Defined.

(** ** The registry, further *)

Lemma string_length_app (a b : string) :
  String.length (a ++ b) = (String.length a + String.length b)%nat.
Proof.
  induction a as [|c a IH]; [reflexivity|].
  change (String c a ++ b) with (String c (a ++ b)). simpl. now rewrite IH.
Qed.

Lemma strip_suffix_eq (suf s : string) :
  strip_suffix suf s =
  if String.eqb s suf then ""
  else match s with
       | EmptyString => s
       | String c s' => String c (strip_suffix suf s')
       end.
Proof. destruct s; reflexivity. Qed.

(** [strip_suffix] removes the suffix from every text that ends with it. *)
Lemma strip_suffix_app (suf base : string) : strip_suffix suf (base ++ suf) = base.
Proof.
  induction base as [|c base IH].
  - change ("" ++ suf) with suf. rewrite strip_suffix_eq. now rewrite String.eqb_refl.
  - change (String c base ++ suf) with (String c (base ++ suf)).
    rewrite strip_suffix_eq.
    destruct (String.eqb_spec (String c (base ++ suf)) suf) as [Heq|_].
    + apply (f_equal String.length) in Heq. simpl in Heq.
      rewrite string_length_app in Heq. lia.
    + now rewrite IH.
Qed.

(** [getFigwheelMainProjects] reads the project root: when no entry has
    [.cljs.edn] in its name it reports that and throws "Aborted"; otherwise it
    returns one project per such entry, never an empty list, and every file
    [NAME.cljs.edn] of the directory is offered as the project [NAME]. *)
Theorem getFigwheelMainProjects_offers_build_files (E : Env) (w : World) (res : list string) :
  readdirSync E (slot w PROJECT_DIR_KEY) = Ok res ->
  let matching := List.filter (fun x => 0 <=? search x ".cljs.edn") res in
  (matching = [] ->
   getFigwheelMainProjects E w = (Throw (Thrown "Aborted"), no_projects_reported w)) /\
  (matching <> [] ->
   exists projects,
     getFigwheelMainProjects E w = (Ok projects, w) /\
     projects <> [] /\
     length projects = length matching /\
     forall base, In (base ++ ".cljs.edn") res -> In base projects).
Proof.
  intros Hres. cbv zeta. unfold slot in Hres.
  unfold getFigwheelMainProjects, bind, getProjectRoot, cursor_get, lift.
  rewrite Hres.
  split.
  - intros Hnone. rewrite Hnone. cbn [map]. reflexivity.
  - intros Hsome.
    destruct (List.filter (fun x => 0 <=? search x ".cljs.edn") res) as [|x xs] eqn:Hf;
      [congruence|].
    cbn [map]. eexists. split; [reflexivity|]. split; [discriminate|].
    split; [cbn [length]; now rewrite length_map|].
    intros base Hin.
    change (In base (map (strip_suffix ".cljs.edn") (x :: xs))). rewrite <- Hf.
    rewrite <- (strip_suffix_app ".cljs.edn" base) at 1.
    apply in_map. apply filter_In. split; [exact Hin|].
    apply Z.leb_le, search_contains. exists base, "". now rewrite string_app_nil_r.
Qed.

Lemma getFigwheelMainProjects_offers_build_files_witness :
  let e := Scenario.env Scenario.silent_eval None ["dev.cljs.edn"; "README.md"; "test.cljs.edn"]
             [] None None in
  fst (getFigwheelMainProjects e Scenario.w0) = Ok ["dev"; "test"] /\
  fst (getFigwheelMainProjects Scenario.no_builds_env Scenario.w0) = Throw (Thrown "Aborted").
Proof.
  cbv zeta. split.
  - destruct (proj2 (getFigwheelMainProjects_offers_build_files
                       (Scenario.env Scenario.silent_eval None
                          ["dev.cljs.edn"; "README.md"; "test.cljs.edn"] [] None None)
                       Scenario.w0 ["dev.cljs.edn"; "README.md"; "test.cljs.edn"] eq_refl))
      as (projects & Hrun & _); [discriminate|].
    reflexivity.
  - now rewrite (proj1 (getFigwheelMainProjects_offers_build_files Scenario.no_builds_env
                          Scenario.w0 ["README.md"] eq_refl) eq_refl).
Defined.





(** ** The evaluation connect protocol, further *)

Lemma log_appends_app (a b : list Event) :
  log_appends (a ++ b) = (log_appends a ++ log_appends b)%list.
Proof. apply flat_map_app. Qed.

Lemma deliver_no_processors_world (E : Env) (cs : list Chunk)
    (acc : list string * list string) (w : World) :
  snd (deliver E None cs acc w) =
  mkWorld (store w) (workspaceState w) (nClient w) (cljSession w) (cljsSession w) (clones w)
          (trace w ++ map (fun c => LogAppend (stripAnsi E (chunk_text c))) cs).
Proof.
  revert acc w. induction cs as [|c cs IH]; intros acc w.
  - cbn. rewrite app_nil_r. now destruct w.
  - destruct c as [x|x]; cbn [deliver]; unfold bind at 1, on_stdout, on_stderr, emit, bind, ret;
      cbn [fst snd]; rewrite IH; cbn; now rewrite <- app_assoc.
Qed.

(** Without output processors, [evalConnectCode] writes every chunk,
    stripped, to the connection log in arrival order, stdout and stderr
    interleaved; and when it returns false it has changed nothing of the
    shared state or of the session variables. *)
Theorem evalConnectCode_log_and_frame (E : Env) (id : nat) (code name : string)
    (check : option checkConnectedFn) (w : World) :
  let r := evalConnectCode E (VSession id) code name check None w in
  log_appends (trace (snd r)) =
  (log_appends (trace w) ++
   map (fun c => stripAnsi E (chunk_text c)) (eval_chunks (sessionEval E id code)))%list /\
  (fst r = Ok false ->
   store (snd r) = store w /\ workspaceState (snd r) = workspaceState w /\
   cljsSession (snd r) = cljsSession w).
Proof.
  cbv zeta. rewrite evalConnectCode_eq. cbv zeta.
  set (cs := eval_chunks (sessionEval E id code)).
  assert (Hw : settled (sessionEval E id code) (delivered E None cs w) =
               mkWorld (store w) (workspaceState w) (nClient w) (cljSession w)
                 (cljsSession w) (clones w)
                 ((trace w ++ map (fun c => LogAppend (stripAnsi E (chunk_text c))) cs) ++
                  match eval_value (sessionEval E id code) with
                  | Some _ => []
                  | None => [ConsoleError "Error evaluating connect form: "]
                  end)).
  { unfold settled, delivered. rewrite deliver_no_processors_world.
    destruct (eval_value (sessionEval E id code)); cbn; [now rewrite app_nil_r | reflexivity]. }
  assert (Hlog : log_appends (trace (settled (sessionEval E id code) (delivered E None cs w))) =
                 (log_appends (trace w) ++ map (fun c => stripAnsi E (chunk_text c)) cs)%list).
  { rewrite Hw. cbn [trace]. rewrite !log_appends_app. 
    assert (Hmap : log_appends (map (fun c => LogAppend (stripAnsi E (chunk_text c))) cs) =
                   map (fun c => stripAnsi E (chunk_text c)) cs).
    { clear. induction cs as [|c cs IH]; [reflexivity|]. cbn. now rewrite <- IH. }
    rewrite Hmap. destruct (eval_value (sessionEval E id code)); cbn; now rewrite app_nil_r. }
  destruct check as [f|].
  - match goal with |- context [f ?a ?b ?c] => destruct (f a b c) as [v|e] end.
    + destruct (truthy v).
      * cbn [fst snd adopt_cljs trace]. rewrite log_appends_app, Hlog. cbn.
        rewrite app_nil_r. split; [reflexivity | discriminate].
      * cbn [fst snd]. split; [exact Hlog|]. intros _. rewrite Hw. auto.
    + cbn [fst snd]. split; [exact Hlog | discriminate].
  - cbn [fst snd]. split; [exact Hlog | discriminate].
Qed.

Lemma evalConnectCode_log_and_frame_witness :
  let e := Scenario.figwheel_main_stuck_env in
  let r := evalConnectCode e (VSession 10) "(start)" "Figwheel Main"
             (Some figwheelMain_started) None Scenario.cljs_world in
  fst r = Ok false /\ store (snd r) = store Scenario.cljs_world.
Proof.
  cbv zeta. split; [reflexivity|].
  apply (evalConnectCode_log_and_frame Scenario.figwheel_main_stuck_env 10 "(start)"
           "Figwheel Main" (Some figwheelMain_started) Scenario.cljs_world).
  reflexivity.
Defined.

(** ** Bringing up the ClojureScript session, further *)

Lemma bind_ret {A B : Type} (a : A) (k : A -> M B) (w : World) : bind (ret a) k w = k a w.
Proof. reflexivity. Qed.

Lemma bind_throw {A B : Type} (e : Exn) (k : A -> M B) (w : World) :
  bind (throw e) k w = (Throw e, w).
Proof. reflexivity. Qed.

Lemma bind_workspaceState_update {B : Type} (key : string) (v : Value) (k : unit -> M B)
    (w : World) :
  bind (workspaceState_update key v) k w =
  k tt (mkWorld (store w) (<[key := v]> (workspaceState w)) (nClient w) (cljSession w)
                (cljsSession w) (clones w) (trace w)).
Proof. reflexivity. Qed.

Lemma bind_set_cljsSession {B : Type} (v : Value) (k : unit -> M B) (w : World) :
  bind (set_cljsSession v) k w =
  k tt (mkWorld (store w) (workspaceState w) (nClient w) (cljSession w) v
                (clones w) (trace w)).
Proof. reflexivity. Qed.

Lemma bind_cursor_get {B : Type} (key : string) (k : Value -> M B) (w : World) :
  bind (cursor_get key) k w = k (default VUndef (store w !! key)) w.
Proof. reflexivity. Qed.

Lemma bind_session_clone {B : Type} (E : Env) (sid : nat) (k : Value -> M B) (w : World) :
  bind (session_clone E (VSession sid)) k w =
  match sessionClone E sid (clones w) with
  | Ok s => k s (mkWorld (store w) (workspaceState w) (nClient w) (cljSession w)
                         (cljsSession w) (S (clones w)) (trace w))
  | Throw e => (Throw e, mkWorld (store w) (workspaceState w) (nClient w) (cljSession w)
                                 (cljsSession w) (S (clones w)) (trace w))
  end.
Proof. unfold bind, session_clone. destruct (sessionClone E sid (clones w)); reflexivity. Qed.

(** One statement at a time. *)
Ltac step :=
  first [ rewrite bind_emit | rewrite bind_cursor_set | rewrite bind_set_nClient
        | rewrite bind_set_cljSession | rewrite bind_set_cljsSession
        | rewrite bind_workspaceState_update | rewrite bind_cursor_get
        | rewrite bind_session_clone | rewrite bind_ret | rewrite bind_throw
        | rewrite bind_lift | rewrite bind_bind ];
  cbn [store workspaceState nClient cljSession cljsSession clones trace].

Ltac steps := unfold chan_appendLine, logEvent, status_update, console_error; repeat step.

(** What the connect step returns. *)
Lemma connect_step_result (repl : ReplType) (s s' b : Value) (w w' : World) :
  connect_step repl s w = (Ok (s', b), w') ->
  b = VNull /\ (truthy s' = true -> store w' !! "cljs" = Some s' /\ cljsSession w' = s').
Proof.
  unfold connect_step. steps. fold (connect_announced repl w).
  unfold call_connect. destruct (connect repl) as [f|]; [|rewrite bind_throw; discriminate].
  unfold bind at 1.
  destruct (f s (name repl) (Some (connected repl)) (connect_announced repl w))
    as [[[|]|e] w1]; [| |discriminate].
  - steps. unfold ret. intros [= <- <- <-]. split; [reflexivity|].
    intros _. cbn [store cljsSession]. split; [apply lookup_insert_eq | reflexivity].
  - steps. unfold ret. intros [= <- <- <-]. split; [reflexivity | discriminate].
Qed.

(** Whatever the registry holds, [makeCljsSessionClone] returns a pair whose
    second component, the shadow build, is null; and when the first is a
    session, the slot [cljs] and the module variable [cljsSession] are bound
    to that very session. *)
Theorem makeCljsSessionClone_result (E : Env) (session : Value) (replType : string)
    (replTypes : list ReplType) (w w' : World) (s b : Value) :
  makeCljsSessionClone E session replType replTypes w = (Ok (s, b), w') ->
  b = VNull /\ (truthy s = true -> store w' !! "cljs" = Some s /\ cljsSession w' = s).
Proof.
  unfold makeCljsSessionClone. steps.
  destruct session as [| | | | | |sid|]; try (unfold session_clone; rewrite bind_throw; discriminate).
  step. destruct (sessionClone E sid (clones w)) as [s1|e]; [|discriminate].
  destruct (truthy s1); [|unfold ret; intros [= <- <- <-]; split; [reflexivity | discriminate]].
  steps.
  destruct (List.find _ replTypes) as [repl|]; [|unfold throw; discriminate].
  destruct (start repl) as [startFn|]; [|apply connect_step_result].
  steps. unfold bind at 1.
  match goal with |- context [startFn s1 (name repl) (started repl) ?x] =>
    destruct (startFn s1 (name repl) (started repl) x) as [[[|]|e] w2] end; [| |discriminate].
  - steps. destruct (sessionClone E sid _) as [s2|e];
      [apply connect_step_result | discriminate].
  - steps. unfold ret. intros [= <- <- <-]. split; [reflexivity | discriminate].
Qed.

Lemma makeCljsSessionClone_result_witness :
  let e := Scenario.env (fun _ _ => mkEval [Stdout "Prompt will show"] (Some "nil"))
             None [] [] None None in
  let r := makeCljsSessionClone e (VSession 1) "Figwheel" (cljsReplTypes e) Scenario.w0 in
  fst r = Ok (VSession 10, VNull) /\ store (snd r) !! "cljs" = Some (VSession 10).
Proof.
  cbv zeta. split; [vm_compute; reflexivity|].
  apply (makeCljsSessionClone_result
           (Scenario.env (fun _ _ => mkEval [Stdout "Prompt will show"] (Some "nil"))
              None [] [] None None)
           (VSession 1) "Figwheel"
           (cljsReplTypes (Scenario.env (fun _ _ => mkEval [Stdout "Prompt will show"]
                                           (Some "nil")) None [] [] None None))
           Scenario.w0 _ (VSession 10) VNull).
  - vm_compute. reflexivity.
  - reflexivity.
Defined.

(** A clone that comes back null ends the attempt quietly: nothing is
    looked up in the registry, no strategy runs and the shared state is not
    written. *)
Theorem makeCljsSessionClone_null_clone (E : Env) (sid : nat) (replType : string)
    (replTypes : list ReplType) (w : World) (s1 : Value) :
  sessionClone E sid (clones w) = Ok s1 ->
  truthy s1 = false ->
  makeCljsSessionClone E (VSession sid) replType replTypes w =
  (Ok (VNull, VNull), clone_refused w).
Proof.
  intros Hclone Hfalsy. unfold makeCljsSessionClone. steps.
  rewrite Hclone, Hfalsy. reflexivity.
Qed.

Lemma makeCljsSessionClone_null_clone_witness :
  makeCljsSessionClone Faults.no_clone (VSession 1) "Figwheel" (cljsReplTypes Faults.no_clone)
    Scenario.w0 = (Ok (VNull, VNull), clone_refused Scenario.w0).
Proof.
  apply (makeCljsSessionClone_null_clone Faults.no_clone 1 "Figwheel"
           (cljsReplTypes Faults.no_clone) Scenario.w0 VNull); reflexivity.
Defined.

(** A REPL type name the registry does not hold makes [makeCljsSessionClone]
    throw a TypeError (it reads [start] of [undefined]), the name already
    saved as [cljsReplType] in the workspace state. *)
Theorem makeCljsSessionClone_unknown_type (E : Env) (sid : nat) (replType : string)
    (replTypes : list ReplType) (w : World) (s1 : Value) :
  sessionClone E sid (clones w) = Ok s1 ->
  truthy s1 = true ->
  List.find (fun x => String.eqb (name x) replType) replTypes = None ->
  makeCljsSessionClone E (VSession sid) replType replTypes w =
  (Throw (TypeError "Cannot read property 'start' of undefined"), type_unknown replType w).
Proof.
  intros Hclone Htruthy Hfind. unfold makeCljsSessionClone. steps.
  rewrite Hclone, Htruthy. steps. rewrite Hfind. reflexivity.
Qed.

Lemma makeCljsSessionClone_unknown_type_witness :
  let e := Scenario.figwheel_main_env in
  makeCljsSessionClone e (VSession 1) "Nashorn" (cljsReplTypes e) Scenario.w0 =
  (Throw (TypeError "Cannot read property 'start' of undefined"),
   type_unknown "Nashorn" Scenario.w0).
Proof.
  cbv zeta.
  apply (makeCljsSessionClone_unknown_type Scenario.figwheel_main_env 1 "Nashorn" _
           Scenario.w0 (VSession 10)); reflexivity.
Defined.

Lemma evalConnectCode_no_processors_false (E : Env) (session : Value) (code name : string)
    (check : option checkConnectedFn) (w w' : World) :
  evalConnectCode E session code name check None w = (Ok false, w') ->
  store w' = store w.
Proof.
  destruct session; try (unfold evalConnectCode, throw; discriminate).
  rewrite evalConnectCode_eq. cbv zeta.
  assert (Hst : store (settled (sessionEval E id code)
                         (delivered E None (eval_chunks (sessionEval E id code)) w)) =
                store w).
  { unfold settled, delivered.
    destruct (eval_value (sessionEval E id code)); cbn [effect console_error emit snd store];
      apply deliver_no_processors_store. }
  destruct check as [f|]; [|discriminate].
  match goal with |- context [f ?a ?b ?c] => destruct (f a b c) as [v|e] end; [|discriminate].
  destruct (truthy v); [discriminate|]. intros [= <-]. exact Hst.
Qed.

(** The connect routine of Figwheel Main, when it returns false, has not
    written the slot [cljs]. *)
Lemma figwheelMain_connect_false (E : Env) (session : Value) (name : string)
    (check : option checkConnectedFn) (w w' : World) :
  figwheelMain_connect E session name check w = (Ok false, w') ->
  store w' !! "cljs" = store w !! "cljs".
Proof.
  unfold figwheelMain_connect, bind at 1.
  pose proof (getFigwheelMainProjects_store E w) as Hst.
  destruct (getFigwheelMainProjects E w) as [[projects|e] w1]; cbn [snd] in Hst;
    [|discriminate].
  cbv beta. unfold getProjectRoot. rewrite bind_cursor_get.
  destruct (quickPickSingle E projects _) as [build|].
  - destruct (String.eqb build ""); [steps; discriminate|].
    steps. intros Hrun. apply evalConnectCode_no_processors_false in Hrun.
    rewrite Hrun. cbn [store]. rewrite lookup_insert_ne by discriminate. now rewrite Hst.
  - steps. discriminate.
Qed.

(** When the start step of Figwheel Main succeeded and its connect step then
    fails, [makeCljsSessionClone] returns [[null, null]] and clears
    [cljsBuild], but the slot [cljs] still holds the clone the start step ran
    on. *)
Theorem figwheelMain_failed_connect_keeps_start_clone (E : Env) (sid id1 : nat) (s2 : Value)
    (w w2 w3 : World) :
  sessionClone E sid (clones w) = Ok (VSession id1) ->
  figwheelMain_start E (VSession id1) "Figwheel Main" (Some figwheelMain_started)
    (before_start "Figwheel Main" (figwheelMain E) w) = (Ok true, w2) ->
  sessionClone E sid (clones w2) = Ok s2 ->
  figwheelMain_connect E s2 "Figwheel Main" (Some figwheelMain_connected)
    (connect_announced (figwheelMain E) (before_connect (figwheelMain E) w2)) =
  (Ok false, w3) ->
  exists w',
    makeCljsSessionClone E (VSession sid) "Figwheel Main" (cljsReplTypes E) w =
    (Ok (VNull, VNull), w') /\
    store w' !! "cljs" = Some (VSession id1) /\
    store w' !! "cljsBuild" = Some VNull.
Proof.
  intros Hc1 Hstart Hc2 Hconnect.
  rewrite (makeCljsSessionClone_start_succeeded E sid "Figwheel Main" (cljsReplTypes E)
             (figwheelMain E) (figwheelMain_start E) (VSession id1) s2 w w2
             eq_refl eq_refl Hc1 eq_refl Hstart Hc2).
  unfold connect_step. steps. fold (connect_announced (figwheelMain E)
                                      (before_connect (figwheelMain E) w2)).
  unfold call_connect. cbn [connect figwheelMain name connected]. unfold bind at 1.
  change (name (figwheelMain E)) with "Figwheel Main" in Hconnect.
  rewrite Hconnect. steps. unfold ret. eexists. split; [reflexivity|].
  cbn [store]. rewrite lookup_insert_eq, lookup_insert_ne by discriminate.
  split; [|reflexivity].
  rewrite (figwheelMain_connect_false E _ _ _ _ _ Hconnect).
  cbn [connect_announced before_connect store].
  exact (proj1 (figwheelMain_start_true E _ _ _ _ _ Hstart)).
Qed.

Lemma figwheelMain_failed_connect_keeps_start_clone_witness :
  let e := Scenario.figwheel_main_env in
  let r := makeCljsSessionClone e (VSession 1) "Figwheel Main" (cljsReplTypes e)
             (Scenario.clj_ready e) in
  exists w', r = (Ok (VNull, VNull), w') /\ store w' !! "cljs" = Some (VSession 10).
Proof.
  cbv zeta.
  pose (e := Scenario.figwheel_main_env).
  pose (w := Scenario.clj_ready e).
  pose (w2 := snd (figwheelMain_start e (VSession 10) "Figwheel Main"
                     (Some figwheelMain_started)
                     (before_start "Figwheel Main" (figwheelMain e) w))).
  pose (w3 := snd (figwheelMain_connect e (VSession 11) "Figwheel Main"
                     (Some figwheelMain_connected)
                     (connect_announced (figwheelMain e) (before_connect (figwheelMain e) w2)))).
  destruct (figwheelMain_failed_connect_keeps_start_clone e 1 10 (VSession 11) w w2 w3)
    as (w' & Hrun & Hcljs & _).
  - reflexivity.
  - vm_compute. reflexivity.
  - reflexivity.
  - vm_compute. reflexivity.
  - exists w'. split; assumption.
Defined.

(** ** The orchestrator, further *)

(** What the statements before the [try] block of [connectToHost] do. *)
Lemma connect_prelude_world (w : World) :
  snd (connect_prelude w) =
  mkWorld (<["connecting" := VBool true]> (store w)) (workspaceState w)
          (silenced <$> nClient w) VNull VNull (clones w)
          (((trace w ++ [Analytics "REPL" "Connecting" VUndef]) ++
            match nClient w with
            | Some c => [ClientClose (silenced c)]
            | None => []
            end) ++ [StatusUpdate]).
Proof.
  unfold connect_prelude, bind, logEvent, emit, get_nClient, set_nClient, set_cljSession,
    set_cljsSession, cursor_set, status_update, ret.
  cbn [fst snd]. destruct (nClient w) as [c|]; cbn; [reflexivity|].
  now rewrite app_nil_r.
Qed.

(** A connect attempt closes the client of the previous connection, marked
    silent beforehand; the close handler, run for such a client, writes
    nothing to the output channel: a reconnect is never reported as a lost
    connection. *)
Theorem reconnect_closes_silently (w w' : World) (c : Client) :
  nClient w = Some c ->
  let w1 := snd (connect_prelude w) in
  nClient w1 = Some (silenced c) /\
  In (ClientClose (silenced c)) (trace w1) /\
  (forall c', In (ClientClose c') (trace w1) -> In (ClientClose c') (trace w) \/ c' = silenced c) /\
  trace (snd (onCloseHandler (silenced c) w')) = (trace w' ++ [StatusUpdate])%list.
Proof.
  intros Hc. cbv zeta. rewrite connect_prelude_world, Hc. cbn [nClient trace fmap option_fmap option_map].
  split; [reflexivity|]. split; [|split].
  - apply in_or_app. left. apply in_or_app. right. left. reflexivity.
  - intros c' Hin. apply in_app_or in Hin as [Hin|[Hin|[]]]; [|discriminate].
    apply in_app_or in Hin as [Hin|[Hin|[]]]; [|injection Hin as <-; auto].
    apply in_app_or in Hin as [Hin|[Hin|[]]]; [auto | discriminate].
  - reflexivity.
Qed.

Lemma reconnect_closes_silently_witness :
  nClient (snd (connect_prelude Scenario.connected_world)) = Some (mkClient 1 true).
Proof.
  exact (proj1 (reconnect_closes_silently Scenario.connected_world Scenario.w0
                  (mkClient 1 false) ltac:(vm_compute; reflexivity))).
Defined.

Lemma connectToHost_try_failed (E : Env) (hostname : string) (port : JSNumber)
    (cljsTypeName : string) (replTypes : list ReplType) (w w1 : World) (e : Exn) :
  bind (clj_bring_up E hostname port)
       (fun cljSession => bind (cljs_bring_up E cljSession cljsTypeName replTypes)
                               (fun _ => ret true))
       (snd (connect_prelude w)) = (Throw e, w1) ->
  connectToHost E hostname port cljsTypeName replTypes w = (Ok false, connect_failed w1).
Proof.
  intros Hrun. unfold connectToHost, bind at 1. rewrite connect_prelude_eq.
  unfold try_catch. rewrite Hrun. steps. reflexivity.
Qed.

(** When the nREPL client cannot be created, [connectToHost] returns false
    with both flags reset. The previous client has been closed all the same,
    the session variables are null, and the slots [clj], [cljs] and [cljc]
    still hold what they held before the attempt. *)
Theorem connectToHost_unreachable (E : Env) (hostname : string) (port : JSNumber)
    (cljsTypeName : string) (replTypes : list ReplType) (w : World) (e : Exn) :
  nreplCreate E hostname port = Throw e ->
  exists w',
    connectToHost E hostname port cljsTypeName replTypes w = (Ok false, w') /\
    store w' = <["connecting" := VBool false]>
                 (<["connected" := VBool false]> (<["connecting" := VBool true]> (store w))) /\
    nClient w' = silenced <$> nClient w /\
    cljSession w' = VNull /\ cljsSession w' = VNull /\
    store w' !! "clj" = store w !! "clj" /\
    store w' !! "cljs" = store w !! "cljs" /\
    store w' !! "cljc" = store w !! "cljc".
Proof.
  intros Hcreate. eexists. split.
  - eapply connectToHost_try_failed. unfold clj_bring_up. steps.
    rewrite Hcreate. reflexivity.
  - rewrite connect_prelude_world. cbn [connect_failed store nClient cljSession cljsSession].
    repeat split; by simplify_map_eq.
Qed.

Lemma connectToHost_unreachable_witness :
  exists w',
    connectToHost Faults.unreachable "localhost" (Dec false 7888 0) "" []
      Scenario.cljs_world = (Ok false, w') /\
    store w' !! "cljs" = Some (VSession 11).
Proof.
  destruct (connectToHost_unreachable Faults.unreachable "localhost" (Dec false 7888 0) "" []
              Scenario.cljs_world (Failure "ECONNREFUSED") eq_refl)
    as (w' & Hrun & _ & _ & _ & _ & _ & Hcljs & _).
  exists w'. split; [exact Hrun|]. rewrite Hcljs. vm_compute. reflexivity.
Defined.

(** Without a ClojureScript REPL type ("" for the "none" entry of the
    picker) no clone is asked for and no strategy runs: once the Clojure
    session is up, [connectToHost] only tells that cljc files use the clj REPL
    and returns true. *)
Theorem connectToHost_without_cljs_type (E : Env) (hostname : string) (port : JSNumber)
    (replTypes : list ReplType) (w w1 : World) (v : Value) :
  clj_bring_up E hostname port (snd (connect_prelude w)) = (Ok v, w1) ->
  connectToHost E hostname port "" replTypes w =
  (Ok true,
   mkWorld (store w1) (workspaceState w1) (nClient w1) (cljSession w1) (cljsSession w1)
           (clones w1)
           ((trace w1 ++ [ChanAppendLine "cljc files will use the clj REPL."]) ++
            [StatusUpdate])) /\
  store w1 !! "connected" = Some (VBool true) /\
  store w1 !! "cljc" = store w1 !! "clj".
Proof.
  intros Hclj. split.
  - unfold connectToHost, bind at 1. rewrite connect_prelude_eq.
    unfold try_catch at 1, bind at 1. rewrite Hclj.
    unfold cljs_bring_up. unfold bind at 1, bind at 1, try_catch. cbn [String.eqb negb].
    unfold ret at 1. cbn [truthy]. steps. reflexivity.
  - destruct (clj_bring_up_store E _ _ _ _ _ Hclj) as (Hc & Hj & Hjc).
    split; [exact Hc | congruence].
Qed.

Lemma connectToHost_without_cljs_type_witness :
  let e := Scenario.env Scenario.silent_eval None [] [] None None in
  clones (snd (connectToHost e "localhost" (Dec false 7888 0) "" (cljsReplTypes e)
                 Scenario.w0)) = 0%nat.
Proof.
  cbv zeta.
  rewrite (proj1 (connectToHost_without_cljs_type
                    (Scenario.env Scenario.silent_eval None [] [] None None)
                    "localhost" (Dec false 7888 0)
                    (cljsReplTypes (Scenario.env Scenario.silent_eval None [] [] None None))
                    Scenario.w0
                    (Scenario.clj_ready (Scenario.env Scenario.silent_eval None [] [] None None))
                    (VSession 1) ltac:(vm_compute; reflexivity))).
  reflexivity.
Defined.

(** The inner [try] of [connectToHost] covers [makeCljsSessionClone] only.
    When the ClojureScript session was made but its REPL window cannot be
    opened, the error reaches the outer [catch]: [connectToHost] returns false
    and resets [connected], although the Clojure session is up and [clj],
    [cljc] and [cljs] stay bound. *)
Theorem connectToHost_cljs_window_failure (E : Env) (hostname : string) (port : JSNumber)
    (cljsTypeName : string) (replTypes : list ReplType) (w w1 w2 : World) (sid : nat)
    (s b : Value) (e : Exn) :
  cljsTypeName <> "" ->
  clj_bring_up E hostname port (snd (connect_prelude w)) = (Ok (VSession sid), w1) ->
  makeCljsSessionClone E (VSession sid) cljsTypeName replTypes w1 = (Ok (s, b), w2) ->
  truthy s = true ->
  openReplWindow E "cljs" = Throw e ->
  exists w',
    connectToHost E hostname port cljsTypeName replTypes w = (Ok false, w') /\
    store w' =
    <["connecting" := VBool false]>
      (<["connected" := VBool false]> (<["cljs" := s]> (store w2))).
Proof.
  intros Hname Hclj Hmake Htruthy Hopen. eexists. split.
  - eapply connectToHost_try_failed. unfold bind at 1. rewrite Hclj.
    unfold cljs_bring_up. rewrite bind_bind. rewrite bind_try_catch.
    destruct (String.eqb_spec cljsTypeName "") as [|_]; [contradiction|]. cbn [negb].
    rewrite Hmake, Htruthy. unfold setUpCljsRepl, do_openReplWindow. steps.
    rewrite Hopen. reflexivity.
  - reflexivity.
Qed.

Lemma connectToHost_cljs_window_failure_witness :
  exists w',
    connectToHost Faults.no_cljs_window "localhost" (Dec false 7888 0) "Figwheel"
      (cljsReplTypes Faults.no_cljs_window) Scenario.w0 = (Ok false, w') /\
    store w' !! "connected" = Some (VBool false) /\
    store w' !! "clj" = Some (VSession 1) /\
    store w' !! "cljs" = Some (VSession 10).
Proof.
  pose (e := Faults.no_cljs_window).
  pose (w1 := Scenario.clj_ready e).
  pose (w2 := snd (makeCljsSessionClone e (VSession 1) "Figwheel" (cljsReplTypes e) w1)).
  destruct (connectToHost_cljs_window_failure e "localhost" (Dec false 7888 0) "Figwheel"
              (cljsReplTypes e) Scenario.w0 w1 w2 1 (VSession 10) VNull
              (Failure "no window"))
    as (w' & Hrun & Hst).
  - discriminate.
  - vm_compute. reflexivity.
  - vm_compute. reflexivity.
  - reflexivity.
  - reflexivity.
  - exists w'. split; [exact Hrun|]. rewrite Hst. repeat split; vm_compute; reflexivity.
Defined.

(** * The language client commands *)

Lemma string_pair_ind (P : string -> Prop) :
  P "" ->
  (forall d, P (String d "")) ->
  (forall d c s, P s -> P (String c s) -> P (String d (String c s))) ->
  forall s, P s.
Proof.
  intros H0 H1 H2 s.
  assert (H : P s /\ forall d, P (String d s)).
  { induction s as [|c s [IH IH']]; [split; [exact H0 | exact H1]|].
    split; [apply IH'|]. intros d. apply H2; [exact IH | apply IH']. }
  apply H.
Qed.

Lemma upper_of_lower (c : ascii) :
  is_lower c = true ->
  Ascii.eqb (upper c) "-" = false /\ is_lower (upper c) = false /\
  is_digit (upper c) = false /\ ascii_of_nat (nat_of_ascii (upper c) + 32) = c.
Proof.
  destruct c as [b0 b1 b2 b3 b4 b5 b6 b7];
    destruct b0, b1, b2, b3, b4, b5, b6, b7; intros H; try discriminate H;
    repeat split; reflexivity.
Qed.

Lemma upper_injective (c1 c2 : ascii) :
  is_lower c1 = true -> is_lower c2 = true -> upper c1 = upper c2 -> c1 = c2.
Proof.
  intros H1 H2 Heq.
  destruct (upper_of_lower c1 H1) as (_ & _ & _ & <-).
  destruct (upper_of_lower c2 H2) as (_ & _ & _ & <-).
  now rewrite Heq.
Qed.

Lemma camelize_pair (d c : ascii) (s : string) :
  camelize (String d (String c s)) =
  if (Ascii.eqb d "-" && is_lower c)%bool then String (upper c) (camelize s)
  else String d (camelize (String c s)).
Proof. reflexivity. Qed.

Lemma has_kebab_cons (d : ascii) (s : string) :
  has_kebab (String d s) =
  match s with
  | String c _ => ((Ascii.eqb d "-" && is_lower c) || has_kebab s)%bool
  | EmptyString => false
  end.
Proof. reflexivity. Qed.

Lemma camelize_head (c : ascii) (s : string) :
  exists h t, camelize (String c s) = String h t /\ (h = c \/ is_lower h = false).
Proof.
  destruct s as [|c' s]; [exists c, ""; auto|].
  rewrite camelize_pair. destruct (Ascii.eqb c "-" && is_lower c')%bool eqn:Hm.
  - apply andb_true_iff in Hm as [_ Hl].
    exists (upper c'), (camelize s). split; [reflexivity|]. right.
    apply (upper_of_lower c' Hl).
  - exists c, (camelize (String c' s)). auto.
Qed.

Lemma camelize_no_kebab (s : string) : has_kebab (camelize s) = false.
Proof.
  induction s as [| d | d c s IH IH'] using string_pair_ind; [reflexivity.. |].
  rewrite camelize_pair. destruct (Ascii.eqb d "-" && is_lower c)%bool eqn:Hm.
  - apply andb_true_iff in Hm as [_ Hl]. rewrite has_kebab_cons.
    destruct (camelize s) as [|h t] eqn:Hs; [reflexivity|].
    destruct (upper_of_lower c Hl) as (-> & _). exact IH.
  - rewrite has_kebab_cons.
    destruct (camelize_head c s) as (h & t & Hh & Hcase). rewrite Hh in *.
    rewrite IH', orb_false_r.
    destruct (Ascii.eqb d "-"); [|reflexivity]. cbn [andb] in *.
    destruct Hcase as [->|Hl]; [exact Hm | exact Hl].
Qed.

Lemma camelize_fixed (s : string) : has_kebab s = false -> camelize s = s.
Proof.
  induction s as [| d | d c s IH IH'] using string_pair_ind; [reflexivity.. |].
  rewrite has_kebab_cons, camelize_pair. intros H.
  apply orb_false_iff in H as [Hm Hk]. rewrite Hm. now rewrite (IH' Hk).
Qed.

(** The names [registerLspCommand] makes never hold a hyphen followed by a
    letter of [a-z]; a command without such a pair keeps its name, so the
    conversion applied twice is the conversion applied once. *)
Theorem camelize_idempotent (s : string) :
  has_kebab (camelize s) = false /\
  camelize (camelize s) = camelize s /\
  (String.length (camelize s) <= String.length s)%nat.
Proof.
  split; [apply camelize_no_kebab|]. split; [apply camelize_fixed, camelize_no_kebab|].
  induction s as [| d | d c s IH IH'] using string_pair_ind; [simpl; lia.. |].
  rewrite camelize_pair. destruct (Ascii.eqb d "-" && is_lower c)%bool; simpl in *; lia.
Qed.

Lemma camelize_nonempty (c : ascii) (s : string) : camelize (String c s) <> "".
Proof. destruct (camelize_head c s) as (h & t & -> & _). discriminate. Qed.

Lemma kebab_char_not_upper (d c : ascii) :
  (is_lower d || is_digit d)%bool = true -> is_lower c = true -> upper c <> d.
Proof.
  intros Hd Hc <-. destruct (upper_of_lower c Hc) as (_ & Hl & Hg & _).
  rewrite Hl, Hg in Hd. discriminate.
Qed.

(** On names in kebab case the conversion to camel case loses nothing. *)
Lemma camelize_injective_on_kebab_case (s t : string) :
  kebab_case s = true -> kebab_case t = true -> camelize s = camelize t -> s = t.
Proof.
  revert t. induction s as [| d | d c s IH IH'] using string_pair_ind; intros t Hs Ht Heq.
  - destruct t as [|e t]; [reflexivity|]. symmetry in Heq. exfalso. now apply camelize_nonempty in Heq.
  - (* a single character: not a hyphen *)
    cbn in Hs. destruct (Ascii.eqb d "-") eqn:Hd; [discriminate|]. rewrite andb_true_r in Hs.
    destruct t as [|e [|c2 t]]; [discriminate | now injection Heq as -> |].
    rewrite camelize_pair in Heq. cbn [camelize] in Heq.
    destruct (Ascii.eqb e "-" && is_lower c2)%bool eqn:Hm.
    + apply andb_true_iff in Hm as [_ Hl]. injection Heq as Hh _.
      exfalso; apply (kebab_char_not_upper d c2 Hs Hl); congruence.
    + injection Heq as _ Hrest. symmetry in Hrest. exfalso. now apply camelize_nonempty in Hrest.
  - rewrite camelize_pair in Heq.
    assert (Hs' : kebab_case (String c s) = true).
    { cbn [kebab_case] in Hs. now apply andb_true_iff in Hs as [_ Hs]. }
    destruct (Ascii.eqb d "-" && is_lower c)%bool eqn:Hm.
    + apply andb_true_iff in Hm as [Hd Hl].
      assert (Hs'' : kebab_case s = true).
      { cbn [kebab_case] in Hs'. now apply andb_true_iff in Hs' as [_ Hs']. }
      destruct t as [|e [|c2 t]]; [discriminate | |].
      * cbn in Ht. cbn [camelize] in Heq. injection Heq as Hh _.
        destruct (Ascii.eqb e "-"); [discriminate|]. rewrite andb_true_r in Ht.
        exfalso; apply (kebab_char_not_upper e c Ht Hl); congruence.
      * rewrite camelize_pair in Heq.
        assert (Ht' : kebab_case (String c2 t) = true).
        { cbn [kebab_case] in Ht. now apply andb_true_iff in Ht as [_ Ht]. }
        destruct (Ascii.eqb e "-" && is_lower c2)%bool eqn:Hm2.
        -- apply andb_true_iff in Hm2 as [He Hl2]. injection Heq as Hh Hrest.
           apply Ascii.eqb_eq in Hd, He. subst d e.
           rewrite (upper_injective c c2 Hl Hl2 Hh). f_equal. f_equal.
           apply IH; [exact Hs'' | | exact Hrest].
           cbn [kebab_case] in Ht'. now apply andb_true_iff in Ht' as [_ Ht'].
        -- injection Heq as Hh _. cbn [kebab_case] in Ht.
           apply andb_true_iff in Ht as [Ht _].
           destruct (Ascii.eqb e "-") eqn:He.
           ++ cbn [andb] in Hm2. congruence.
           ++ exfalso; apply (kebab_char_not_upper e c Ht Hl); congruence.
    + assert (Hd : Ascii.eqb d "-" = false /\ (is_lower d || is_digit d)%bool = true).
      { cbn [kebab_case] in Hs. apply andb_true_iff in Hs as [Hs _].
        destruct (Ascii.eqb d "-"); [cbn [andb] in Hm; congruence | auto]. }
      destruct Hd as [Hd Hkd].
      destruct t as [|e [|c2 t]]; [discriminate | |].
      * cbn [camelize] in Heq. injection Heq as _ Hrest.
        exfalso. now apply camelize_nonempty in Hrest.
      * rewrite camelize_pair in Heq.
        destruct (Ascii.eqb e "-" && is_lower c2)%bool eqn:Hm2.
        -- apply andb_true_iff in Hm2 as [_ Hl2]. injection Heq as Hh _.
           exfalso; apply (kebab_char_not_upper d c2 Hkd Hl2); congruence.
        -- injection Heq as -> Hrest. f_equal. apply IH'; [exact Hs' | | exact Hrest].
           cbn [kebab_case] in Ht. now apply andb_true_iff in Ht as [_ Ht].
Qed.

Lemma string_app_inv_head (p a b : string) : p ++ a = p ++ b -> a = b.
Proof.
  induction p as [|c p IH]; [trivial|].
  change (String c p ++ a) with (String c (p ++ a)).
  change (String c p ++ b) with (String c (p ++ b)).
  intros [= H]. now apply IH.
Qed.

(** Two commands of the same category whose names are in kebab case and
    differ are registered under different names: the conversion to camel case
    never makes two commands collide. *)
Theorem vscodeCommand_distinct (c1 c2 : ClojureLspCommand) :
  category c1 = category c2 ->
  kebab_case (command c1) = true ->
  kebab_case (command c2) = true ->
  command c1 <> command c2 ->
  vscodeCommand c1 <> vscodeCommand c2.
Proof.
  intros Hcat H1 H2 Hne Heq. apply Hne. unfold vscodeCommand in Heq. rewrite Hcat in Heq.
  apply string_app_inv_head, string_app_inv_head in Heq.
  now apply camelize_injective_on_kebab_case.
Qed.

Lemma vscodeCommand_distinct_witness :
  vscodeCommand (mkCommand "thread-first" None None) = "calva.refactor.threadFirst" /\
  vscodeCommand (mkCommand "thread-first" None None) <>
  vscodeCommand (mkCommand "thread-first-all" None None).
Proof.
  split; [reflexivity|].
  apply (vscodeCommand_distinct (mkCommand "thread-first" None None)
           (mkCommand "thread-first-all" None None)); [reflexivity.. | discriminate].
Defined.

Lemma trim_start_cases (s : string) :
  (blank s = true /\ trim_start s = "") \/
  (blank s = false /\ exists c r, trim_start s = String c r /\ is_space c = false).
Proof.
  induction s as [|c s IH]; [left; split; reflexivity|].
  cbn [blank trim_start]. destruct (is_space c) eqn:Hc.
  - exact IH.
  - right. split; [reflexivity|]. exists c, s. auto.
Qed.

Lemma trim_end_nonempty (c : ascii) (r : string) :
  is_space c = false -> trim_end (String c r) <> "".
Proof.
  intros Hc. cbn [trim_end]. destruct (trim_end r); [rewrite Hc|]; discriminate.
Qed.

Lemma validateInput_blank (input : string) :
  validateInput input = if blank input then Some "Empty input" else None.
Proof.
  unfold validateInput.
  destruct (trim_start_cases input) as [[-> ->]|(-> & c & r & -> & Hc)]; [reflexivity|].
  destruct (String.eqb_spec (trim_end (String c r)) "") as [Heq|_]; [|reflexivity].
  now apply trim_end_nonempty in Heq.
Qed.

Lemma blank_nonempty (input : string) : blank input = false -> input <> "".
Proof. intros H ->. discriminate. Qed.

(** The input box of a command refuses exactly the inputs made of white
    space only, and an input it accepts always leads to a request: the command
    is sent with the document, the position and the input as typed, not
    trimmed. A request is only ever sent for a Clojure document, and a command
    with an input box is never sent without its fourth argument. *)
Theorem lspCommandHandler_sends_accepted_input (c : ClojureLspCommand) (placeHolder : string)
    (input docUri : string) (line column : nat) :
  extraParamFn c = Some placeHolder ->
  validateInput input = None ->
  blank input = false /\
  lspCommandHandler c (Some "clojure") docUri line column (Some input) =
  Some (command c, [ArgText docUri; ArgNumber line; ArgNumber column; ArgText input]) /\
  (forall languageId answer cmd args,
      lspCommandHandler c languageId docUri line column answer = Some (cmd, args) ->
      languageId = Some "clojure" /\ cmd = command c /\ length args = 4%nat).
Proof.
  intros Hfn Hvalid. rewrite validateInput_blank in Hvalid.
  destruct (blank input) eqn:Hb; [discriminate|]. split; [reflexivity|]. split.
  - unfold lspCommandHandler. rewrite Hfn. cbn [String.eqb Ascii.eqb Bool.eqb].
    cbn [field_set]. destruct (String.eqb_spec input "") as [->|_]; [discriminate|].
    reflexivity.
  - intros languageId answer cmd args. unfold lspCommandHandler. rewrite Hfn.
    destruct languageId as [lang|]; [|discriminate].
    destruct (String.eqb_spec lang "clojure") as [->|_]; [|discriminate].
    destruct (field_set answer); [|discriminate].
    intros [= <- <-]. auto.
Qed.

Lemma lspCommandHandler_sends_accepted_input_witness :
  lspCommandHandler (mkCommand "extract-function" (Some "Function name") None)
    (Some "clojure") "file:///repo/src/core.clj" 3 7 (Some " helper") =
  Some ("extract-function",
        [ArgText "file:///repo/src/core.clj"; ArgNumber 3; ArgNumber 7; ArgText " helper"]).
Proof.
  apply (lspCommandHandler_sends_accepted_input
           (mkCommand "extract-function" (Some "Function name") None) "Function name"
           " helper" "file:///repo/src/core.clj" 3 7); reflexivity.
Defined.

(** * The entry point *)

Lemma trim_end_digits (s : string) : all_digits s = true -> trim_end s = s.
Proof.
  induction s as [|c s IH]; [reflexivity|]. cbn [all_digits trim_end]. intros H.
  apply andb_true_iff in H as [Hc Hs]. rewrite (IH Hs).
  destruct s; [|reflexivity].
  assert (Hsp : is_space c = false).
  { destruct c as [b0 b1 b2 b3 b4 b5 b6 b7];
      destruct b0, b1, b2, b3, b4, b5, b6, b7; try discriminate Hc; reflexivity. }
  now rewrite Hsp.
Qed.

Lemma digit_not_mark (c : ascii) :
  is_digit c = true ->
  is_space c = false /\
  (Ascii.eqb c "x" || Ascii.eqb c "X" || Ascii.eqb c "o" || Ascii.eqb c "O" ||
   Ascii.eqb c "b" || Ascii.eqb c "B" || Ascii.eqb c "+" || Ascii.eqb c "-" ||
   Ascii.eqb c ".")%bool = false.
Proof.
  destruct c as [b0 b1 b2 b3 b4 b5 b6 b7];
    destruct b0, b1, b2, b3, b4, b5, b6, b7; intros H; try discriminate H;
    split; reflexivity.
Qed.

(** On a text of decimal digits only, [+text] and [parseFloat(text)] agree:
    both are the number the digits denote. So a port file that holds digits
    only gives autoconnect the port the prompt would read from it. *)
Theorem string_to_number_digits (s : string) :
  s <> "" -> all_digits s = true ->
  string_to_number s = Dec false (decimal_value s) 0 /\
  string_to_number s = parseFloat_string s.
Proof.
  intros Hne Hall.
  assert (Hnum : string_to_number s = Dec false (decimal_value s) 0).
  { pose proof (span_digits_all s 0 0 Hall) as Hspan.
    assert (Hexact : unsigned_exact false s = Dec false (decimal_value s) 0).
    { unfold unsigned_exact, decimal_value.
      destruct (String.eqb_spec s "Infinity") as [->|_]; [discriminate Hall|].
      rewrite Hspan. destruct s; [congruence | reflexivity]. }
    unfold string_to_number.
    destruct s as [|c s]; [congruence|].
    cbn [all_digits] in Hall. apply andb_true_iff in Hall as [Hc Hs].
    destruct (digit_not_mark c Hc) as [Hsp Hmark].
    cbn [trim_start]. rewrite Hsp.
    rewrite trim_end_digits by (cbn [all_digits]; now rewrite Hc, Hs).
    repeat (apply orb_false_iff in Hmark as [Hmark ?]).
    destruct s as [|x s]; [exact Hexact|].
    cbn [all_digits] in Hs. apply andb_true_iff in Hs as [Hx Hs].
    destruct (digit_not_mark x Hx) as [_ Hxm].
    repeat (apply orb_false_iff in Hxm as [Hxm ?]).
    repeat match goal with H : Ascii.eqb _ _ = false |- _ => rewrite H; clear H end.
    rewrite !andb_false_r. cbn [orb]. exact Hexact. }
  split; [exact Hnum|]. now rewrite (parseFloat_digits s Hne Hall).
Qed.

Lemma string_to_number_digits_witness :
  string_to_number "57321" = Dec false 57321 0 /\
  string_to_number "57321" = parseFloat_string "57321".
Proof. apply (string_to_number_digits "57321"); [discriminate | reflexivity]. Defined.

Section ConnectProperties.

Variable E : Env.
Variable F : Files.

Lemma connect_resolved (isAutoConnect : bool) (w : World) (ws root : Path) :
  initProjectDir E w = (Ok tt, project_stored ws root w) ->
  forall picked, 
  quickPickSingle E (CLJS_PROJECT_TYPE_NONE :: map name (getCLJSReplTypes E))
    (path_to_string root ++ "/connect-cljs-type") = picked ->
  Entry.connect E F isAutoConnect w =
  (if negb (field_set picked) then
     bind (logEvent "REPL" "ConnectInterrupted" (VStr "NoCljsProjectPicked"))
          (fun _ => ret VUndef)
   else
     let cljsTypeName := default "" picked in
     bind (logEvent "REPL" "ConnnectInitiated" (VStr cljsTypeName)) (fun _ =>
     let cljsTypeName :=
       if String.eqb cljsTypeName CLJS_PROJECT_TYPE_NONE then "" else cljsTypeName in
     bind (if String.eqb cljsTypeName "shadow-cljs"
           then Entry.nreplPortFile [".shadow-cljs"; "nrepl.port"]
           else Entry.nreplPortFile [".nrepl-port"]) (fun portFile =>
     bind (workspaceState_update "selectedCljsTypeName" (VStr cljsTypeName)) (fun _ =>
     bind (if Entry.fileExists E F portFile then
             bind (lift (readFileSync F portFile)) (fun port =>
             if negb (String.eqb port "") then
               if isAutoConnect then
                 bind (cursor_set "hostname" (VStr "localhost")) (fun _ =>
                 bind (cursor_set "port" (VStr port)) (fun _ =>
                 bind (connectToHost E "localhost" (string_to_number port) cljsTypeName
                         (getCLJSReplTypes E)) (fun _ => ret tt)))
               else
                 bind (promptForNreplUrlAndConnect E (Some port) cljsTypeName
                         (getCLJSReplTypes E)) (fun _ => ret tt)
             else
               bind (chan_appendLine
                       "No nrepl port file found. (Calva does not start the nrepl for you, yet.)")
                    (fun _ =>
               bind (promptForNreplUrlAndConnect E (Some port) cljsTypeName
                       (getCLJSReplTypes E)) (fun _ => ret tt)))
           else
             bind (promptForNreplUrlAndConnect E None cljsTypeName (getCLJSReplTypes E))
                  (fun _ => ret tt))
          (fun _ => ret (VBool true))))))
    (project_stored ws root w).
Proof.
  intros Hinit picked Hpick. unfold Entry.connect.
  rewrite bind_try_catch. unfold bind at 1. rewrite Hinit. unfold ret at 1.
  cbn [negb]. unfold getProjectRoot. rewrite bind_cursor_get.
  cbn [project_stored store]. rewrite lookup_insert_eq. cbn [default from_option id to_text].
  rewrite Hpick. reflexivity.
Qed.

Lemma connect_picked (isAutoConnect : bool) (w : World) (ws root : Path) (picked : string) :
  initProjectDir E w = (Ok tt, project_stored ws root w) ->
  quickPickSingle E (CLJS_PROJECT_TYPE_NONE :: map name (getCLJSReplTypes E))
    (path_to_string root ++ "/connect-cljs-type") = Some picked ->
  picked <> "" ->
  Entry.connect E F isAutoConnect w =
  bind (let portFile := AbsPath (root ++ port_file_of (chosen_type picked))%list in
        if Entry.fileExists E F portFile then
          bind (lift (readFileSync F portFile)) (fun port =>
          if negb (String.eqb port "") then
            if isAutoConnect then
              bind (cursor_set "hostname" (VStr "localhost")) (fun _ =>
              bind (cursor_set "port" (VStr port)) (fun _ =>
              bind (connectToHost E "localhost" (string_to_number port) (chosen_type picked)
                      (getCLJSReplTypes E)) (fun _ => ret tt)))
            else
              bind (promptForNreplUrlAndConnect E (Some port) (chosen_type picked)
                      (getCLJSReplTypes E)) (fun _ => ret tt)
          else
            bind (chan_appendLine
                    "No nrepl port file found. (Calva does not start the nrepl for you, yet.)")
                 (fun _ =>
            bind (promptForNreplUrlAndConnect E (Some port) (chosen_type picked)
                    (getCLJSReplTypes E)) (fun _ => ret tt)))
        else
          bind (promptForNreplUrlAndConnect E None (chosen_type picked) (getCLJSReplTypes E))
               (fun _ => ret tt))
       (fun _ => ret (VBool true))
    (type_picked ws root picked w).
Proof.
  intros Hinit Hpick Hne.
  rewrite (connect_resolved isAutoConnect w ws root Hinit _ Hpick).
  cbn [field_set default from_option id].
  apply String.eqb_neq in Hne. rewrite Hne. cbn [negb].
  unfold logEvent. rewrite bind_emit. fold (chosen_type picked).
  assert (Hfile : forall sub (k : FilePath -> M Value) x,
            store x !! PROJECT_DIR_KEY = Some (VPath root) ->
            bind (Entry.nreplPortFile sub) k x = k (AbsPath (root ++ sub)%list) x).
  { intros sub k x Hx. unfold Entry.nreplPortFile, getProjectRoot.
    rewrite bind_bind, bind_cursor_get, Hx. cbn [default from_option id].
    now rewrite bind_ret. }
  unfold port_file_of.
  assert (Hroot : store (type_picked ws root picked w) !! PROJECT_DIR_KEY = Some (VPath root))
    by apply lookup_insert_eq.
  destruct (String.eqb (chosen_type picked) "shadow-cljs");
    rewrite Hfile by exact Hroot; rewrite bind_workspaceState_update; reflexivity.
Qed.

End ConnectProperties.

(** With a project root resolved and a REPL type picked, autoconnect reads the
    port file of that type under the root ([.shadow-cljs/nrepl.port] for
    shadow-cljs, [.nrepl-port] otherwise); when the file exists and is not
    empty, [connect] stores the host and the file's text and connects to
    [localhost] at the number the text denotes, without prompting and
    without the range check of the prompt; it returns true whether or not
    the connection succeeds. *)
Theorem connect_autoconnects_to_port_file (E : Env) (F : Files) (w : World)
    (ws root : Path) (picked port : string) :
  initProjectDir E w = (Ok tt, project_stored ws root w) ->
  quickPickSingle E (CLJS_PROJECT_TYPE_NONE :: map name (getCLJSReplTypes E))
    (path_to_string root ++ "/connect-cljs-type") = Some picked ->
  picked <> "" ->
  existsSync E (root ++ port_file_of (chosen_type picked))%list = true ->
  readFileSync F (AbsPath (root ++ port_file_of (chosen_type picked))%list) = Ok port ->
  port <> "" ->
  Entry.connect E F true w =
  (Ok (VBool true),
   snd (connectToHost E "localhost" (string_to_number port) (chosen_type picked)
          (getCLJSReplTypes E) (autoconnect_ready ws root picked port w))).
Proof.
  intros Hinit Hpick Hne Hex Hread Hport.
  rewrite (connect_picked E F true w ws root picked Hinit Hpick Hne).
  cbn zeta. cbn [Entry.fileExists]. rewrite Hex, Hread.
  rewrite bind_bind, bind_lift.
  apply String.eqb_neq in Hport. rewrite Hport. cbn [negb].
  repeat step. cbn [type_picked]. repeat step.
  cbn [type_picked store workspaceState nClient cljSession cljsSession clones trace].
  fold (autoconnect_ready ws root picked port w).
  unfold bind at 1.
  destruct (connectToHost_returns E "localhost" (string_to_number port) (chosen_type picked)
              (getCLJSReplTypes E) (autoconnect_ready ws root picked port w)) as [b Hb].
  destruct (connectToHost E "localhost" (string_to_number port) (chosen_type picked)
              (getCLJSReplTypes E) (autoconnect_ready ws root picked port w)) as [res w'].
  simpl in Hb. subst res. reflexivity.
Qed.

Lemma connect_autoconnects_to_port_file_witness :
  Entry.connect PortFiles.env (PortFiles.files "57321") true Scenario.w0 =
  (Ok (VBool true),
   snd (connectToHost PortFiles.env "localhost" (Dec false 57321 0) ""
          (getCLJSReplTypes PortFiles.env)
          (autoconnect_ready ["repo"] ["repo"] CLJS_PROJECT_TYPE_NONE "57321" Scenario.w0))).
Proof.
  exact (connect_autoconnects_to_port_file PortFiles.env (PortFiles.files "57321")
           Scenario.w0 ["repo"] ["repo"] CLJS_PROJECT_TYPE_NONE "57321"
           ltac:(vm_compute; reflexivity) ltac:(reflexivity) ltac:(discriminate)
           ltac:(vm_compute; reflexivity) ltac:(reflexivity) ltac:(discriminate)).
Defined.

(** Without a port file, [connect] prompts for the url, offering no port,
    in autoconnect as well as in a manual connect, and returns true. *)
Theorem connect_without_port_file_prompts (E : Env) (F : Files) (isAutoConnect : bool)
    (w : World) (ws root : Path) (picked : string) :
  initProjectDir E w = (Ok tt, project_stored ws root w) ->
  quickPickSingle E (CLJS_PROJECT_TYPE_NONE :: map name (getCLJSReplTypes E))
    (path_to_string root ++ "/connect-cljs-type") = Some picked ->
  picked <> "" ->
  existsSync E (root ++ port_file_of (chosen_type picked))%list = false ->
  Entry.connect E F isAutoConnect w =
  (Ok (VBool true),
   snd (promptForNreplUrlAndConnect E None (chosen_type picked) (getCLJSReplTypes E)
          (type_picked ws root picked w))).
Proof.
  intros Hinit Hpick Hne Hex.
  rewrite (connect_picked E F isAutoConnect w ws root picked Hinit Hpick Hne).
  cbn zeta. cbn [Entry.fileExists]. rewrite Hex.
  repeat step. unfold bind at 1.
  pose proof (promptForNreplUrlAndConnect_ok E None (chosen_type picked) (getCLJSReplTypes E)
                (type_picked ws root picked w)) as Hb.
  destruct (promptForNreplUrlAndConnect E None (chosen_type picked) (getCLJSReplTypes E)
              (type_picked ws root picked w)) as [res w'].
  simpl in Hb. subst res. reflexivity.
Qed.

Lemma connect_without_port_file_prompts_witness :
  Entry.connect PortFiles.bare (PortFiles.files "") true Scenario.w0 =
  (Ok (VBool true),
   dismissed (type_picked ["repo"] ["repo"] CLJS_PROJECT_TYPE_NONE Scenario.w0)).
Proof.
  exact (connect_without_port_file_prompts PortFiles.bare (PortFiles.files "") true
           Scenario.w0 ["repo"] ["repo"] CLJS_PROJECT_TYPE_NONE
           ltac:(vm_compute; reflexivity) ltac:(reflexivity) ltac:(discriminate)
           ltac:(vm_compute; reflexivity)).
Defined.

(** A manual connect never connects by itself: with a port file that is
    not empty it prompts for the url with the file's text as the offered
    port, and returns true. *)
Theorem connect_manual_prompts_with_port (E : Env) (F : Files) (w : World)
    (ws root : Path) (picked port : string) :
  initProjectDir E w = (Ok tt, project_stored ws root w) ->
  quickPickSingle E (CLJS_PROJECT_TYPE_NONE :: map name (getCLJSReplTypes E))
    (path_to_string root ++ "/connect-cljs-type") = Some picked ->
  picked <> "" ->
  existsSync E (root ++ port_file_of (chosen_type picked))%list = true ->
  readFileSync F (AbsPath (root ++ port_file_of (chosen_type picked))%list) = Ok port ->
  port <> "" ->
  Entry.connect E F false w =
  (Ok (VBool true),
   snd (promptForNreplUrlAndConnect E (Some port) (chosen_type picked) (getCLJSReplTypes E)
          (type_picked ws root picked w))).
Proof.
  intros Hinit Hpick Hne Hex Hread Hport.
  rewrite (connect_picked E F false w ws root picked Hinit Hpick Hne).
  cbn zeta. cbn [Entry.fileExists]. rewrite Hex, Hread.
  rewrite bind_bind, bind_lift.
  apply String.eqb_neq in Hport. rewrite Hport. cbn [negb].
  repeat step. unfold bind at 1.
  pose proof (promptForNreplUrlAndConnect_ok E (Some port) (chosen_type picked)
                (getCLJSReplTypes E) (type_picked ws root picked w)) as Hb.
  destruct (promptForNreplUrlAndConnect E (Some port) (chosen_type picked) (getCLJSReplTypes E)
              (type_picked ws root picked w)) as [res w'].
  simpl in Hb. subst res. reflexivity.
Qed.

Lemma connect_manual_prompts_with_port_witness :
  Entry.connect PortFiles.env (PortFiles.files "57321") false Scenario.w0 =
  (Ok (VBool true),
   dismissed (type_picked ["repo"] ["repo"] CLJS_PROJECT_TYPE_NONE Scenario.w0)).
Proof.
  exact (connect_manual_prompts_with_port PortFiles.env (PortFiles.files "57321")
           Scenario.w0 ["repo"] ["repo"] CLJS_PROJECT_TYPE_NONE "57321"
           ltac:(vm_compute; reflexivity) ltac:(reflexivity) ltac:(discriminate)
           ltac:(vm_compute; reflexivity) ltac:(reflexivity) ltac:(discriminate)).
Defined.

(** [connect] gives up, returning [undefined], before any connection is
    touched: when there is no document to resolve the project from (only the
    error of [initProjectDir] is shown), and when the type picker is
    dismissed (the interruption is logged). *)
Theorem connect_gives_up (E : Env) (F : Files) (isAutoConnect : bool) (w : World) :
  (match activeDocument E with
   | Some doc => workspaceFolderOf E doc = None
   | None => True
   end ->
   Entry.connect E F isAutoConnect w =
   (Ok VUndef,
    mkWorld (store w) (workspaceState w) (nClient w) (cljSession w) (cljsSession w) (clones w)
      ((trace w ++ [ShowErrorMessage no_document_message]) ++
       [Analytics "REPL" "JackinOrConnectInterrupted" (VStr "NoCurrentDocument")]))) /\
  (forall ws root,
     initProjectDir E w = (Ok tt, project_stored ws root w) ->
     field_set (quickPickSingle E (CLJS_PROJECT_TYPE_NONE :: map name (getCLJSReplTypes E))
                  (path_to_string root ++ "/connect-cljs-type")) = false ->
     Entry.connect E F isAutoConnect w =
     (Ok VUndef,
      mkWorld (store (project_stored ws root w)) (workspaceState w) (nClient w)
        (cljSession w) (cljsSession w) (clones w)
        (trace w ++ [Analytics "REPL" "ConnectInterrupted" (VStr "NoCljsProjectPicked")]))).
Proof.
  split.
  - intros Hdoc. unfold Entry.connect. rewrite bind_try_catch. unfold bind at 1.
    unfold initProjectDir.
    destruct (activeDocument E) as [doc|]; [rewrite Hdoc|]; reflexivity.
  - intros ws root Hinit Hpick.
    rewrite (connect_resolved E F isAutoConnect w ws root Hinit _ eq_refl).
    rewrite Hpick. reflexivity.
Qed.

Lemma connect_gives_up_witness :
  fst (Entry.connect (Scenario.env Scenario.silent_eval None [] [] None None)
         (PortFiles.files "57321") true Scenario.w0) = Ok VUndef /\
  Entry.connect (PortFiles.dismissing PortFiles.env) (PortFiles.files "57321") true
    Scenario.w0 =
  (Ok VUndef,
   mkWorld (store (project_stored ["repo"] ["repo"] Scenario.w0)) (workspaceState Scenario.w0)
     None VUndef VUndef 0
     [Analytics "REPL" "ConnectInterrupted" (VStr "NoCljsProjectPicked")]).
Proof.
  split.
  - now rewrite (proj1 (connect_gives_up (Scenario.env Scenario.silent_eval None [] [] None None)
                          (PortFiles.files "57321") true Scenario.w0) I).
  - exact (proj2 (connect_gives_up (PortFiles.dismissing PortFiles.env)
                    (PortFiles.files "57321") true Scenario.w0)
             ["repo"] ["repo"] ltac:(vm_compute; reflexivity) ltac:(reflexivity)).
Defined.

(** * Project root resolution and the marker files *)

Lemma has_project_file_markers (E : Env) (d : Path) :
  has_project_file E d = holds_marker E d.
Proof.
  unfold has_project_file, holds_marker, projectFileNames, path_resolve. cbn [existsb].
  now rewrite orb_false_r, orb_assoc.
Qed.

(** C9. With a document open under the workspace folder root [ws],
    [initProjectDir] walks upward from the document's directory, no further
    than [ws], and stores as project root the first directory that holds one
    of [project.clj], [shadow-cljs.edn], [deps.edn]: the directory [k] levels
    up, where no directory below it holds a marker and it holds one itself
    unless it is [ws]. When no directory below [ws] holds a marker, [ws] is
    stored. (The function returns: the walk ends.) *)
Theorem initProjectDir_stores_first_project_dir (E : Env) (w : World) (doc ws below : Path) :
  activeDocument E = Some doc ->
  workspaceFolderOf E doc = Some ws ->
  path_parent doc = (ws ++ rev below)%list ->
  (exists k, (k <= length below)%nat /\
     initProjectDir E w = (Ok tt, project_stored ws (levels_up ws below k) w) /\
     (forall j, (j < k)%nat -> holds_marker E (levels_up ws below j) = false) /\
     ((k < length below)%nat -> holds_marker E (levels_up ws below k) = true)) /\
  ((forall j, (j < length below)%nat -> holds_marker E (levels_up ws below j) = false) ->
   initProjectDir E w = (Ok tt, project_stored ws ws w)).
Proof.
  intros Hdoc Hws Hdir.
  assert (Hrun : initProjectDir E w =
                 (Ok tt, project_stored ws (first_project_dir E ws below) w)).
  { unfold initProjectDir. rewrite Hdoc, Hws, Hdir.
    rewrite (walk_up_finds E ws below _ None); [reflexivity | discriminate |].
    rewrite length_app, length_rev. lia. }
  destruct (first_project_dir_first E ws below) as (k & Hk & Hr & Hbelow & Hat).
  assert (Hex : exists k, (k <= length below)%nat /\
     initProjectDir E w = (Ok tt, project_stored ws (levels_up ws below k) w) /\
     (forall j, (j < k)%nat -> holds_marker E (levels_up ws below j) = false) /\
     ((k < length below)%nat -> holds_marker E (levels_up ws below k) = true)).
  { exists k. unfold levels_up. split; [exact Hk|]. split; [now rewrite <- Hr|]. split.
    - intros j Hj. rewrite <- has_project_file_markers. now apply Hbelow.
    - intros Hlt. rewrite <- has_project_file_markers. now apply Hat. }
  split; [exact Hex|].
  intros Hnone. destruct Hex as (k' & Hk' & Hrun' & _ & Hat').
  destruct (Nat.eq_dec k' (length below)) as [->|Hne].
  - rewrite Hrun'. unfold levels_up. now rewrite drop_all, app_nil_r.
  - assert (Hlt : (k' < length below)%nat) by lia.
    rewrite (Hnone k' Hlt) in Hat'. discriminate (Hat' Hlt).
Qed.

Lemma initProjectDir_stores_first_project_dir_witness :
  store (snd (initProjectDir Scenario.repo_env Scenario.w0)) !! PROJECT_DIR_KEY =
  Some (VPath ["repo"]) /\
  store (snd (initProjectDir Scenario.bare_env Scenario.w0)) !! PROJECT_DIR_KEY =
  Some (VPath ["repo"]) /\
  store (snd (initProjectDir Projects.nested Scenario.w0)) !! PROJECT_DIR_KEY =
  Some (VPath ["repo"; "a"]) /\
  store (snd (initProjectDir Projects.beside_document Scenario.w0)) !! PROJECT_DIR_KEY =
  Some (VPath ["repo"; "a"; "b"]).
Proof.
  split; [|split; [|split]].
  - destruct (proj1 (initProjectDir_stores_first_project_dir Scenario.repo_env Scenario.w0
                       ["repo"; "sub"; "core.clj"] ["repo"] ["sub"] eq_refl eq_refl eq_refl))
      as (k & Hk & Hrun & Hlow & Hat).
    rewrite Hrun.
    destruct k as [|[|k]]; [discriminate (Hat ltac:(simpl; lia)) | reflexivity | simpl in Hk; lia].
  - rewrite (proj2 (initProjectDir_stores_first_project_dir Scenario.bare_env Scenario.w0
                      ["repo"; "sub"; "core.clj"] ["repo"] ["sub"] eq_refl eq_refl eq_refl)).
    + reflexivity.
    + intros j Hj. destruct j as [|j]; [reflexivity | simpl in Hj; lia].
  - destruct (proj1 (initProjectDir_stores_first_project_dir Projects.nested Scenario.w0
                       ["repo"; "a"; "b"; "core.clj"] ["repo"] ["b"; "a"]
                       eq_refl eq_refl eq_refl))
      as (k & Hk & Hrun & Hlow & Hat).
    rewrite Hrun.
    destruct k as [|[|[|k]]];
      [discriminate (Hat ltac:(simpl; lia)) | reflexivity
      | discriminate (Hlow 1%nat ltac:(lia)) | simpl in Hk; lia].
  - destruct (proj1 (initProjectDir_stores_first_project_dir Projects.beside_document
                       Scenario.w0 ["repo"; "a"; "b"; "core.clj"] ["repo"] ["b"; "a"]
                       eq_refl eq_refl eq_refl))
      as (k & Hk & Hrun & Hlow & Hat).
    rewrite Hrun.
    destruct k as [|k]; [reflexivity | discriminate (Hlow 0%nat ltac:(lia))].
Defined.

(** * The port guard of the address prompt *)

Lemma Qltb_lt (a b : Q) : Qltb a b = true <-> (a < b)%Q.
Proof.
  unfold Qltb. rewrite negb_true_iff. split.
  - intros H. apply Qnot_le_lt. intros Hle. apply Qle_bool_iff in Hle. congruence.
  - intros H. destruct (Qle_bool b a) eqn:Hb; [|reflexivity].
    apply Qle_bool_iff in Hb. exfalso. exact (Qlt_not_le _ _ H Hb).
Qed.

Lemma port_value_nonneg (m : N) (e : Z) : (0 <= port_value m e)%Q.
Proof.
  unfold port_value. apply Qmult_le_0_compat.
  - change 0%Q with (inject_Z 0). rewrite <- Zle_Qle. lia.
  - apply Qpower_0_le. discriminate.
Qed.

(** The guard [parsedPort && parsedPort > 0 && parsedPort < 65536] holds
    exactly of the decimals that round into the open interval from 0 to
    65536. *)
Lemma port_in_range_exact (n : JSNumber) :
  port_in_range n = true <-> rounds_into_port_range n.
Proof.
  assert (Hhalf : (0 < 1 # (2 ^ 1075)%positive)%Q) by reflexivity.
  destruct n as [|neg|neg m e].
  - split; [discriminate | intros []].
  - destruct neg; (split; [discriminate | intros []]).
  - unfold port_in_range, number_truthy, gt_zero, lt_65536, half_min_double, below_65536.
    rewrite !andb_true_iff, !Qltb_lt.
    pose proof (port_value_nonneg m e) as Hpos.
    destruct neg; cbn [rounds_into_port_range].
    + assert (Hq : (Q_of_dec true m e == - port_value m e)%Q).
      { unfold Q_of_dec, port_value. ring. }
      split; [|intros []]. intros [[_ Hgt] _]. rewrite Hq in Hgt.
      apply (Qlt_not_le _ _ Hgt). apply Qle_trans with 0%Q; [|now apply Qlt_le_weak].
      apply (Qopp_le_compat 0 (port_value m e)) in Hpos. exact Hpos.
    + assert (Hq : (Q_of_dec false m e == port_value m e)%Q).
      { unfold Q_of_dec, port_value. ring. }
      rewrite (Qabs_pos (Q_of_dec false m e)) by (now rewrite Hq).
      rewrite Hq. tauto.
Qed.

(** A port read as [n + 1/2], for a whole [n] below 65536, is no whole number
    and rounds into the range of the guard. *)
Lemma half_port_in_range (n : N) :
  (n < 65536)%N ->
  is_whole (Dec false (10 * n + 5) (-1)) = false /\
  rounds_into_port_range (Dec false (10 * n + 5) (-1)).
Proof.
  intros Hn. split.
  - cbn [is_whole Z.leb Z.compare]. change (10 ^ Z.to_N (- (-1)))%N with 10%N.
    apply N.eqb_neq. intros H.
    assert (H5 : ((10 * n + 5) mod 10 = 5)%N).
    { rewrite N.add_comm, N.mul_comm, N.Div0.mod_add. reflexivity. }
    rewrite H5 in H. discriminate.
  - cbn [rounds_into_port_range]. unfold port_value.
    change ((10 ^ (-1))%Q) with (1 # 10)%Q.
    assert (Hbig : (3 <= Z.pos (2 ^ 1075))%Z) by (apply Z.leb_le; vm_compute; reflexivity).
    split; unfold Qlt, Qminus, Qplus, Qopp, Qmult, inject_Z; cbn [Qnum Qden].
    + rewrite !Pos2Z.inj_mul. nia.
    + change (Z.pos (2 ^ 38)) with 274877906944%Z.
      rewrite !Pos2Z.inj_mul. change (Z.pos (2 ^ 38)) with 274877906944%Z. lia.
Qed.

(** C2, which fails in the code. [promptForNreplUrlAndConnect] reads the port
    with [parseFloat] and tests only that the number is above 0 and below
    65536. Whether [connectToHost] is called is decided by the exact value
    read, not by its being whole: every port that rounds into the range
    connects, the client of an existing connection being closed first, and
    every other port is refused with "Bad url", the [connecting] flag reset
    and nothing else touched. Ports such as [0.5] or [8080.5], which are no
    integers, are in the range. *)
Theorem promptForNreplUrlAndConnect_connects_on_fractional_port (E : Env)
    (port : option string) (cljsTypeName : string) (replTypes : list ReplType)
    (w : World) (url : string) :
  showInputBox E (prefill port) = Some url ->
  (rounds_into_port_range (url_port url) ->
   promptForNreplUrlAndConnect E port cljsTypeName replTypes w =
   (Ok true,
    snd (connectToHost E (url_host url) (url_port url) cljsTypeName replTypes
           (accepted url w))) /\
   forall c, nClient w = Some c ->
     nClient (snd (connect_prelude (accepted url w))) = Some (silenced c) /\
     In (ClientClose (silenced c)) (trace (snd (connect_prelude (accepted url w))))) /\
  (~ rounds_into_port_range (url_port url) ->
   promptForNreplUrlAndConnect E port cljsTypeName replTypes w = (Ok true, refused url w)) /\
  (forall n : N, (n < 65536)%N -> url_port url = Dec false (10 * n + 5) (-1) ->
   is_whole (url_port url) = false /\ rounds_into_port_range (url_port url)).
Proof.
  intros Hurl.
  assert (Hrun : promptForNreplUrlAndConnect E port cljsTypeName replTypes w =
                 if port_in_range (url_port url)
                 then (Ok true,
                       snd (connectToHost E (url_host url) (url_port url) cljsTypeName
                              replTypes (accepted url w)))
                 else (Ok true, refused url w)).
  { unfold promptForNreplUrlAndConnect. unfold prefill in Hurl. rewrite Hurl.
    fold (url_port url). fold (url_host url). fold (port_in_range (url_port url)).
    destruct (port_in_range (url_port url)).
    - unfold bind, cursor_set, ret.
      cbn [fst snd store workspaceState nClient cljSession cljsSession clones trace].
      fold (accepted url w).
      destruct (connectToHost_returns E (url_host url) (url_port url) cljsTypeName replTypes
                  (accepted url w)) as [b Hb].
      destruct (connectToHost E (url_host url) (url_port url) cljsTypeName replTypes
                  (accepted url w)) as [r w'].
      simpl in Hb. subst r. reflexivity.
    - unfold bind, chan_appendLine, cursor_set, status_update, emit, ret, refused.
      simpl. now rewrite <- app_assoc. }
  split; [|split].
  - intros Hin. apply port_in_range_exact in Hin. rewrite Hrun, Hin. split; [reflexivity|].
    intros c Hc. rewrite connect_prelude_world. cbn [accepted nClient trace].
    rewrite Hc. cbn [fmap option_fmap option_map]. split; [reflexivity|].
    apply in_or_app. left. apply in_or_app. right. left. reflexivity.
  - intros Hout. rewrite Hrun.
    destruct (port_in_range (url_port url)) eqn:Hp; [|reflexivity].
    apply port_in_range_exact in Hp. contradiction.
  - intros n Hn ->. now apply half_port_in_range.
Qed.

Lemma promptForNreplUrlAndConnect_connects_on_fractional_port_witness :
  let e := Scenario.env Scenario.silent_eval (Some "localhost:0.5") [] [] None None in
  let w := Scenario.connected_world in
  let r := promptForNreplUrlAndConnect e (Some "7888") "" [] w in
  url_port "localhost:0.5" = Dec false 5 (-1) /\
  is_whole (url_port "localhost:0.5") = false /\
  r = (Ok true,
       snd (connectToHost e "localhost" (Dec false 5 (-1)) "" []
              (accepted "localhost:0.5" w))) /\
  nClient w = Some (mkClient 1 false) /\
  In (ClientClose (mkClient 1 true)) (trace (snd r)) /\
  In (ClientCreate "localhost" (Dec false 5 (-1))) (trace (snd r)).
Proof.
  cbv zeta.
  pose (e := Scenario.env Scenario.silent_eval (Some "localhost:0.5") [] [] None None).
  destruct (promptForNreplUrlAndConnect_connects_on_fractional_port e (Some "7888") "" []
              Scenario.connected_world "localhost:0.5" eq_refl)
    as (Hin & _ & Hhalf).
  destruct (Hhalf 0%N ltac:(reflexivity) eq_refl) as [Hwhole Hrange].
  destruct (Hin Hrange) as [Hrun _].
  split; [reflexivity|]. split; [exact Hwhole|]. split; [exact Hrun|].
  split; [reflexivity|]. split; vm_compute; tauto.
Defined.

(** * What the ClojureScript bring-up leaves alone *)

Section Frames.

Context {A B : Type}.
Variable k : string.

Lemma keeps_ret (a : A) : keeps k (ret a).
Proof. intros w. reflexivity. Qed.

Lemma keeps_throw (e : Exn) : keeps k (throw (A := A) e).
Proof. intros w. reflexivity. Qed.

Lemma keeps_lift (r : Res A) : keeps k (lift r).
Proof. intros w. reflexivity. Qed.

Lemma keeps_bind (m : M A) (f : A -> M B) :
  keeps k m -> (forall a, keeps k (f a)) -> keeps k (bind m f).
Proof.
  intros Hm Hf w. unfold bind. specialize (Hm w).
  destruct (m w) as [[a|e] w']; cbn [snd] in *; [|exact Hm].
  now rewrite (Hf a w').
Qed.

Lemma keeps_try_catch (m : M A) (h : Exn -> M A) :
  keeps k m -> (forall e, keeps k (h e)) -> keeps k (try_catch m h).
Proof.
  intros Hm Hh w. unfold try_catch. specialize (Hm w).
  destruct (m w) as [[a|e] w']; cbn [snd] in *; [exact Hm|].
  now rewrite (Hh e w').
Qed.

End Frames.

Lemma keeps_for_each {A : Type} (k : string) (f : A -> M unit) (xs : list A) :
  (forall x, keeps k (f x)) -> keeps k (for_each f xs).
Proof.
  intros Hf. induction xs as [|x xs IH]; cbn [for_each]; [intros w; reflexivity|].
  apply keeps_bind; [apply Hf | intros _; exact IH].
Qed.

Lemma keeps_emit (k : string) (ev : Event) : keeps k (emit ev).
Proof. intros w. reflexivity. Qed.

Lemma keeps_cursor_get (k key : string) : keeps k (cursor_get key).
Proof. intros w. reflexivity. Qed.

Lemma keeps_cursor_set (k key : string) (v : Value) : k <> key -> keeps k (cursor_set key v).
Proof. intros Hk w. cbn [cursor_set snd store]. apply lookup_insert_ne. congruence. Qed.

Lemma keeps_workspaceState_update (k key : string) (v : Value) :
  keeps k (workspaceState_update key v).
Proof. intros w. reflexivity. Qed.

Lemma keeps_workspaceState_get (k key : string) : keeps k (workspaceState_get key).
Proof. intros w. reflexivity. Qed.

Lemma keeps_set_cljsSession (k : string) (v : Value) : keeps k (set_cljsSession v).
Proof. intros w. reflexivity. Qed.

Lemma keeps_session_clone (E : Env) (k : string) (session : Value) :
  keeps k (session_clone E session).
Proof. destruct session; intros w; reflexivity. Qed.

Lemma keeps_processor (k : string) (p : processOutputFn) (x : string) :
  processor_keeps k p -> keeps k (fun w => (Ok tt, p x w)).
Proof. intros Hp w. apply Hp. Qed.

Lemma processor_keeps_effect (k : string) (m : M unit) (w : World) :
  keeps k m -> store (effect m w) !! k = store w !! k.
Proof. intros Hm. apply Hm. Qed.

(** One statement at a time: what is left are the calls of functions the
    goal does not spell out. *)
Ltac keeps_step :=
  first
    [ apply keeps_ret | apply keeps_throw | apply keeps_lift | apply keeps_emit
    | apply keeps_cursor_get | apply keeps_workspaceState_update
    | apply keeps_workspaceState_get | apply keeps_set_cljsSession
    | apply keeps_session_clone
    | apply keeps_cursor_set; first [assumption | congruence]
    | apply keeps_bind; [|intros ?]
    | apply keeps_try_catch; [|intros ?]
    | match goal with
      | |- keeps _ (match ?x with _ => _ end) => destruct x
      end ].

Ltac keeps_auto :=
  unfold chan_appendLine, logEvent, status_update, console_error, getProjectRoot, getSession,
    do_openReplWindow, do_reconnectReplWindow;
  repeat keeps_step.

Section Strategies.

Variable E : Env.
Variable k : string.
Hypothesis not_cljs : k <> "cljs".
Hypothesis not_cljsBuild : k <> "cljsBuild".

Lemma keeps_deliver (ps : option (list processOutputFn)) (cs : list Chunk)
    (acc : list string * list string) :
  (forall l p, ps = Some l -> In p l -> processor_keeps k p) ->
  keeps k (deliver E ps cs acc).
Proof.
  intros Hps. revert acc. induction cs as [|c cs IH]; intros acc; cbn [deliver].
  - apply keeps_ret.
  - destruct c as [x|x].
    + apply keeps_bind; [|intros acc'; apply IH].
      unfold on_stdout. apply keeps_bind; [|intros _; keeps_auto].
      destruct ps as [l|]; [|apply keeps_ret].
      assert (Hl : forall p, In p l -> processor_keeps k p) by (intros p; now apply Hps).
      clear Hps IH. induction l as [|p l IHl]; cbn [for_each]; [apply keeps_ret|].
      apply keeps_bind.
      * apply keeps_processor, Hl. now left.
      * intros _. apply IHl. intros q Hq. apply Hl. now right.
    + apply keeps_bind; [|intros acc'; apply IH].
      unfold on_stderr. keeps_auto.
Qed.

Lemma keeps_evalConnectCode (session : Value) (code name : string)
    (check : option checkConnectedFn) (ps : option (list processOutputFn)) :
  (forall l p, ps = Some l -> In p l -> processor_keeps k p) ->
  keeps k (evalConnectCode E session code name check ps).
Proof.
  intros Hps. unfold evalConnectCode, call_check. destruct session; try apply keeps_throw.
  apply keeps_bind; [now apply keeps_deliver|]. intros [out err]. keeps_auto.
Qed.

Lemma keeps_getFigwheelMainProjects : keeps k (getFigwheelMainProjects E).
Proof. unfold getFigwheelMainProjects. keeps_auto. Qed.

Lemma keeps_shadowBuilds : keeps k (shadowBuilds E).
Proof. unfold shadowBuilds. keeps_auto. Qed.

Lemma no_processors (l : list processOutputFn) (p : processOutputFn) :
  @None (list processOutputFn) = Some l -> In p l -> processor_keeps k p.
Proof. discriminate. Qed.

Lemma keeps_figwheelMain_start (session : Value) (name : string)
    (check : option checkConnectedFn) :
  keeps k (figwheelMain_start E session name check).
Proof.
  unfold figwheelMain_start.
  apply keeps_bind; [apply keeps_getFigwheelMainProjects|]. intros projects. keeps_auto.
  apply keeps_evalConnectCode, no_processors.
Qed.

Lemma keeps_figwheelMain_connect (session : Value) (name : string)
    (check : option checkConnectedFn) :
  keeps k (figwheelMain_connect E session name check).
Proof.
  unfold figwheelMain_connect.
  apply keeps_bind; [apply keeps_getFigwheelMainProjects|]. intros projects. keeps_auto.
  apply keeps_evalConnectCode, no_processors.
Qed.

Lemma figwheel_processor_keeps : processor_keeps k (figwheel_processor E).
Proof.
  intros x w. unfold figwheel_processor.
  destruct (after_first _ x); [|reflexivity].
  apply processor_keeps_effect. keeps_auto.
Qed.

Lemma keeps_figwheel_connect (session : Value) (name : string)
    (check : option checkConnectedFn) :
  keeps k (figwheel_connect E session name check).
Proof.
  unfold figwheel_connect. keeps_auto.
  apply keeps_evalConnectCode. intros l p [= <-] [<-|[]]. apply figwheel_processor_keeps.
Qed.

Lemma keeps_shadow_connect (session : Value) (name : string)
    (check : option checkConnectedFn) :
  keeps k (shadow_connect E session name check).
Proof.
  unfold shadow_connect.
  apply keeps_bind; [apply keeps_shadowBuilds|]. intros values. keeps_auto.
  apply keeps_evalConnectCode, no_processors.
Qed.

Lemma custom_tellUser_keeps (custom : customCLJSREPLType) :
  processor_keeps k (custom_tellUser E custom).
Proof.
  intros x w. unfold custom_tellUser.
  destruct (tellUserToStartRegExp custom) as [re|]; [|reflexivity].
  destruct (field_set (Some re)); [|reflexivity].
  destruct (regexMatch E re x); [|reflexivity].
  apply processor_keeps_effect. keeps_auto.
Qed.

Lemma custom_printLine_keeps (custom : customCLJSREPLType) :
  processor_keeps k (custom_printLine E custom).
Proof.
  intros x w. unfold custom_printLine.
  destruct (printThisLineRegExp custom) as [re|]; [|reflexivity].
  destruct (field_set (Some re)); [|reflexivity].
  destruct (regexMatch E _ x); [|reflexivity].
  apply processor_keeps_effect. keeps_auto.
Qed.

Lemma keeps_custom_connect (custom : customCLJSREPLType) (f : connectFn) (session : Value)
    (name : string) (check : option checkConnectedFn) :
  connect (createCustomCLJSReplType E custom) = Some f ->
  keeps k (f session name check).
Proof.
  intros [= <-]. keeps_auto.
  apply keeps_evalConnectCode. intros l p [= <-] Hin.
  apply in_app_or in Hin as [Hin|Hin].
  - destruct (field_set (tellUserToStartRegExp custom)); [|destruct Hin].
    destruct Hin as [<-|[]]. apply custom_tellUser_keeps.
  - destruct (field_set (printThisLineRegExp custom)); [|destruct Hin].
    destruct Hin as [<-|[]]. apply custom_printLine_keeps.
Qed.

Lemma keeps_setUpCljsRepl (session shadowBuild : Value) :
  keeps k (setUpCljsRepl E session shadowBuild).
Proof. unfold setUpCljsRepl. keeps_auto. Qed.

(** [makeCljsSessionClone] itself writes [cljs] and [cljsBuild] only: it
    keeps what the routines of the strategy it finds keep. *)
Lemma keeps_makeCljsSessionClone (session : Value) (replType : string)
    (replTypes : list ReplType) :
  (forall repl, List.find (fun x => String.eqb (name x) replType) replTypes = Some repl ->
     (forall f s n c, start repl = Some f -> keeps k (f s n c)) /\
     (forall f s n c, connect repl = Some f -> keeps k (f s n c))) ->
  keeps k (makeCljsSessionClone E session replType replTypes).
Proof.
  intros Hreg. unfold makeCljsSessionClone.
  destruct (List.find _ replTypes) as [repl|].
  - destruct (Hreg repl eq_refl) as [Hstart Hconnect].
    assert (Hcall : forall s, keeps k (call_connect repl s)).
    { intros s. unfold call_connect.
      destruct (connect repl) as [f|] eqn:Hf; [now apply Hconnect | apply keeps_throw]. }
    destruct (start repl) as [f|] eqn:Hf; keeps_auto;
      first [apply Hcall | now apply Hstart].
  - keeps_auto.
Qed.

End Strategies.

Lemma connection_key_other (k : string) :
  k ∈ connection_keys -> k <> "cljs" /\ k <> "cljsBuild".
Proof.
  unfold connection_keys. intros Hk.
  repeat (apply elem_of_cons in Hk as [->|Hk]; [split; discriminate|]).
  now apply elem_of_nil in Hk.
Qed.

(** Every registered strategy, built in or custom, leaves the connection
    alone: its routines write [cljs] and [cljsBuild] only. *)
Lemma registry_keeps_connection (E : Env) (repl : ReplType) :
  In repl (getCLJSReplTypes E) -> strategy_keeps_connection repl.
Proof.
  intros Hin k Hk. destruct (connection_key_other k Hk) as [Hs Hb].
  assert (Hbuiltin : In repl (cljsReplTypes E) ->
            (forall f session name check, start repl = Some f -> keeps k (f session name check)) /\
            (forall f session name check, connect repl = Some f -> keeps k (f session name check))).
  { intros [<-|[<-|[<-|[]]]]; (split; intros f s n c Hf; [|injection Hf as <-]).
    - injection Hf as <-. now apply keeps_figwheelMain_start.
    - now apply keeps_figwheelMain_connect.
    - discriminate Hf.
    - now apply keeps_figwheel_connect.
    - discriminate Hf.
    - now apply keeps_shadow_connect. }
  unfold getCLJSReplTypes, getCustomCLJSRepl in Hin.
  destruct (customCljsRepl E) as [custom|]; [|now apply Hbuiltin].
  apply in_app_or in Hin as [Hin|[<-|[]]]; [now apply Hbuiltin|].
  split; intros f s n c Hf; [discriminate Hf|].
  now apply (keeps_custom_connect E k Hs Hb custom f).
Qed.

Lemma found_in_registry (E : Env) (replType : string) (repl : ReplType) :
  List.find (fun x => String.eqb (name x) replType) (getCLJSReplTypes E) = Some repl ->
  strategy_keeps_connection repl.
Proof.
  intros Hfind. apply (registry_keeps_connection E). now apply find_some in Hfind as [Hin _].
Qed.


(** * The orchestrator and the errors of the ClojureScript bring-up *)



(** * The role [cljc] *)

(** [recreateCljsRepl] rebinds [cljs] and leaves [cljc] where it was. *)
Lemma recreateCljsRepl_keeps_connection (E : Env) (k : string) :
  k ∈ connection_keys -> keeps k (recreateCljsRepl E).
Proof.
  intros Hk. destruct (connection_key_other k Hk) as [Hs Hb].
  unfold recreateCljsRepl. apply keeps_bind; [apply keeps_cursor_get|]. intros cljSession.
  apply keeps_bind; [apply keeps_workspaceState_get|]. intros cljsTypeName.
  apply keeps_bind.
  - destruct cljsTypeName;
      lazymatch goal with
      | |- keeps _ (makeCljsSessionClone _ _ _ _) =>
          apply (keeps_makeCljsSessionClone E k Hs Hb); intros repl Hfind;
          exact (found_in_registry E _ repl Hfind k Hk)
      | |- _ => unfold makeCljsSessionClone_unnamed; keeps_auto
      end.
  - intros [session shadowBuild]. apply keeps_bind; [|intros _; keeps_auto].
    destruct (truthy session); [now apply keeps_setUpCljsRepl | apply keeps_ret].
Qed.

(** What [toggleCLJCSession] does to the slots, case by case. *)
Lemma toggleCLJCSession_slots (w : World) :
  truthy (slot w "connected") = true ->
  fst (toggleCLJCSession w) = Ok tt /\
  slot (snd (toggleCLJCSession w)) "connected" = slot w "connected" /\
  slot (snd (toggleCLJCSession w)) "clj" = slot w "clj" /\
  slot (snd (toggleCLJCSession w)) "cljs" = slot w "cljs" /\
  slot (snd (toggleCLJCSession w)) "cljc" =
  (if loose_eq (slot w "cljc") (slot w "cljs") then slot w "clj"
   else if loose_eq (slot w "cljc") (slot w "clj") then slot w "cljs"
        else slot w "cljc").
Proof.
  intros Hconn.
  unfold toggleCLJCSession, getSession, bind, cursor_get, cursor_set, status_update, emit, ret.
  unfold slot in *. cbn [fst snd]. rewrite Hconn. cbn [fst snd store].
  destruct (loose_eq (default VUndef (store w !! "cljc")) (default VUndef (store w !! "cljs")));
    cbn [fst snd store].
  - rewrite lookup_insert_eq, !lookup_insert_ne by discriminate. auto.
  - destruct (loose_eq (default VUndef (store w !! "cljc"))
                (default VUndef (store w !! "clj"))); cbn [fst snd store].
    + rewrite lookup_insert_eq, !lookup_insert_ne by discriminate. auto.
    + auto.
Qed.

(** C8, which fails in the code. With the connected flag unset
    [toggleCLJCSession] changes nothing; with the flag set it moves [cljc]
    from the value of [cljs] to the value of [clj] and from the value of
    [clj] to the value of [cljs], leaving [clj] and [cljs] alone. But [cljc]
    does not always alias the [clj] or the [cljs] session. Connected without
    a ClojureScript session, a toggle binds [cljc] to what [cljs] holds: no
    session at all. And after [recreateCljsRepl] has bound [cljs] to a new
    session, a [cljc] that was on the old one aliases neither [clj] nor
    [cljs], and toggling no longer moves it. *)
Theorem toggleCLJCSession_alias_not_invariant (E : Env) (w : World) :
  (truthy (slot w "connected") = false -> toggleCLJCSession w = (Ok tt, w)) /\
  (truthy (slot w "connected") = true ->
   let w' := snd (toggleCLJCSession w) in
   slot w' "clj" = slot w "clj" /\
   slot w' "cljs" = slot w "cljs" /\
   (loose_eq (slot w "cljc") (slot w "cljs") = true -> slot w' "cljc" = slot w "clj") /\
   (loose_eq (slot w "cljc") (slot w "cljs") = false ->
    loose_eq (slot w "cljc") (slot w "clj") = true -> slot w' "cljc" = slot w "cljs")) /\
  (forall sid : nat,
     truthy (slot w "connected") = true ->
     slot w "clj" = VSession sid ->
     slot w "cljc" = VSession sid ->
     holds_session (slot w "cljs") = false ->
     let w' := snd (toggleCLJCSession w) in
     cljc_aliases_session w = true /\
     truthy (slot w' "connected") = true /\
     slot w' "clj" = VSession sid /\
     holds_session (slot w' "cljc") = false /\
     cljc_aliases_session w' = false) /\
  (forall (a b b' : nat) (w1 : World),
     truthy (slot w "connected") = true ->
     slot w "clj" = VSession a ->
     slot w "cljs" = VSession b ->
     slot w "cljc" = VSession b ->
     a <> b ->
     recreateCljsRepl E w = (Ok tt, w1) ->
     slot w1 "cljs" = VSession b' ->
     b' <> b ->
     cljc_aliases_session w = true /\
     truthy (slot w1 "connected") = true /\
     slot w1 "clj" = VSession a /\
     slot w1 "cljc" = VSession b /\
     cljc_aliases_session w1 = false /\
     slot (snd (toggleCLJCSession w1)) "cljc" = VSession b).
Proof.
  split; [|split; [|split]].
  - intros Hconn. unfold toggleCLJCSession, bind, cursor_get. cbn [fst snd].
    unfold slot in Hconn. now rewrite Hconn.
  - intros Hconn. cbv zeta.
    destruct (toggleCLJCSession_slots w Hconn) as (_ & _ & Hclj & Hcljs & Hcljc).
    split; [exact Hclj|]. split; [exact Hcljs|]. rewrite Hcljc. split.
    + now intros ->.
    + now intros -> ->.
  - intros sid Hconn Hclj Hcljc Hcljs. cbv zeta.
    destruct (toggleCLJCSession_slots w Hconn) as (_ & Hconn' & Hclj' & _ & Hcljc').
    assert (Hne : loose_eq (VSession sid) (slot w "cljs") = false).
    { destruct (slot w "cljs"); try reflexivity. discriminate Hcljs. }
    rewrite Hcljc, Hclj, Hne in Hcljc'. cbn [loose_eq] in Hcljc'.
    rewrite Nat.eqb_refl in Hcljc'.
    split; [|split; [|split; [|split]]].
    + unfold cljc_aliases_session. rewrite Hcljc, Hclj. cbn [loose_eq].
      now rewrite Nat.eqb_refl.
    + now rewrite Hconn'.
    + now rewrite Hclj'.
    + now rewrite Hcljc'.
    + unfold cljc_aliases_session. rewrite Hcljc'.
      destruct (slot w "cljs"); try reflexivity. discriminate Hcljs.
  - intros a b b' w1 Hconn Hclj Hcljs Hcljc Hab Hrun Hcljs1 Hb.
    assert (Hkept : forall k, k ∈ connection_keys -> slot w1 k = slot w k).
    { intros k Hk. pose proof (recreateCljsRepl_keeps_connection E k Hk w) as Hkeep.
      rewrite Hrun in Hkeep. cbn [snd] in Hkeep. unfold slot. now rewrite Hkeep. }
    assert (Hconn1 : slot w1 "connected" = slot w "connected")
      by (apply Hkept; repeat constructor).
    assert (Hclj1 : slot w1 "clj" = VSession a)
      by (rewrite <- Hclj; apply Hkept; repeat constructor).
    assert (Hcljc1 : slot w1 "cljc" = VSession b)
      by (rewrite <- Hcljc; apply Hkept; repeat constructor).
    assert (Hba : Nat.eqb b a = false) by (apply Nat.eqb_neq; congruence).
    assert (Hbb : Nat.eqb b b' = false) by (apply Nat.eqb_neq; congruence).
    split; [|split; [|split; [|split; [|split]]]].
    + unfold cljc_aliases_session. rewrite Hcljc, Hcljs. cbn [loose_eq].
      rewrite Nat.eqb_refl. apply orb_true_r.
    + now rewrite Hconn1.
    + exact Hclj1.
    + exact Hcljc1.
    + unfold cljc_aliases_session. rewrite Hcljc1, Hclj1, Hcljs1. cbn [loose_eq].
      now rewrite Hba, Hbb.
    + assert (Hc1 : truthy (slot w1 "connected") = true) by now rewrite Hconn1.
      destruct (toggleCLJCSession_slots w1 Hc1) as (_ & _ & _ & _ & Hstuck).
      rewrite Hstuck, Hcljc1, Hclj1, Hcljs1. cbn [loose_eq]. now rewrite Hba, Hbb.
Qed.

Lemma toggleCLJCSession_alias_not_invariant_witness :
  let w := Scenario.connected_world in
  let v := snd (toggleCLJCSession Sessions.connected) in
  let v1 := snd (recreateCljsRepl Sessions.env v) in
  (slot w "cljc" = VSession 1 /\
   slot (snd (toggleCLJCSession w)) "cljc" = VUndef /\
   cljc_aliases_session (snd (toggleCLJCSession w)) = false) /\
  (slot v "cljc" = VSession 10 /\
   slot v1 "clj" = VSession 1 /\
   slot v1 "cljs" = VSession 11 /\
   slot v1 "cljc" = VSession 10 /\
   cljc_aliases_session v1 = false /\
   slot (snd (toggleCLJCSession v1)) "cljc" = VSession 10).
Proof.
  cbv zeta. split.
  - destruct (proj1 (proj2 (proj2 (toggleCLJCSession_alias_not_invariant
                                     Sessions.env Scenario.connected_world)))
                1%nat eq_refl eq_refl eq_refl eq_refl)
      as (_ & _ & _ & _ & Hafter).
    split; [reflexivity|]. split; [reflexivity | exact Hafter].
  - pose (v := snd (toggleCLJCSession Sessions.connected)).
    destruct (proj2 (proj2 (proj2 (toggleCLJCSession_alias_not_invariant Sessions.env v)))
                1%nat 10%nat 11%nat (snd (recreateCljsRepl Sessions.env v))
                ltac:(vm_compute; reflexivity) ltac:(vm_compute; reflexivity)
                ltac:(vm_compute; reflexivity) ltac:(vm_compute; reflexivity)
                ltac:(discriminate) ltac:(vm_compute; reflexivity)
                ltac:(vm_compute; reflexivity) ltac:(discriminate))
      as (_ & _ & Hclj & Hcljc & Halias & Hstuck).
    split; [vm_compute; reflexivity|]. split; [exact Hclj|].
    split; [vm_compute; reflexivity|]. split; [exact Hcljc|].
    split; [exact Halias | exact Hstuck].
Defined.
